(** * GovInfo sitemap mirror: a shallow embedding of [core/tasks/govinfo.py]

    The development follows the Python module function by function.
    Strings are byte strings ([string] of the standard library, one [ascii]
    per character: URLs, option values and timestamps are ASCII), Python
    dictionaries are [gmap]s, the file system is a [gmap] from paths to file
    contents, exceptions are an explicit result type, and everything the
    module imports from elsewhere (the transport [utils.download], the ZIP
    and XML decoders, path routing of the bills scraper, ...) is a field of
    the [Environment] the functions are run in. *)

From stdpp Require Import gmap strings list.
From Stdlib Require Import Ascii String.

Open Scope string_scope.
Open Scope list_scope.

(** ** Python string primitives *)

Module Py.

(** [str.isspace] on the ASCII range: TAB..CR, FS..US and the blank. *)
Definition isspace (c : ascii) : bool :=
  let n := nat_of_ascii c in
  (Nat.leb 9 n && Nat.leb n 13) || (Nat.leb 28 n && Nat.leb n 32).

Fixpoint lstrip (s : string) : string :=
  match s with
  | String c s' => if isspace c then lstrip s' else s
  | EmptyString => EmptyString
  end.

Fixpoint rstrip (s : string) : string :=
  match s with
  | String c s' =>
      match rstrip s' with
      | EmptyString => if isspace c then EmptyString else String c EmptyString
      | t => String c t
      end
  | EmptyString => EmptyString
  end.

(** [s.strip()] *)
Definition strip (s : string) : string := rstrip (lstrip s).

(** [s.split(sep)] for a one-character separator: one more piece than
    there are separators, so splitting the empty string gives one empty piece. *)
Fixpoint split (sep : ascii) (s : string) : list string :=
  match s with
  | EmptyString => [EmptyString]
  | String c s' =>
      if Ascii.eqb c sep then EmptyString :: split sep s'
      else match split sep s' with
           | piece :: pieces => String c piece :: pieces
           | [] => [String c EmptyString]
           end
  end.

(** [x in l] for a list of strings. *)
Definition mem (x : string) (l : list string) : bool :=
  existsb (String.eqb x) l.

(** Truthiness of a string: [bool(s)]. *)
Definition truthy (s : string) : bool :=
  match s with EmptyString => false | _ => true end.

Fixpoint drop (n : nat) (s : string) : string :=
  match n, s with
  | S n', String _ s' => drop n' s'
  | _, _ => s
  end.

Fixpoint take (n : nat) (s : string) : string :=
  match n, s with
  | S n', String c s' => String c (take n' s')
  | _, _ => EmptyString
  end.

(** [s.replace(old, new)] for a non-empty [old]: leftmost occurrences,
    not overlapping.  [skip] counts the characters of an occurrence that
    are still to be passed over. *)
Fixpoint replace_from (old new : string) (skip : nat) (s : string) : string :=
  match s with
  | EmptyString => EmptyString
  | String c s' =>
      match skip with
      | S k => replace_from old new k s'
      | O =>
          if String.prefix old s
          then new +:+ replace_from old new (String.length old - 1) s'
          else String c (replace_from old new 0 s')
      end
  end.

Definition replace (old new s : string) : string := replace_from old new 0 s.

(** [s.rstrip(c)] for one character [c]. *)
Fixpoint rstrip_char (x : ascii) (s : string) : string :=
  match s with
  | String c s' =>
      match rstrip_char x s' with
      | EmptyString => if Ascii.eqb c x then EmptyString else String c EmptyString
      | t => String c t
      end
  | EmptyString => EmptyString
  end.

Fixpoint last_char (s : string) : option ascii :=
  match s with
  | EmptyString => None
  | String c EmptyString => Some c
  | String _ s' => last_char s'
  end.

(** [sep.join(l)] *)
Fixpoint join (sep : string) (l : list string) : string :=
  match l with
  | [] => EmptyString
  | [x] => x
  | x :: l' => x +:+ sep +:+ join sep l'
  end.

(** [sorted(l)] for strings: insertion sort on the byte order. *)
Fixpoint insert_sorted (x : string) (l : list string) : list string :=
  match l with
  | [] => [x]
  | y :: l' => if String.leb x y then x :: l else y :: insert_sorted x l'
  end.

Definition sorted (l : list string) : list string :=
  foldr insert_sorted [] l.

(** A [set] built from a sequence: its elements without repetition.  The
    iteration order of a Python set is not specified; the model iterates in
    order of first occurrence. *)
Fixpoint set_of (l : list string) : list string :=
  match l with
  | [] => []
  | x :: l' => x :: filter (λ y, y ≠ x) (set_of l')
  end.

End Py.

(** ** Regular expressions, as [re.match] runs them

    Only the constructs that occur in the module's patterns.  Matching is
    anchored at the start of the subject and not at its end; repetition is
    greedy and gives characters back one at a time; the first alternative
    that lets the rest of the pattern match wins. *)

Module Re.

Inductive regex : Type :=
| Lit (s : string)                (* the characters of [s] *)
| Any                             (* [.] : any character but a line feed *)
| Set_ (p : ascii → bool)         (* one character of a class *)
| Plus (p : ascii → bool)         (* [c+] for a class [c] *)
| Star (p : ascii → bool)         (* [c*] for a class [c] *)
| Seq (r1 r2 : regex)
| Alt (r1 r2 : regex)             (* [r1|r2] *)
| Group (r : regex)               (* [(r)] *)
| End.                            (* [$] *)

Definition is_digit (c : ascii) : bool :=
  let n := nat_of_ascii c in Nat.leb 48 n && Nat.leb n 57.

Definition is_lower (c : ascii) : bool :=
  let n := nat_of_ascii c in Nat.leb 97 n && Nat.leb n 122.

Definition is_upper (c : ascii) : bool :=
  let n := nat_of_ascii c in Nat.leb 65 n && Nat.leb n 90.

(** [\w] and [\d] on ASCII subjects. *)
Definition is_word (c : ascii) : bool :=
  is_digit c || is_lower c || is_upper c || Ascii.eqb c "_".

Definition not_newline (c : ascii) : bool := negb (Ascii.eqb c "010").

Definition is_not (x : ascii) (c : ascii) : bool := negb (Ascii.eqb c x).

(** Length of the longest prefix of [s] whose characters are all in [p]. *)
Fixpoint span (p : ascii → bool) (s : string) : nat :=
  match s with
  | String c s' => if p c then S (span p s') else 0
  | EmptyString => 0
  end.

Section Matcher.
Context {R : Type}.

(** Try the continuation with [n], [n-1], ..., [lo] characters taken. *)
Fixpoint backtrack (k : nat → option R) (lo n : nat) : option R :=
  if Nat.ltb n lo then None
  else match k n with
       | Some r => Some r
       | None => match n with
                 | O => None
                 | S n' => backtrack k lo n'
                 end
       end.

Fixpoint run (r : regex) (s : string) (gs : list string)
    (k : string → list string → option R) : option R :=
  match r with
  | Lit l => if String.prefix l s then k (Py.drop (String.length l) s) gs else None
  | Any =>
      match s with
      | String c s' => if not_newline c then k s' gs else None
      | EmptyString => None
      end
  | Set_ p =>
      match s with
      | String c s' => if p c then k s' gs else None
      | EmptyString => None
      end
  | Plus p => backtrack (λ n, k (Py.drop n s) gs) 1 (span p s)
  | Star p => backtrack (λ n, k (Py.drop n s) gs) 0 (span p s)
  | Seq r1 r2 => run r1 s gs (λ s' gs', run r2 s' gs' k)
  | Alt r1 r2 =>
      match run r1 s gs k with
      | Some x => Some x
      | None => run r2 s gs k
      end
  | Group r' =>
      run r' s gs
        (λ s' gs', k s' (gs' ++ [Py.take (String.length s - String.length s') s]))
  | End =>
      match s with
      | EmptyString => k s gs
      | String "010" EmptyString => k s gs
      | _ => None
      end
  end.
End Matcher.

(** [re.match(r, s)]: the groups of the match, in order, or [None]. *)
Definition rmatch (r : regex) (s : string) : option (list string) :=
  run r s [] (λ _ gs, Some gs).

(** [m.group(i)], for [i >= 1]. *)
Definition group (m : list string) (i : nat) : string :=
  nth (i - 1) m EmptyString.

Definition seq (rs : list regex) : regex :=
  foldr Seq (Lit EmptyString) rs.

End Re.

(** ** Constants *)

Definition GOVINFO_BASE_URL : string := "https://www.govinfo.gov/".
Definition COLLECTION_BASE_URL : string := GOVINFO_BASE_URL +:+ "app/details/".
Definition BULKDATA_BASE_URL : string := GOVINFO_BASE_URL +:+ "bulkdata/".

(** [COLLECTION_SITEMAPINDEX_PATTERN.format(collection=c)] *)
Definition COLLECTION_SITEMAPINDEX_PATTERN (collection : string) : string :=
  GOVINFO_BASE_URL +:+ "sitemap/" +:+ collection +:+ "_sitemap_index.xml".

(** [BULKDATA_SITEMAPINDEX_PATTERN.format(collection=c)] *)
Definition BULKDATA_SITEMAPINDEX_PATTERN (collection : string) : string :=
  GOVINFO_BASE_URL +:+ "sitemap/bulkdata/" +:+ collection +:+ "/sitemapindex.xml".

Definition FDSYS_BILLSTATUS_FILENAME : string := "fdsys_billstatus.xml".

(** ** The option dictionary

    A key that the command line did not give is [None]; [force] and [cached]
    hold the truth value of [options.get(key, False)].  The last three keys
    are the ones [utils.merge] adds for the transport. *)

Record Options : Type := mkOptions {
  opt_collections : option string;
  opt_bulkdata : option string;
  opt_years : option string;
  opt_congress : option string;
  opt_extract : option string;
  opt_filter : option string;
  opt_cached : bool;
  opt_force : bool;
  opt_binary : option bool;
  opt_to_cache : option bool;
  opt_needs_content : option bool
}.

Definition no_options : Options :=
  mkOptions None None None None None None false false None None None.

(** [options.get(key, '')]: the empty string when the key is missing. *)
Definition get_str (o : option string) : string := default EmptyString o.

(** ** The URL shapes of sitemaps *)

(** [re.escape(GOVINFO_BASE_URL) + sitemap/(\w+)_sitemap_index.xml] *)
Definition re_collection_index : Re.regex :=
  Re.seq [Re.Lit GOVINFO_BASE_URL; Re.Lit "sitemap/"; Re.Group (Re.Plus Re.is_word);
          Re.Lit "_sitemap_index"; Re.Any; Re.Lit "xml"].

(** [re.escape(GOVINFO_BASE_URL) + sitemap/bulkdata/(\w+)/sitemapindex.xml] *)
Definition re_bulkdata_index : Re.regex :=
  Re.seq [Re.Lit GOVINFO_BASE_URL; Re.Lit "sitemap/bulkdata/"; Re.Group (Re.Plus Re.is_word);
          Re.Lit "/sitemapindex"; Re.Any; Re.Lit "xml"].

(** [re.escape(GOVINFO_BASE_URL) + sitemap/(\w+)_(\d+)_sitemap.xml] *)
Definition re_year_sitemap : Re.regex :=
  Re.seq [Re.Lit GOVINFO_BASE_URL; Re.Lit "sitemap/"; Re.Group (Re.Plus Re.is_word);
          Re.Lit "_"; Re.Group (Re.Plus Re.is_digit); Re.Lit "_sitemap"; Re.Any;
          Re.Lit "xml"].

(** [re.escape(GOVINFO_BASE_URL)] followed by [sitemap/bulkdata/(\w+)/(\d+)], a
    third group of any characters (possibly none), and [/sitemap.xml]. *)
Definition re_bulkdata_grouping : Re.regex :=
  Re.seq [Re.Lit GOVINFO_BASE_URL; Re.Lit "sitemap/bulkdata/"; Re.Group (Re.Plus Re.is_word);
          Re.Lit "/"; Re.Group (Re.Plus Re.is_digit); Re.Group (Re.Star Re.not_newline);
          Re.Lit "/sitemap"; Re.Any; Re.Lit "xml"].

(** [re.escape(GOVINFO_BASE_URL) + sitemap/bulkdata/(\w+)/(.+)/sitemap.xml] *)
Definition re_bulkdata_sitemap : Re.regex :=
  Re.seq [Re.Lit GOVINFO_BASE_URL; Re.Lit "sitemap/bulkdata/"; Re.Group (Re.Plus Re.is_word);
          Re.Lit "/"; Re.Group (Re.Plus Re.not_newline); Re.Lit "/sitemap"; Re.Any;
          Re.Lit "xml"].

(** ** [should_skip_sitemap] *)

Definition should_skip_sitemap (url : string) (options : Options) : bool :=
  (* Don't skip sitemap indexes. *)
  if Re.rmatch re_collection_index url is Some _ then false
  else if Re.rmatch re_bulkdata_index url is Some _ then false
  else
    let year_filter := Py.strip (get_str (opt_years options)) in
    let congress_filter := Py.strip (get_str (opt_congress options)) in
    (* Regular collections are grouped by publication year. *)
    let by_year :=
      match Re.rmatch re_year_sitemap url with
      | Some m =>
          let year := Re.group m 2 in
          Py.truthy year_filter && negb (Py.mem year (Py.split "," year_filter))
      | None => false
      end in
    if by_year then true
    else
      (* Bulk data collections are grouped into subdirectories. *)
      match Re.rmatch re_bulkdata_grouping url with
      | Some m =>
          let numeric_grouping := Re.group m 2 in
          if Py.truthy year_filter
             && negb (Py.mem numeric_grouping (Py.split "," year_filter))
          then true
          else if Py.truthy congress_filter
                  && negb (Py.mem numeric_grouping (Py.split "," congress_filter))
          then true
          else false
      | None => false
      end.

(** ** Exceptions and results *)

Inductive exn : Type :=
| ValueError (msg : string)
| KeyError (key : string)
| BadZipfile
| Exception (msg : string)
| LoadError (path : string)        (* the YAML loader refused the file *)
| RecursionError                   (* the interpreter's recursion limit *)
| CollaboratorError (who : string)   (* raised by a collaborator of the environment *)
| FileNotFoundError (path : string)  (* [open(path, "w")] in a directory that is not there *)
| AttributeError (attribute : string).  (* the object has no such attribute *)

Inductive result (A : Type) : Type :=
| Ret (a : A)
| Raise (e : exn).
Arguments Ret {A} a.
Arguments Raise {A} e.

(** ** [get_sitemap_cache_file] *)

Definition get_sitemap_cache_file (url : string) : result string :=
  match Re.rmatch re_collection_index url with
  | Some m => Ret (Re.group m 1)
  | None =>
  match Re.rmatch re_year_sitemap url with
  | Some m => Ret (Re.group m 1 +:+ "/" +:+ Re.group m 2)
  | None =>
  match Re.rmatch re_bulkdata_index url with
  | Some m => Ret (Re.group m 1 +:+ "-bulkdata")
  | None =>
  match Re.rmatch re_bulkdata_sitemap url with
  | Some m => Ret (Re.group m 1 +:+ "-bulkdata/" +:+ Re.group m 2)
  | None => Raise (ValueError url)
  end end end end.

(** ** [should_download_sitemap]

    [lastmod_cache] is [store.get("lastmod")]; [current_lastmod] is [None]
    at the root of a tree and the text of the parent's [<lastmod>] element
    below it (the empty string when the element is missing). *)

Definition should_download_sitemap
    (lastmod_cache current_lastmod : option string) (options : Options) : bool :=
  match current_lastmod with
  | None | Some EmptyString =>
      (* No lastmod is known for this file. *)
      true
  | Some _ =>
      if opt_force options then true
      else if opt_cached options then false
      else negb (bool_decide (current_lastmod = lastmod_cache))
  end.

(** ** [os.path] on POSIX paths *)

Module OsPath.

Definition ends_with_slash (a : string) : bool :=
  bool_decide (Py.last_char a = Some "/"%char).

(** [os.path.join(a, b)] *)
Definition join (a b : string) : string :=
  if String.prefix "/" b then b
  else if negb (Py.truthy a) || ends_with_slash a then a +:+ b
  else a +:+ "/" +:+ b.

(** [s.rfind(c)]: the index of the last [c] in [s], or [-1]. *)
Fixpoint rfind (c : ascii) (s : string) : Z :=
  match s with
  | EmptyString => (-1)%Z
  | String x s' =>
      let r := rfind c s' in
      if (0 <=? r)%Z then (r + 1)%Z
      else if Ascii.eqb x c then 0%Z else (-1)%Z
  end.

Fixpoint all_chars (p : ascii → bool) (s : string) : bool :=
  match s with
  | EmptyString => true
  | String c s' => p c && all_chars p s'
  end.

(** [os.path.basename(p)] *)
Definition basename (p : string) : string :=
  Py.drop (Z.to_nat (rfind "/" p + 1)) p.

(** [os.path.dirname(p)] *)
Definition dirname (p : string) : string :=
  let head := Py.take (Z.to_nat (rfind "/" p + 1)) p in
  if Py.truthy head && negb (all_chars (Ascii.eqb "/") head)
  then Py.rstrip_char "/" head
  else head.

(** [os.path.splitext(p)[0]]: the extension starts at the last dot of the
    last component, unless only dots precede it there. *)
Definition splitext_root (p : string) : string :=
  let sepIndex := rfind "/" p in
  let dotIndex := rfind "." p in
  if (sepIndex <? dotIndex)%Z then
    let filenameIndex := Z.to_nat (sepIndex + 1) in
    let stem := Py.take (Z.to_nat dotIndex - filenameIndex) (Py.drop filenameIndex p) in
    if all_chars (Ascii.eqb ".") stem then p
    else Py.take (Z.to_nat dotIndex) p
  else p.

End OsPath.

(** ** The world: files, and a log of the calls that leave the module *)

Inductive event : Type :=
| EvDownload (url destination : string) (options : Options)  (* [utils.download] *)
| EvZipOpen (path : string)                                  (* [zipfile.ZipFile] *)
| EvStoreDump (trail : list string) (path : string).         (* [rtyaml.dump] by the call with this trail *)

Record World : Type := mkWorld {
  fs : gmap string string;
  log : list event
}.

Definition set_fs (f : gmap string string → gmap string string) (w : World) : World :=
  mkWorld (f (fs w)) (log w).

Definition emit (e : event) (w : World) : World :=
  mkWorld (fs w) (log w ++ [e]).

(** [os.path.exists(path)], for files. *)
Definition path_exists (path : string) (w : World) : bool :=
  bool_decide (is_Some (fs w !! path)).

(** The world records files only.  A directory is on disk when a file lies
    beneath it: whoever writes a file through [utils] makes its directories
    first, and nothing here removes a directory.  The working directory (the
    empty path) and the root are always there.  A disk with an empty
    directory has no counterpart in this model. *)
Definition dir_exists (directory : string) (w : World) : bool :=
  negb (Py.truthy directory)
  || OsPath.all_chars (Ascii.eqb "/") directory
  || existsb (String.prefix (directory +:+ "/")) (map_to_list (fs w)).*1.

(** ** Computations: a state and an outcome

    A computation may change the state and raise; the state it leaves is
    kept in both cases, as Python keeps the changes made to a dictionary or
    to the disk before an exception. *)

Definition M (S A : Type) : Type := S → result A * S.

#[global] Instance M_ret {S} : MRet (M S) := λ A a s, (Ret a, s).

#[global] Instance M_bind {S} : MBind (M S) :=
  λ A B k m s, match m s with
               | (Ret a, s') => k a s'
               | (Raise e, s') => (Raise e, s')
               end.

Definition raise {S A} (e : exn) : M S A := λ s, (Raise e, s).

(** [try: body finally: handler] *)
Definition try_finally {S A} (body : M S A) (handler : M S unit) : M S A :=
  λ s, match body s with
       | (r, s') =>
           match handler s' with
           | (Ret _, s'') => (r, s'')
           | (Raise e, s'') => (Raise e, s'')
           end
       end.

(** [try: body except E: handler], where [catches] recognises [E]. *)
Definition try_except {S A} (body : M S A) (catches : exn → bool) (handler : exn → M S A)
    : M S A :=
  λ s, match body s with
       | (Raise e, s') => if catches e then handler e s' else (Raise e, s')
       | ok => ok
       end.

Definition get_state {S} : M S S := λ s, (Ret s, s).
Definition modify {S} (f : S → S) : M S unit := λ s, (Ret tt, f s).

(** For-loop over a list, stopping at the first exception. *)
Fixpoint for_each {S A} (l : list A) (body : A → M S unit) : M S unit :=
  match l with
  | [] => mret tt
  | x :: l' => body x;; for_each l' body
  end.

(** Run a computation on one component of a pair of states. *)
Definition on_snd {S1 S2 A} (m : M S2 A) : M (S1 * S2) A :=
  λ '(s1, s2), let '(r, s2') := m s2 in (r, (s1, s2')).

Definition on_fst {S1 S2 A} (m : M S1 A) : M (S1 * S2) A :=
  λ '(s1, s2), let '(r, s1') := m s1 in (r, (s1', s2)).

(** ** Values that tasks return: a list of paths, [True] or [None] *)

Inductive retval : Type :=
| RList (paths : list string)
| RTrue
| RNone.

(** ** Freshness records

    The record of one package is the dictionary under its ["files"] key:
    format name (or ["package"]) to timestamp.  A sitemap's store holds its
    own [lastmod] and, once a package was listed, the [packages] map. *)

Abbreviation Files := (gmap string string).
Abbreviation Packages := (gmap string (gmap string string)).

Record Store : Type := mkStore {
  store_lastmod : option string;
  store_packages : option Packages
}.

Definition empty_store : Store := mkStore None None.

(** ** Identifiers of bills *)

(** [int(s)] for an ASCII string: blanks around, a sign, digits with single
    underscores between them; [None] stands for the [ValueError].  The blanks
    are the six of C's [isspace] (not the separators FS..US that [str.strip]
    also drops), and a literal of more than [max_str_digits] digits is
    refused. *)
Module PyInt.

Definition isspace (c : ascii) : bool :=
  let n := nat_of_ascii c in
  (Nat.leb 9 n && Nat.leb n 13) || Nat.eqb n 32.

Fixpoint lstrip (s : string) : string :=
  match s with
  | String c s' => if isspace c then lstrip s' else s
  | EmptyString => EmptyString
  end.

Fixpoint rstrip (s : string) : string :=
  match s with
  | String c s' =>
      match rstrip s' with
      | EmptyString => if isspace c then EmptyString else String c EmptyString
      | t => String c t
      end
  | EmptyString => EmptyString
  end.

Definition strip (s : string) : string := rstrip (lstrip s).

Fixpoint digits (acc : Z) (after_digit : bool) (s : string) : option Z :=
  match s with
  | EmptyString => if after_digit then Some acc else None
  | String c s' =>
      if Re.is_digit c
      then digits (10 * acc + Z.of_nat (nat_of_ascii c - 48)) true s'
      else if Ascii.eqb c "_" && after_digit
           then match s' with
                | String d _ => if Re.is_digit d then digits acc false s' else None
                | EmptyString => None
                end
           else None
  end.

(** The number of digits in [s], leading zeros included. *)
Fixpoint count_digits (s : string) : Z :=
  match s with
  | EmptyString => 0%Z
  | String c s' => ((if Re.is_digit c then 1 else 0) + count_digits s')%Z
  end.

(** [sys.get_int_max_str_digits()], as the interpreter starts. *)
Definition max_str_digits : Z := 4300%Z.

Definition int (s : string) : option Z :=
  let t := strip s in
  if (max_str_digits <? count_digits t)%Z then None
  else
    match t with
    | String "-" u => Z.opp <$> digits 0 false u
    | String "+" u => digits 0 false u
    | u => digits 0 false u
    end.

End PyInt.

Inductive bill_id : Type :=
| BillAndVersion (bill version_code : string)   (* the pair, [with_version=False] *)
| BillVersionId (id : string).

Definition is_lower_or_digit (c : ascii) : bool := Re.is_lower c || Re.is_digit c.

(** [(\d+)([a-z]+)(\d+)([a-z][a-z0-9]*|)$] *)
Definition re_bill_package : Re.regex :=
  Re.seq [Re.Group (Re.Plus Re.is_digit); Re.Group (Re.Plus Re.is_lower);
          Re.Group (Re.Plus Re.is_digit);
          Re.Group (Re.Alt (Re.Seq (Re.Set_ Re.is_lower) (Re.Star is_lower_or_digit))
                           (Re.Lit EmptyString));
          Re.End].

Definition get_bill_id_for_package (package_name : string) (with_version : bool)
    (restrict_to_congress : option string) : result (option bill_id) :=
  match Re.rmatch re_bill_package package_name with
  | None => Raise (Exception ("Unmatched bill document package name: " +:+ package_name))
  | Some m =>
      let congress := Re.group m 1 in
      let bill_type := Re.group m 2 in
      let bill_number := Re.group m 3 in
      let version_code := Re.group m 4 in
      let answer :=
        if negb with_version
        then BillAndVersion (bill_type +:+ bill_number +:+ "-" +:+ congress) version_code
        else BillVersionId (bill_type +:+ bill_number +:+ "-" +:+ congress +:+ "-"
                            +:+ version_code) in
      if Py.truthy (get_str restrict_to_congress) then
        match PyInt.int congress, PyInt.int (get_str restrict_to_congress) with
        | Some a, Some b => if bool_decide (a ≠ b) then Ret None else Ret (Some answer)
        | _, _ => Raise (ValueError "invalid literal for int()")
        end
      else Ret (Some answer)
  end.

Definition is_hse (c : ascii) : bool :=
  Ascii.eqb c "h" || Ascii.eqb c "s" || Ascii.eqb c "e".

(** [(\d+)([hse]rpt)(\d+)$] *)
Definition re_crpt_package : Re.regex :=
  Re.seq [Re.Group (Re.Plus Re.is_digit);
          Re.Group (Re.Seq (Re.Set_ is_hse) (Re.Lit "rpt"));
          Re.Group (Re.Plus Re.is_digit); Re.End].

(** [utils.merge(options, overrides)] for the keys the transport reads; an
    override that is [None] leaves the key as it is. *)
Definition merge (options : Options) (force : option bool)
    (binary to_cache needs_content : option bool) : Options :=
  {| opt_collections := opt_collections options;
     opt_bulkdata := opt_bulkdata options;
     opt_years := opt_years options;
     opt_congress := opt_congress options;
     opt_extract := opt_extract options;
     opt_filter := opt_filter options;
     opt_cached := opt_cached options;
     opt_force := default (opt_force options) force;
     opt_binary := from_option Some (opt_binary options) binary;
     opt_to_cache := from_option Some (opt_to_cache options) to_cache;
     opt_needs_content := from_option Some (opt_needs_content options) needs_content |}.

(** A parsed sitemap document: the root tag and, for each [x:sitemap] or
    [x:url] child, the strings of its [x:loc] and [x:lastmod]. *)
Inductive sitemap : Type :=
| SitemapIndex (entries : list (string * string))
| UrlSet (entries : list (string * string))
| OtherDocument.

(** What [rtyaml.load] gives for a store file: a mapping, read as a store,
    or any other value (a scalar, a sequence, nothing at all).  Of a value
    that is not a mapping only the text that [rtyaml.dump] writes for it
    matters here. *)
Inductive yaml_document : Type :=
| YamlMapping (store : Store)
| YamlOther (dumped : string).

(** ** The mirror *)

(** What the module takes from its environment. *)
Record Environment : Type := mkEnvironment {
  (** [utils.download(url, destination, options)]: the body, or nothing on
      failure; it may write the destination or its cache. *)
  env_download :
    string → string → Options → gmap string string → option string * gmap string string;
  (** [utils.cache_dir()] and [utils.data_dir()] *)
  env_cache_dir : string;
  env_data_dir : string;
  (** [output_for_bill(bill_id, filename, is_data_dot=False)] of the bills task. *)
  env_output_for_bill : string → string → string;
  (** The members of a ZIP archive, or nothing when [zipfile] refuses the bytes. *)
  env_zip_decode : string → option (gmap string string);
  (** [re.search(pattern, subject)] for the user's [--filter]. *)
  env_re_search : string → string → bool;
  (** [str(html.fromstring(data).text_content()).encode("utf8")] *)
  env_html_text_content : string → string;
  (** [extract_bill_version_metadata(package_name, text_path)], which reads
      the extracted MODS file and writes [data.json]. *)
  env_extract_bill_version_metadata :
    string → string → gmap string string → result unit * gmap string string;
  (** [etree.fromstring(body)] with the two XPath queries; nothing on an
      [XMLSyntaxError]. *)
  env_parse_sitemap : string → option sitemap;
  (** [rtyaml.load] (nothing when the loader raises) and [rtyaml.dump]. *)
  env_yaml_load : string → option yaml_document;
  env_yaml_dump : Store → string;
  (** [CongressConstants.CONRESS_PROCESSES_TO_CREATE.value], the number of
      worker processes of the pool. *)
  env_processes : positive
}.

Section Mirror.

Variable env : Environment.

#[local] Abbreviation download := (env_download env).
#[local] Abbreviation cache_dir := (env_cache_dir env).
#[local] Abbreviation data_dir := (env_data_dir env).
#[local] Abbreviation output_for_bill := (env_output_for_bill env).
#[local] Abbreviation zip_decode := (env_zip_decode env).
#[local] Abbreviation re_search := (env_re_search env).
#[local] Abbreviation html_text_content := (env_html_text_content env).
#[local] Abbreviation extract_bill_version_metadata :=
  (env_extract_bill_version_metadata env).
#[local] Abbreviation parse_sitemap := (env_parse_sitemap env).
#[local] Abbreviation yaml_load := (env_yaml_load env).
#[local] Abbreviation yaml_dump := (env_yaml_dump env).
#[local] Abbreviation processes := (env_processes env).

(** *** Files *)

(** Modelled from the spec: [utils.read] and [utils.write] are not part of
    this module; a marker file holds exactly the raw lastmod token (section 6
    of the specification), so reading returns the stored text and writing
    stores the text given. *)
Definition utils_read (path : string) : M World (option string) :=
  λ w, (Ret (fs w !! path), w).

Definition utils_write (text path : string) : M World unit :=
  modify (set_fs <[path := text]>).

(** [os.unlink(path)] *)
Definition os_unlink (path : string) : M World unit :=
  λ w, if path_exists path w then (Ret tt, set_fs (delete path) w)
       else (Raise (Exception ("No such file or directory: " +:+ path)), w).

Definition exists_ (path : string) : M World bool :=
  λ w, (Ret (path_exists path w), w).

Definition utils_download (url destination : string) (options : Options)
    : M World (option string) :=
  λ w, let '(body, fs') := download url destination options (fs w) in
       (Ret body, mkWorld fs' (log w ++ [EvDownload url destination options])).

Definition bill_version_metadata (package_name text_path : string) : M World unit :=
  λ w, let '(r, fs') := extract_bill_version_metadata package_name text_path (fs w) in
       (r, mkWorld fs' (log w)).

(** Truth value of what the transport returned. *)
Definition body_ok (body : option string) : bool :=
  match body with Some b => Py.truthy b | None => false end.

(** *** [get_output_path] *)

Definition get_output_path (collection package_name : string) (options : Options)
    : result (option string) :=
  if bool_decide (collection = "BILLS") then
    match get_bill_id_for_package package_name false (opt_congress options) with
    | Raise e => Raise e
    | Ret None => Ret None
    | Ret (Some (BillAndVersion bill version_code)) =>
        Ret (Some (output_for_bill bill ("text-versions/" +:+ version_code)))
    | Ret (Some (BillVersionId _)) => Raise (Exception "not a pair")
    end
  else if bool_decide (collection = "CRPT") then
    match Re.rmatch re_crpt_package package_name with
    | None => Raise (ValueError package_name)
    | Some m =>
        let congress := Re.group m 1 in
        let report_type := Re.group m 2 in
        let report_number := Re.group m 3 in
        if Py.truthy (get_str (opt_congress options))
           && negb (String.eqb congress (get_str (opt_congress options)))
        then Ret None
        else Ret (Some (data_dir +:+ "/" +:+ congress +:+ "/" +:+ "crpt" +:+ "/"
                        +:+ report_type +:+ "/" +:+ report_type +:+ report_number))
    end
  else
    Ret (Some (data_dir +:+ "/govinfo/" +:+ collection +:+ "/" +:+ package_name)).

(** *** [mirror_package_zipfile]

    The state is the package's record and the world; the answer is [true]
    for [True] and [false] for the bare [return]. *)

Definition mirror_package_zipfile (collection package_name file_path lastmod : string)
    (options : Options) : M (Files * World) bool :=
  lastmod_cache ← on_fst get_state;
  (* Do we already have this file updated? *)
  if bool_decide (lastmod_cache !! "package" = Some lastmod) && negb (opt_force options)
  then mret false
  else
    present ← on_snd (exists_ file_path);
    (* With --cached, skip if the file is already downloaded. *)
    if present && opt_cached options then mret false
    else
      let file_url := GOVINFO_BASE_URL +:+ "content/pkg/" +:+ collection +:+ "-"
                      +:+ package_name +:+ ".zip" in
      on_snd (utils_download file_url file_path
                (merge options (Some true) (Some true) (Some false) (Some false)));;
      (* Update the lastmod of the downloaded file. *)
      on_fst (modify <["package" := lastmod]>);;
      mret true.

(** *** [extract_package_files] *)

(** The formats the user wants, as the set comprehension builds them from
    [options.get("extract", ...)]. *)
Definition requested_formats (options : Options) : list string :=
  Py.set_of (List.filter (λ format, Py.truthy (Py.strip format))
               (Py.split "," (get_str (opt_extract options)))).

(** The table [format_paths], with the member name already formatted. *)
Definition format_paths (collection package_name format : string)
    : option (string * string) :=
  let stem := collection +:+ "-" +:+ package_name in
  if String.eqb format "pdf" then
    Some (stem +:+ "/pdf/" +:+ stem +:+ ".pdf", "document.pdf")
  else if String.eqb format "text" then
    Some (stem +:+ "/html/" +:+ stem +:+ ".htm", "document.html")
  else if String.eqb format "xml" then
    Some (stem +:+ "/xml/" +:+ stem +:+ ".xml", "document.xml")
  else if String.eqb format "mods" then Some (stem +:+ "/mods.xml", "mods.xml")
  else if String.eqb format "premis" then Some (stem +:+ "/premis.xml", "premis.xml")
  else None.

(** [lastmod_cache.get(format) is None or
     lastmod_cache[format] < lastmod_cache['package']] *)
Definition is_stale (lastmod_cache : Files) (format : string) : result bool :=
  match lastmod_cache !! format with
  | None => Ret true
  | Some t =>
      match lastmod_cache !! "package" with
      | Some package_lastmod => Ret (String.ltb t package_lastmod)
      | None => Raise (KeyError "package")
      end
  end.

(** The comprehension that keeps the formats to extract. *)
Fixpoint stale_formats (lastmod_cache : Files) (formats : list string)
    : result (list string) :=
  match formats with
  | [] => Ret []
  | format :: rest =>
      match is_stale lastmod_cache format with
      | Raise e => Raise e
      | Ret keep =>
          match stale_formats lastmod_cache rest with
          | Raise e => Raise e
          | Ret kept => Ret (if keep then format :: kept else kept)
          end
      end
  end.

(** [zipfile.ZipFile(path)] *)
Definition zip_open (path : string) : M World (gmap string string) :=
  λ w, let w' := emit (EvZipOpen path) w in
       match fs w !! path with
       | None => (Raise (Exception ("No such file or directory: " +:+ path)), w')
       | Some bytes =>
           match zip_decode bytes with
           | Some members => (Ret members, w')
           | None => (Raise BadZipfile, w')
           end
       end.

Definition is_KeyError (e : exn) : bool :=
  match e with KeyError _ => true | _ => false end.

(** The paths one format contributes when its member is in the archive. *)
Definition format_outputs (local_path format : string) : list string :=
  if String.eqb format "text"
  then [local_path; Py.replace ".html" ".txt" local_path]
  else [local_path].

(** One turn of the loop over the formats; the answer is what the turn
    appends to [extracted_files]. *)
Definition extract_one (collection package_name package_file : string)
    (package : gmap string string) (format : string) : M (Files * World) (list string) :=
  match format_paths collection package_name format with
  | None => raise (ValueError ("invalid format: " +:+ format))
  | Some (package_path, local_name) =>
      let local_path := OsPath.join (OsPath.dirname package_file) local_name in
      extracted ←
        try_finally
          (try_except
             (match package !! package_path with
              | None => raise (KeyError package_path)
              | Some data => on_snd (utils_write data local_path);; mret true
              end)
             is_KeyError
             (* No file of this format is present in this package: continue. *)
             (λ _, mret false))
          (* Even if the file didn't exist, update the format's lastmod. *)
          (lastmod_cache ← on_fst get_state;
           match lastmod_cache !! "package" with
           | Some package_lastmod => on_fst (modify <[format := package_lastmod]>)
           | None => raise (KeyError "package")
           end);
      if extracted : bool then
        (if String.eqb format "text" then
           (* Unwrap the HTML container into a .txt file. *)
           html ← on_snd (utils_read local_path);
           on_snd (utils_write (html_text_content (get_str html))
                     (Py.replace ".html" ".txt" local_path))
         else mret tt);;
        (if String.eqb collection "BILLS" && String.eqb format "mods" then
           on_snd (bill_version_metadata package_name (OsPath.dirname package_file))
         else mret tt);;
        mret (format_outputs local_path format)
      else mret []
  end.

Fixpoint extract_loop (collection package_name package_file : string)
    (package : gmap string string) (formats : list string) (extracted_files : list string)
    : M (Files * World) (list string) :=
  match formats with
  | [] => mret extracted_files
  | format :: rest =>
      added ← extract_one collection package_name package_file package format;
      extract_loop collection package_name package_file package rest
        (extracted_files ++ added)
  end.

Definition extract_package_files (collection package_name package_file : string)
    (options : Options) : M (Files * World) (list string) :=
  present ← on_snd (exists_ package_file);
  if negb present then mret []
  else
    lastmod_cache ← on_fst get_state;
    (* Extract only files if the package lastmod is newer than the file's lastmod. *)
    match stale_formats lastmod_cache (requested_formats options) with
    | Raise e => raise e
    | Ret [] =>
        (* Don't even bother opening the ZIP file. *)
        mret []
    | Ret extract_formats =>
        package ← on_snd (zip_open package_file);
        extract_loop collection package_name package_file package extract_formats []
    end.

(** *** [mirror_package] *)

(** The two [setdefault] calls: the rest of the function works on the
    dictionary stored under the package's name, created empty if missing. *)
Definition with_record {A} (package_name : string) (m : M (Files * World) A)
    : M (Packages * World) A :=
  λ '(packages, w),
    let '(r, (files, w')) := m (default ∅ (packages !! package_name), w) in
    (r, (<[package_name := files]> packages, w')).

Definition is_BadZipfile (e : exn) : bool :=
  match e with BadZipfile => true | _ => false end.

Definition package_file_path (path : string) : string :=
  OsPath.join path "package.zip".

Definition package_marker_path (path : string) : string :=
  OsPath.splitext_root (package_file_path path) +:+ "-lastmod.txt".

Definition mirror_package_in (collection package_name lastmod path : string)
    (options : Options) : M (Files * World) retval :=
  let file_path := package_file_path path in
  let lastmod_cache_file := package_marker_path path in
  (* If the file was supposedly downloaded before but it is missing,
     force a re-download by clearing the lastmod cache. *)
  lastmod_cache ← on_fst get_state;
  present ← on_snd (exists_ file_path);
  (if bool_decide (lastmod_cache ≠ ∅) && negb present
   then on_fst (modify (λ _, ∅)) else mret tt);;
  marker ← on_snd (exists_ lastmod_cache_file);
  current ←
    (if marker && negb (opt_force options) then
       lastmod_cache_file_value ← on_snd (utils_read lastmod_cache_file);
       mret (bool_decide (Some lastmod = lastmod_cache_file_value))
     else mret false);
  if current : bool then mret RTrue
  else
    (* Download the package ZIP file if it's updated. *)
    downloaded ← mirror_package_zipfile collection package_name file_path lastmod options;
    let downloaded_files := if downloaded : bool then [file_path] else [] in
    extraction ←
      try_except
        (extracted_files ← extract_package_files collection package_name file_path options;
         mret (Some (downloaded_files ++ extracted_files)))
        is_BadZipfile
        (* If the ZIP file is corrupt, log the error and delete the file. *)
        (λ _, on_snd (os_unlink file_path);; mret None);
    match extraction with
    | None => mret (RList [])
    | Some downloaded_files =>
        (if Py.truthy lastmod then on_snd (utils_write lastmod lastmod_cache_file)
         else mret tt);;
        mret (RList downloaded_files)
    end.

Definition mirror_package (collection package_name lastmod : string) (options : Options)
    : M (Packages * World) retval :=
  match get_output_path collection package_name options with
  | Raise e => raise e
  | Ret path =>
      if negb (Py.truthy (get_str path)) then mret (RList [])   (* should skip *)
      else with_record package_name
             (mirror_package_in collection package_name lastmod (get_str path) options)
  end.

(** *** [mirror_bulkdata_file] *)

Definition mirror_bulkdata_file (collection url item_path lastmod : string)
    (options : Options) : M World retval :=
  path ←
    (if String.eqb collection "BILLSTATUS" then
       match get_bill_id_for_package
               (OsPath.splitext_root
                  (OsPath.basename (Py.replace "BILLSTATUS-" EmptyString item_path)))
               false None with
       | Raise e => raise e
       | Ret (Some (BillAndVersion bill _)) =>
           mret (output_for_bill bill FDSYS_BILLSTATUS_FILENAME)
       | Ret _ => raise (Exception "cannot unpack")
       end
     else mret (data_dir +:+ "/govinfo/" +:+ collection +:+ "/" +:+ item_path));
  let lastmod_cache_file := OsPath.splitext_root path +:+ "-lastmod.txt" in
  (* Do we already have this file up to date? *)
  marker ← exists_ lastmod_cache_file;
  current ←
    (if marker && negb (opt_force options) then
       value ← utils_read lastmod_cache_file;
       mret (bool_decide (Some lastmod = value))
     else mret false);
  if current : bool then mret (RList [path])
  else
    present ← exists_ path;
    (* With --cached, skip if the file is already downloaded. *)
    if present && opt_cached options then mret RNone
    else
      data ← utils_download url path (merge options (Some true) (Some true) (Some false) None);
      if negb (body_ok data) then mret RNone   (* Something failed. *)
      else utils_write lastmod lastmod_cache_file;; mret (RList [path]).

(** *** The walker: [update_sitemap] and [update_sitemap2] *)

(** [COLLECTION_BASE_URL] followed by [([^-]+)-] and a group of any
    characters; the base is not escaped, so its dots match any character. *)
Definition re_collection_item : Re.regex :=
  Re.seq [Re.Lit "https://www"; Re.Any; Re.Lit "govinfo"; Re.Any; Re.Lit "gov/app/details/";
          Re.Group (Re.Plus (Re.is_not "-")); Re.Lit "-"; Re.Group (Re.Star Re.not_newline)].

(** [BULKDATA_BASE_URL] followed by [([^/]+)/] and a group of any characters. *)
Definition re_bulkdata_item : Re.regex :=
  Re.seq [Re.Lit "https://www"; Re.Any; Re.Lit "govinfo"; Re.Any; Re.Lit "gov/bulkdata/";
          Re.Group (Re.Plus (Re.is_not "/")); Re.Lit "/"; Re.Group (Re.Star Re.not_newline)].

(** Arguments of the two kinds of task; the options and, for packages, the
    shared [packages] dictionary are added at dispatch. *)
Record package_task : Type :=
  mkPackageTask { pt_collection : string; pt_package_name : string; pt_lastmod : string }.
Record bulkdata_task : Type :=
  mkBulkdataTask { bt_collection : string; bt_url : string; bt_item_path : string;
                   bt_lastmod : string }.

(** [options.get("filter") and not re.search(options["filter"], name)] *)
Definition filtered_out (options : Options) (name : string) : bool :=
  Py.truthy (get_str (opt_filter options))
  && negb (re_search (get_str (opt_filter options)) name).

(** [lastmod_cache.setdefault("packages", {})] *)
Definition setdefault_packages (store : Store) : Store :=
  mkStore (store_lastmod store) (Some (default ∅ (store_packages store))).

(** The loop over the [x:url] nodes, which sorts the items into tasks. *)
Fixpoint collect_tasks (how_we_got_here : list string) (options : Options)
    (nodes : list (string * string))
    (package_tasks : list package_task) (bulkdata_tasks : list bulkdata_task)
    : M Store (list package_task * list bulkdata_task) :=
  match nodes with
  | [] => mret (package_tasks, bulkdata_tasks)
  | (url, lastmod) :: rest =>
      match Re.rmatch re_collection_item url with
      | Some m =>
          let collection := Re.group m 1 in
          let package_name := Re.group m 2 in
          if filtered_out options package_name
          then collect_tasks how_we_got_here options rest package_tasks bulkdata_tasks
          else
            modify setdefault_packages;;
            collect_tasks how_we_got_here options rest
              (package_tasks ++ [mkPackageTask collection package_name lastmod])
              bulkdata_tasks
      | None =>
          (* This is a bulk data item. *)
          match Re.rmatch re_bulkdata_item url with
          | None =>
              raise (Exception ("Unmatched bulk data file URL (" +:+ url +:+ ") at "
                                +:+ Py.join "->" how_we_got_here +:+ "."))
          | Some m =>
              let collection := Re.group m 1 in
              let item_path := Re.group m 2 in
              if filtered_out options item_path
              then collect_tasks how_we_got_here options rest package_tasks bulkdata_tasks
              else collect_tasks how_we_got_here options rest package_tasks
                     (bulkdata_tasks ++ [mkBulkdataTask collection url item_path lastmod])
          end
      end
  end.

(** [pool.starmap] cuts the tasks into chunks: with [n] tasks and a pool
    of [processes] workers, a chunk has [n] divided by four times [processes]
    tasks, rounded up. *)
Definition chunksize (processes : positive) (n : nat) : nat :=
  let slots := 4 * Pos.to_nat processes in
  n / slots + (if Nat.eqb (n mod slots) 0 then 0 else 1).

(** The tasks of a chunk run in order and an exception ends the chunk, not
    the batch: the chunks after it still run.  [left] counts the tasks that
    the chunk at hand still has, [broken] says that it has raised.  The
    answer is the results of the tasks that returned and the first exception.
    The workers are processes of their own; here the chunks run one after the
    other, in the order of the list. *)
Fixpoint run_chunks {S A B} (f : A → M S B) (size left : nat) (broken : bool)
    (tasks : list A) (s : S) : (list B * option exn) * S :=
  match tasks with
  | [] => (([], None), s)
  | t :: rest =>
      let fresh := Nat.eqb left 0 in
      let left := if fresh then size else left in
      let broken := if fresh then false else broken in
      if broken then run_chunks f size (Nat.pred left) true rest s
      else
        match f t s with
        | (Ret r, s1) =>
            let '((rs, e), s2) := run_chunks f size (Nat.pred left) false rest s1 in
            ((r :: rs, e), s2)
        | (Raise e, s1) =>
            let '((rs, _), s2) := run_chunks f size (Nat.pred left) true rest s1 in
            ((rs, Some e), s2)
        end
  end.

(** [pool.starmap(f, tasks)]: the list of the results when every task has
    returned; else, once every chunk is done, the exception of a task that
    raised (here the first one in the list). *)
Definition starmap {S A B} (processes : positive) (f : A → M S B) (tasks : list A)
    : M S (list B) :=
  λ s, match run_chunks f (chunksize processes (List.length tasks)) 0 false tasks s with
       | ((rs, None), s') => (Ret rs, s')
       | ((_, Some e), s') => (Raise e, s')
       end.

(** A package task in a worker process: it receives a copy of the
    [packages] dictionary, and what it changes in the copy stays there. *)
Definition package_worker (packages : Packages) (options : Options) (t : package_task)
    : M World retval :=
  λ w, let '(r, (_, w')) :=
         mirror_package (pt_collection t) (pt_package_name t) (pt_lastmod t) options
           (packages, w) in
       (r, w').

Definition bulkdata_worker (options : Options) (t : bulkdata_task) : M World retval :=
  mirror_bulkdata_file (bt_collection t) (bt_url t) (bt_item_path t) (bt_lastmod t) options.

Definition set_lastmod (lastmod : string) (store : Store) : Store :=
  mkStore (Some lastmod) (store_packages store).

(** The type of [update_sitemap2] with the recursion depth already fixed. *)
Definition walker2 : Type :=
  string → option string → list string → Options → string →
  M (Store * World) (list retval).

(** The store of a sitemap: the empty dictionary when its file is absent,
    else what [rtyaml.load] reads from it, a mapping or not. *)
Definition load_store (lastmod_cache_file : string) : M World yaml_document :=
  text ← utils_read lastmod_cache_file;
  match text with
  | None => mret (YamlMapping empty_store)
  | Some t =>
      match yaml_load t with
      | Some lastmod_cache => mret lastmod_cache
      | None => raise (LoadError lastmod_cache_file)
      end
  end.

(** [with open(lastmod_cache_file, "w") as f: rtyaml.dump(lastmod_cache, f)],
    where [text] is what the dump writes.  Nothing makes the directory of the
    file here: [open] raises when it is not there. *)
Definition dump_store (how_we_got_here : list string) (lastmod_cache_file text : string)
    : M World unit :=
  λ w, if dir_exists (OsPath.dirname lastmod_cache_file) w
       then (Ret tt, emit (EvStoreDump how_we_got_here lastmod_cache_file)
                       (set_fs <[lastmod_cache_file := text]> w))
       else (Raise (FileNotFoundError lastmod_cache_file), w).

(** [try: return body finally: dump], where the body works on the
    dictionary [lastmod_cache]: the dump writes the dictionary as the body
    leaves it, and an exception of the dump takes the place of the body's
    outcome. *)
Definition finally_dump {A} (how_we_got_here : list string) (lastmod_cache_file : string)
    (lastmod_cache : Store) (body : M (Store * World) A) : M World A :=
  λ w, let '(r, (lastmod_cache', w')) := body (lastmod_cache, w) in
       match dump_store how_we_got_here lastmod_cache_file (yaml_dump lastmod_cache') w' with
       | (Ret _, w'') => (r, w'')
       | (Raise e, w'') => (Raise e, w'')
       end.

Definition sitemap_cache_file (name : string) : string :=
  OsPath.join (OsPath.join "govinfo/sitemap" name) "sitemap.xml".

Definition sitemap_lastmod_cache_file (name : string) : string :=
  OsPath.join cache_dir (Py.replace ".xml" "-lastmod.yaml" (sitemap_cache_file name)).

(** [update_sitemap], over the [update_sitemap2] it calls. *)
Definition update_sitemap_with (update_sitemap2 : walker2)
    (url : string) (current_lastmod : option string) (how_we_got_here : list string)
    (options : Options) : M World (list retval) :=
  (* Skip if the year or congress flags are set and this sitemap is not
     for that year or Congress. *)
  if should_skip_sitemap url options then mret []
  else
    let how_we_got_here := how_we_got_here ++ [url] in
    match get_sitemap_cache_file url with
    | Raise e => raise e
    | Ret name =>
        let cache_file := sitemap_cache_file name in
        let lastmod_cache_file := sitemap_lastmod_cache_file name in
        loaded ← load_store lastmod_cache_file;
        match loaded with
        | YamlMapping lastmod_cache =>
            finally_dump how_we_got_here lastmod_cache_file lastmod_cache
              (update_sitemap2 url current_lastmod how_we_got_here options cache_file)
        | YamlOther dumped =>
            (* [lastmod_cache.get], the first use of the store in
               [update_sitemap2], fails inside the [try]; the value is
               dumped as it was loaded. *)
            try_finally (raise (AttributeError "get"))
              (dump_store how_we_got_here lastmod_cache_file dumped)
        end
    end.

(** The loop over the [x:sitemap] nodes of a sitemap index. *)
Fixpoint index_loop (update_sitemap : string → option string → list string → Options →
                                       M World (list retval))
    (how_we_got_here : list string) (options : Options)
    (nodes : list (string * string)) (results : list retval) : M World (list retval) :=
  match nodes with
  | [] => mret results
  | (url, lastmod) :: rest =>
      sitemap_results ← update_sitemap url (Some lastmod) how_we_got_here options;
      index_loop update_sitemap how_we_got_here options rest (results ++ sitemap_results)
  end.

(** [depth] bounds the nesting of sitemap indexes, as the interpreter's
    recursion limit does. *)
Fixpoint update_sitemap2 (depth : nat) (url : string) (current_lastmod : option string)
    (how_we_got_here : list string) (options : Options) (cache_file : string)
    : M (Store * World) (list retval) :=
  lastmod_cache ← on_fst get_state;
  let download :=
    should_download_sitemap (store_lastmod lastmod_cache) current_lastmod options in
  (* Download, or just retrieve from cache. *)
  body ← on_snd (utils_download url cache_file
                   (merge options (Some download) (Some true) None None));
  if negb (body_ok body) then mret []   (* Failed to download. Skipping. *)
  else
    (* If we downloaded a new file, update the lastmod for our cache. *)
    (if download && Py.truthy (get_str current_lastmod)
     then on_fst (modify (set_lastmod (get_str current_lastmod))) else mret tt);;
    match parse_sitemap (get_str body) with
    | None => raise (Exception ("XML syntax error in " +:+ url))
    | Some (SitemapIndex nodes) =>
        match depth with
        | O => raise RecursionError
        | S depth' =>
            on_snd (index_loop (update_sitemap_with (update_sitemap2 depth'))
                      how_we_got_here options nodes [])
        end
    | Some (UrlSet nodes) =>
        '(package_tasks, bulkdata_tasks) ←
           on_fst (collect_tasks how_we_got_here options nodes [] []);
        lastmod_cache ← on_fst get_state;
        bulkdata_results ←
          on_snd (starmap processes (bulkdata_worker options) bulkdata_tasks);
        package_results ←
          on_snd (starmap processes
                    (package_worker (default ∅ (store_packages lastmod_cache)) options)
                    package_tasks);
        mret (bulkdata_results ++ package_results)
    | Some OtherDocument => mret []
    end.

Definition update_sitemap (depth : nat) : string → option string → list string →
    Options → M World (list retval) :=
  update_sitemap_with (update_sitemap2 depth).

(** *** [run] *)

Definition run (depth : nat) (options : Options) : M World unit :=
  for_each (Py.sorted (Py.split "," (get_str (opt_collections options))))
    (λ collection,
       if Py.truthy collection then
         update_sitemap depth (COLLECTION_SITEMAPINDEX_PATTERN collection) None [] options;;
         mret tt
       else mret tt);;
  for_each (Py.sorted (Py.split "," (get_str (opt_bulkdata options))))
    (λ collection,
       if Py.truthy collection then
         update_sitemap depth (BULKDATA_SITEMAPINDEX_PATTERN collection) None [] options;;
         mret tt
       else mret tt).

End Mirror.

(** ** A small environment to run the model

    A transport over a table of remote documents, a one-member archive
    format, a line format for sitemaps and a store codec that keeps the
    [lastmod]; enough to evaluate the functions on concrete worlds. *)

Module Sample.

(** The transport, following the specification's description: serve the
    destination from disk unless forced, else fetch the document and keep
    it at the destination; nothing when the remote has no such URL.  The
    cache directory of this environment is the working directory, so a
    destination in the cache is the path as it is given. *)
Definition download (remote : gmap string string) (url destination : string)
    (options : Options) (files : gmap string string)
    : option string * gmap string string :=
  match files !! destination with
  | Some body =>
      if opt_force options then
        match remote !! url with
        | Some fresh => (Some fresh, <[destination := fresh]> files)
        | None => (None, files)
        end
      else (Some body, files)
  | None =>
      match remote !! url with
      | Some fresh => (Some fresh, <[destination := fresh]> files)
      | None => (None, files)
      end
  end.

(** An archive is [ZIP|member name|member bytes]. *)
Definition zip_decode (bytes : string) : option (gmap string string) :=
  if String.prefix "ZIP|" bytes then
    match Py.split "|" (Py.drop 4 bytes) with
    | [name; data] => Some {[ name := data ]}
    | _ => Some ∅
    end
  else None.

Definition entry (line : string) : string * string :=
  match Py.split " " line with
  | [loc] => (loc, EmptyString)
  | loc :: lastmod :: _ => (loc, lastmod)
  | [] => (EmptyString, EmptyString)
  end.

(** A sitemap is [I] or [U], then one [loc lastmod] entry per line. *)
Definition parse_sitemap (body : string) : option sitemap :=
  match body with
  | String "I" rest =>
      Some (SitemapIndex (entry <$> List.filter Py.truthy (Py.split "010" rest)))
  | String "U" rest =>
      Some (UrlSet (entry <$> List.filter Py.truthy (Py.split "010" rest)))
  | String "<" _ => Some OtherDocument
  | _ => None
  end.

Definition yaml_dump (store : Store) : string :=
  match store_lastmod store with
  | Some lastmod => "lastmod: " +:+ lastmod
  | None => "{}"
  end.

(** A store file is [lastmod: ] and the timestamp, or [{}]; a text that
    starts with a square bracket is a sequence, written back as it is;
    anything else does not load. *)
Definition yaml_load (text : string) : option yaml_document :=
  if String.prefix "lastmod: " text
  then Some (YamlMapping (mkStore (Some (Py.drop 9 text)) None))
  else if String.eqb text "{}" then Some (YamlMapping empty_store)
  else if String.prefix "[" text then Some (YamlOther text)
  else None.

Definition output_for_bill (bill filename : string) : string :=
  "data/" +:+ bill +:+ "/" +:+ filename.

Definition metadata (package_name text_path : string) (files : gmap string string)
    : result unit * gmap string string := (Ret tt, files).

Definition empty_world : World := mkWorld ∅ [].

Definition env (remote : gmap string string) : Environment :=
  {| env_download := download remote;
     env_cache_dir := EmptyString;
     env_data_dir := "data";
     env_output_for_bill := output_for_bill;
     env_zip_decode := zip_decode;
     env_re_search := λ pattern subject, true;
     env_html_text_content := λ html, html;
     env_extract_bill_version_metadata := metadata;
     env_parse_sitemap := parse_sitemap;
     env_yaml_load := yaml_load;
     env_yaml_dump := yaml_dump;
     env_processes := 2%positive |}.

(** A small remote tree: the index of STATUTE, its sitemap for 2020 and one
    package with a PDF rendition. *)
Definition remote : gmap string string :=
  {[ "https://www.govinfo.gov/sitemap/STATUTE_sitemap_index.xml" :=
       "Ihttps://www.govinfo.gov/sitemap/STATUTE_2020_sitemap.xml 2021-01-01";
     "https://www.govinfo.gov/sitemap/STATUTE_2020_sitemap.xml" :=
       "Uhttps://www.govinfo.gov/app/details/STATUTE-134 2020-12-31";
     "https://www.govinfo.gov/content/pkg/STATUTE-134.zip" :=
       "ZIP|STATUTE-134/pdf/STATUTE-134.pdf|%PDF" ]}.

Definition archive_path : string := "data/govinfo/STATUTE/134/package.zip".
Definition marker_path : string := "data/govinfo/STATUTE/134/package-lastmod.txt".

Definition extract (formats : string) : Options :=
  mkOptions None None None None (Some formats) None false false None None None.

Definition extract_forced (formats : string) : Options :=
  mkOptions None None None None (Some formats) None false true None None None.

Definition years (filter : string) : Options :=
  mkOptions None None (Some filter) None None None false false None None None.

Definition cached_statute : Options :=
  mkOptions (Some "STATUTE") None None None None None true false None None None.

(** A truncated archive beside a marker that is current. *)
Definition truncated_world : World :=
  mkWorld {[ archive_path := "ZIP"; marker_path := "2020-12-31" ]} [].

(** A good archive beside a marker that is current. *)
Definition current_world : World :=
  mkWorld {[ archive_path := "ZIP|STATUTE-134/pdf/STATUTE-134.pdf|%PDF";
             marker_path := "2020-12-31" ]} [].

(** A good archive and no marker. *)
Definition unmarked_world : World :=
  mkWorld {[ archive_path := "ZIP|STATUTE-134/pdf/STATUTE-134.pdf|%PDF" ]} [].

(** A flat item beside a marker that is current. *)
Definition flat_world : World :=
  mkWorld {[ "data/govinfo/FR/2020/FR-2020-01-02.xml" := "<FR/>";
             "data/govinfo/FR/2020/FR-2020-01-02-lastmod.txt" := "2020-01-03" ]} [].

End Sample.

(** ** Vocabulary of the statements *)

(** The two shapes of a sitemap index, and the two shapes of a grouped
    sitemap below an index, in the order in which [should_skip_sitemap]
    recognises them. *)
Definition is_index_url (url : string) : Prop :=
  is_Some (Re.rmatch re_collection_index url) ∨ is_Some (Re.rmatch re_bulkdata_index url).

Definition year_sitemap_url (url year : string) : Prop :=
  ¬ is_index_url url ∧
  ∃ m, Re.rmatch re_year_sitemap url = Some m ∧ Re.group m 2 = year.

Definition bulkdata_grouping_url (url grouping : string) : Prop :=
  ¬ is_index_url url ∧
  ∃ m, Re.rmatch re_bulkdata_grouping url = Some m ∧ Re.group m 2 = grouping.

(** A filter given on the command line excludes a token when it is not
    empty and the token is not one of its comma-separated entries. *)
Definition excludes (filter : option string) (token : string) : bool :=
  let entries := Py.strip (get_str filter) in
  Py.truthy entries && negb (Py.mem token (Py.split "," entries)).

(** The paths that the turn of the loop for [format] appends when the
    member is in the archive. *)
Definition outputs_of (collection package_name package_file format : string) : list string :=
  match format_paths collection package_name format with
  | Some (_, local_name) =>
      format_outputs (OsPath.join (OsPath.dirname package_file) local_name) format
  | None => []
  end.

(** The metadata collaborator does not fail. *)
Definition metadata_succeeds (env : Environment) : Prop :=
  ∀ package_name text_path files,
    (env_extract_bill_version_metadata env package_name text_path files).1 = Ret tt.

(** The record of a package after the check for a missing archive: emptied
    when it says something and the archive is not on disk. *)
Definition checked_record (path : string) (lastmod_cache : gmap string string) (w : World)
    : gmap string string :=
  if bool_decide (lastmod_cache ≠ ∅) && negb (path_exists (package_file_path path) w)
  then ∅ else lastmod_cache.

(** The URL of a package archive and the options the transport gets for it. *)
Definition package_url (collection package_name : string) : string :=
  GOVINFO_BASE_URL +:+ "content/pkg/" +:+ collection +:+ "-" +:+ package_name +:+ ".zip".

Definition package_request (options : Options) : Options :=
  merge options (Some true) (Some true) (Some false) (Some false).

(** Whether the marker beside the archive lets the mirror skip the package. *)
Definition marker_current (path lastmod : string) (options : Options) (w : World) : bool :=
  path_exists (package_marker_path path) w && negb (opt_force options)
  && bool_decide (Some lastmod = fs w !! package_marker_path path).

(** Where a flat item of a collection other than BILLSTATUS is stored, its
    marker, and the options the transport gets for it. *)
Definition bulkdata_path (env : Environment) (collection item_path : string) : string :=
  env_data_dir env +:+ "/govinfo/" +:+ collection +:+ "/" +:+ item_path.

Definition bulkdata_marker (path : string) : string :=
  OsPath.splitext_root path +:+ "-lastmod.txt".

Definition bulkdata_request (options : Options) : Options :=
  merge options (Some true) (Some true) (Some false) None.


Definition bulkdata_current (path lastmod : string) (options : Options) (w : World) : bool :=
  path_exists (bulkdata_marker path) w && negb (opt_force options)
  && bool_decide (Some lastmod = fs w !! bulkdata_marker path).

(** A non-empty string of characters of one class. *)
Definition chars_of (p : ascii → bool) (s : string) : bool :=
  Py.truthy s && OsPath.all_chars p s.

(** A version code: nothing, or a lower-case letter followed by lower-case
    letters and digits. *)
Definition is_version_code (s : string) : bool :=
  match s with
  | EmptyString => true
  | String c v => Re.is_lower c && OsPath.all_chars is_lower_or_digit v
  end.

(** The bill that a package name of the BILLS collection stands for. *)
Definition bill_of (congress bill_type bill_number : string) : string :=
  bill_type +:+ bill_number +:+ "-" +:+ congress.

(** *** What a computation adds to the log *)

(** States that contain the world. *)
Class HasWorld (S : Type) : Type := world_of : S → World.

#[global] Instance world_has_world : HasWorld World := λ w, w.
#[global] Instance pair_has_world {S1 S2} `{HasWorld S2} : HasWorld (S1 * S2) :=
  λ s, world_of s.2.

(** [w'] has the log of [w] and then events that all satisfy [P]. *)
Definition extends (P : event → Prop) (w w' : World) : Prop :=
  ∃ events, log w' = log w ++ events ∧ Forall P events.

(** Whatever its outcome, [m] only adds events that satisfy [P]. *)
Definition logs {S A} `{HasWorld S} (P : event → Prop) (m : M S A) : Prop :=
  ∀ s r s', m s = (r, s') → extends P (world_of s) (world_of s').

Definition any_event (e : event) : Prop := True.

Definition not_dump (e : event) : Prop :=
  match e with EvStoreDump _ _ => False | _ => True end.

(** A dump, if it is one, comes from a call below the one with [trail]. *)
Definition below (trail : list string) (e : event) : Prop :=
  match e with
  | EvStoreDump trail' _ => List.length trail < List.length trail'
  | _ => True
  end.

Definition is_dump_by (trail : list string) (e : event) : bool :=
  match e with
  | EvStoreDump trail' _ => bool_decide (trail' = trail)
  | _ => false
  end.

(** How often the call with [trail] dumped its store in [events]. *)
Definition dumps_by (trail : list string) (events : list event) : nat :=
  List.length (List.filter (is_dump_by trail) events).

(** * Properties *)

#[global] Arguments Re.rmatch : simpl never.

(** ** Strings *)

Lemma append_cons (c : ascii) (l x : string) : String c l +:+ x = String c (l +:+ x).
Proof. reflexivity. Qed.

Lemma append_nil (x : string) : EmptyString +:+ x = x.
Proof. reflexivity. Qed.

Lemma prefix_drop (l s : string) :
  String.prefix l s = true → s = l +:+ Py.drop (String.length l) s.
Proof.
  revert s. induction l as [|c l IH]; intros s H.
  - destruct s; reflexivity.
  - destruct s as [|d s]; simpl in H; [discriminate|].
    destruct (ascii_dec c d) as [->|]; [|discriminate].
    rewrite append_cons. simpl. f_equal. apply IH, H.
Qed.

(** ** The fetch decision *)

(** C2, as the code has it: an empty lastmod token counts as an absent one;
    apart from that the decision is the one of the specification: fetch when
    forced, else never when cache-only, else exactly when the parent's lastmod
    differs from the stored one. *)
Theorem should_download_sitemap_decision
    (lastmod_cache current_lastmod : option string) (options : Options) :
  should_download_sitemap lastmod_cache current_lastmod options = true ↔
    (current_lastmod = None ∨ current_lastmod = Some EmptyString)
    ∨ opt_force options = true
    ∨ (opt_cached options = false ∧ current_lastmod ≠ lastmod_cache).
Proof.
  unfold should_download_sitemap.
  destruct current_lastmod as [[|c t]|]; [tauto| |tauto].
  destruct (opt_force options), (opt_cached options); simpl.
  - tauto.
  - tauto.
  - split; [discriminate|]. intros [[?|?]|[?|[? _]]]; discriminate.
  - rewrite negb_true_iff, bool_decide_eq_false. split; [tauto|].
    intros [[?|?]|[?|[_ ?]]]; try discriminate. assumption.
Qed.

(** C2 as it is written fails for the empty token of a child entry without
    [<lastmod>]: the token is present, [force] is off and [cached] is on, and
    the sitemap is fetched all the same. *)
Lemma should_download_sitemap_empty_token_cached :
  let options := mkOptions None None None None None None true false None None None in
  Some EmptyString ≠ (None : option string)
  ∧ opt_force options = false
  ∧ opt_cached options = true
  ∧ should_download_sitemap (Some "2020-01-01") (Some EmptyString) options = true.
Proof. repeat split; discriminate. Qed.

(** ** The skip filter *)

(** A pattern that starts with two literals only matches subjects that
    start with them. *)
Lemma rmatch_two_literals (l1 l2 : string) (rs : list Re.regex) (s : string) :
  is_Some (Re.rmatch (Re.seq (Re.Lit l1 :: Re.Lit l2 :: rs)) s) →
  ∃ t, s = l1 +:+ l2 +:+ t.
Proof.
  unfold Re.rmatch. cbn [Re.seq foldr Re.run].
  destruct (String.prefix l1 s) eqn:H1; [|intros [x Hx]; discriminate Hx].
  destruct (String.prefix l2 (Py.drop (String.length l1) s)) eqn:H2;
    [|intros [x Hx]; discriminate Hx].
  intros _. apply prefix_drop in H1, H2.
  eexists. rewrite H1 at 1. rewrite H2 at 1. reflexivity.
Qed.

Lemma year_sitemap_not_bulkdata (url : string) :
  is_Some (Re.rmatch re_year_sitemap url) → Re.rmatch re_bulkdata_grouping url = None.
Proof.
  intros Hyear.
  destruct (Re.rmatch re_bulkdata_grouping url) as [m|] eqn:Hbulk; [|reflexivity].
  exfalso.
  assert (is_Some (Re.rmatch re_bulkdata_grouping url)) as Hsome by (rewrite Hbulk; eauto).
  apply rmatch_two_literals in Hsome as [t ->].
  destruct Hyear as [x Hx]. vm_compute in Hx. discriminate Hx.
Qed.

(** C7: sitemap indexes are never skipped; a year-grouped collection
    sitemap is skipped exactly when the year filter excludes its year; a
    bulk-data grouping sitemap is skipped exactly when the year filter or the
    congress filter excludes its grouping token; and a skipped sitemap is
    answered with the empty list before anything is read or fetched. *)
Theorem should_skip_sitemap_shapes (url : string) (options : Options) :
  (is_index_url url → should_skip_sitemap url options = false)
  ∧ (∀ year, year_sitemap_url url year →
       should_skip_sitemap url options = excludes (opt_years options) year)
  ∧ (∀ grouping, bulkdata_grouping_url url grouping →
       should_skip_sitemap url options
       = excludes (opt_years options) grouping || excludes (opt_congress options) grouping)
  ∧ (should_skip_sitemap url options = true →
       ∀ env walker current_lastmod how_we_got_here w,
         update_sitemap_with env walker url current_lastmod how_we_got_here options w
         = (Ret [], w)).
Proof.
  repeat split.
  - intros [[m H]|[m H]]; unfold should_skip_sitemap; rewrite H; [reflexivity|].
    destruct (Re.rmatch re_collection_index url); reflexivity.
  - intros year [Hidx (m & Hm & <-)]. unfold should_skip_sitemap, excludes.
    destruct (Re.rmatch re_collection_index url) eqn:H1.
    { exfalso. apply Hidx. left. eauto. }
    destruct (Re.rmatch re_bulkdata_index url) eqn:H2.
    { exfalso. apply Hidx. right. eauto. }
    rewrite Hm. rewrite year_sitemap_not_bulkdata by (rewrite Hm; eauto).
    destruct (_ && _); reflexivity.
  - intros grouping [Hidx (m & Hm & <-)]. unfold should_skip_sitemap, excludes.
    destruct (Re.rmatch re_collection_index url) eqn:H1.
    { exfalso. apply Hidx. left. eauto. }
    destruct (Re.rmatch re_bulkdata_index url) eqn:H2.
    { exfalso. apply Hidx. right. eauto. }
    destruct (Re.rmatch re_year_sitemap url) eqn:H3.
    { rewrite year_sitemap_not_bulkdata in Hm by (rewrite H3; eauto). discriminate Hm. }
    rewrite Hm. cbn [negb]. 
    destruct (Py.truthy _ && negb (Py.mem _ (Py.split "," (Py.strip (get_str (opt_years options))))));
      [reflexivity|].
    destruct (_ && _); reflexivity.
  - intros Hskip env walker current_lastmod how_we_got_here w.
    unfold update_sitemap_with. rewrite Hskip. reflexivity.
Qed.


(** ** Computations *)

Ltac unfold_monad :=
  unfold mbind, M_bind, mret, M_ret, on_fst, on_snd, get_state, modify, raise,
    try_finally, try_except, exists_, utils_read, utils_write, bill_version_metadata in *.

(** ** The extractor *)

Lemma is_stale_true (lastmod_cache : gmap string string) (format : string) :
  is_stale lastmod_cache format = Ret true ↔
    lastmod_cache !! format = None
    ∨ ∃ t package_lastmod,
        lastmod_cache !! format = Some t
        ∧ lastmod_cache !! "package" = Some package_lastmod
        ∧ String.ltb t package_lastmod = true.
Proof.
  unfold is_stale. destruct (lastmod_cache !! format) as [t|].
  - destruct (lastmod_cache !! "package") as [pk|].
    + split.
      * intros [= H]. right. eauto.
      * intros [H|(t' & pk' & [= <-] & [= <-] & H)]; [discriminate|]. by rewrite H.
    + split; [discriminate|]. intros [H|(? & ? & _ & H & _)]; discriminate.
  - split; [by left|done].
Qed.

Lemma stale_formats_ret (lastmod_cache : gmap string string) (formats eligible : list string) :
  stale_formats lastmod_cache formats = Ret eligible →
  ∀ format, format ∈ eligible ↔ format ∈ formats ∧ is_stale lastmod_cache format = Ret true.
Proof.
  revert eligible. induction formats as [|f formats IH]; intros eligible H format; simpl in H.
  - injection H as <-. split; [by intros ?%elem_of_nil|by intros [?%elem_of_nil _]].
  - destruct (is_stale lastmod_cache f) as [keep|] eqn:Hf; [|discriminate].
    destruct (stale_formats lastmod_cache formats) as [kept|]; [|discriminate].
    injection H as <-. specialize (IH kept eq_refl format).
    rewrite elem_of_cons. destruct keep.
    + rewrite elem_of_cons, IH. split.
      * intros [->|[? ?]]; auto.
      * intros [[->|?] ?]; auto.
    + rewrite IH. split.
      * intros [? ?]; auto.
      * intros [[->|?] ?]; [congruence|auto].
Qed.

Lemma stale_formats_raise (lastmod_cache : gmap string string) (formats : list string) (e : exn) :
  stale_formats lastmod_cache formats = Raise e →
  e = KeyError "package"
  ∧ lastmod_cache !! "package" = None
  ∧ ∃ format, format ∈ formats ∧ is_Some (lastmod_cache !! format).
Proof.
  induction formats as [|f formats IH]; simpl; [discriminate|].
  destruct (is_stale lastmod_cache f) as [keep|e'] eqn:Hf.
  - destruct (stale_formats lastmod_cache formats) as [kept|e'']; [discriminate|].
    intros [= <-]. destruct (IH eq_refl) as (-> & ? & g & ? & ?).
    repeat split; auto. exists g. rewrite elem_of_cons. auto.
  - intros [= <-]. unfold is_stale in Hf.
    destruct (lastmod_cache !! f) as [t|] eqn:Ht; [|discriminate].
    destruct (lastmod_cache !! "package") eqn:Hp; [discriminate|].
    injection Hf as <-. repeat split; auto. exists f. rewrite elem_of_cons, Ht. eauto.
Qed.

(** The loop over the formats writes files and the record, and nothing to
    the log. *)
Lemma extract_one_log env collection package_name package_file package format s r s' :
  extract_one env collection package_name package_file package format s = (r, s') →
  log s'.2 = log s.2.
Proof.
  destruct s as [lastmod_cache w]. unfold extract_one.
  destruct (format_paths collection package_name format) as [[package_path local_name]|];
    unfold_monad; intros H.
  - repeat (case_match; simplify_eq/=); try done.
  - by simplify_eq/=.
Qed.

Lemma extract_loop_log env collection package_name package_file package formats :
  ∀ extracted_files s r s',
    extract_loop env collection package_name package_file package formats extracted_files s
    = (r, s') →
    log s'.2 = log s.2.
Proof.
  induction formats as [|format formats IH]; intros extracted_files s r s' H; simpl in H.
  - unfold_monad. by simplify_eq.
  - unfold mbind, M_bind in H.
    destruct (extract_one env collection package_name package_file package format s)
      as [[added|e] s1] eqn:Hone.
    + apply IH in H. rewrite H. eapply extract_one_log, Hone.
    + simplify_eq. eapply extract_one_log, Hone.
Qed.

(** C6: the formats the extractor goes on with are the requested formats
    whose recorded timestamp is absent or strictly older than the package
    timestamp; when there is none, the extractor answers the empty list and
    leaves the record, the files and the log as they were, so the archive is
    not opened; when there is one and the archive file exists, the archive is
    opened, once.  The selection fails only on a record without a package
    timestamp in which a requested format has a timestamp. *)
Theorem extract_package_files_eligibility
    env (collection package_name package_file : string) (options : Options)
    (lastmod_cache : gmap string string) (w : World) :
  match stale_formats lastmod_cache (requested_formats options) with
  | Ret eligible =>
      (∀ format,
         format ∈ eligible ↔
           format ∈ requested_formats options
           ∧ (lastmod_cache !! format = None
              ∨ ∃ t package_lastmod,
                  lastmod_cache !! format = Some t
                  ∧ lastmod_cache !! "package" = Some package_lastmod
                  ∧ String.ltb t package_lastmod = true))
      ∧ (eligible = [] →
           extract_package_files env collection package_name package_file options
             (lastmod_cache, w)
           = (Ret [], (lastmod_cache, w)))
      ∧ (eligible ≠ [] → path_exists package_file w = true →
           log (extract_package_files env collection package_name package_file options
                  (lastmod_cache, w)).2.2
           = log w ++ [EvZipOpen package_file])
  | Raise e =>
      e = KeyError "package"
      ∧ lastmod_cache !! "package" = None
      ∧ ∃ format, format ∈ requested_formats options ∧ is_Some (lastmod_cache !! format)
  end.
Proof.
  destruct (stale_formats lastmod_cache (requested_formats options)) as [eligible|e] eqn:Hsel.
  - split; [|split].
    + intros format. rewrite (stale_formats_ret _ _ _ Hsel), is_stale_true. done.
    + intros ->. unfold extract_package_files. unfold_monad.
      destruct (path_exists package_file w); simpl; [|done]. by rewrite Hsel.
    + intros Hne Hex. unfold extract_package_files. unfold_monad. rewrite Hex. simpl.
      rewrite Hsel. destruct eligible as [|format eligible]; [done|].
      unfold zip_open.
      destruct (fs w !! package_file) as [bytes|]; [|done].
      destruct (env_zip_decode env bytes) as [members|]; [|done].
      match goal with
      | |- context [extract_loop ?a ?b ?c ?d ?e ?f ?g ?s] =>
          destruct (extract_loop a b c d e f g s) as [r s'] eqn:Hloop
      end.
      apply extract_loop_log in Hloop. simpl in *. done.
  - by apply stale_formats_raise.
Qed.

Lemma ltb_irrefl (t : string) : String.ltb t t = false.
Proof.
  unfold String.ltb. pose proof (String.compare_antisym t t) as H.
  destruct (String.compare t t); simpl in H; congruence.
Qed.

Lemma format_paths_not_package (collection package_name : string) :
  format_paths collection package_name "package" = None.
Proof. reflexivity. Qed.

(** One turn of the loop on a known format, with a package timestamp in
    the record: the turn ends normally, records the package timestamp for the
    format, and appends the format's paths exactly when the member exists. *)
Lemma extract_one_known env collection package_name package_file package format
    lastmod_cache w package_lastmod package_path local_name :
  metadata_succeeds env →
  format_paths collection package_name format = Some (package_path, local_name) →
  lastmod_cache !! "package" = Some package_lastmod →
  ∃ w',
    extract_one env collection package_name package_file package format (lastmod_cache, w)
    = (Ret (if package !! package_path is Some _
            then outputs_of collection package_name package_file format else []),
       (<[format := package_lastmod]> lastmod_cache, w'))
    ∧ (package !! package_path = None → w' = w).
Proof.
  intros Hmeta Hpaths Hpk. unfold extract_one, outputs_of. rewrite Hpaths. unfold_monad.
  destruct (package !! package_path) as [data|] eqn:Hmember; simpl; rewrite Hpk; simpl;
    [|eexists; (split; [reflexivity|done])].
  destruct (String.eqb format "text"); simpl;
    (destruct (String.eqb collection "BILLS" && String.eqb format "mods"); simpl;
     [|eexists; (split; [reflexivity|done])]);
    match goal with
    | |- context [env_extract_bill_version_metadata env ?a ?b ?c] =>
        pose proof (Hmeta a b c) as Hm;
        destruct (env_extract_bill_version_metadata env a b c) as [r files']
    end;
    simpl in Hm; subst r; eexists; (split; [reflexivity|done]).
Qed.

(** The loop, when the member of [format] is not in the archive: it ends
    normally if every format is known; the package timestamp stays; [format]
    has it recorded once its turn is over; and every path in the answer was
    there before or comes from the turn of another format. *)
Lemma extract_loop_absent env collection package_name package_file package format
    package_lastmod package_path local_name :
  metadata_succeeds env →
  format_paths collection package_name format = Some (package_path, local_name) →
  package !! package_path = None →
  ∀ formats extracted_files lastmod_cache w,
    lastmod_cache !! "package" = Some package_lastmod →
    (∀ g, g ∈ formats → is_Some (format_paths collection package_name g)) →
    ∃ paths lastmod_cache' w',
      extract_loop env collection package_name package_file package formats extracted_files
        (lastmod_cache, w)
      = (Ret paths, (lastmod_cache', w'))
      ∧ lastmod_cache' !! "package" = Some package_lastmod
      ∧ (format ∈ formats ∨ lastmod_cache !! format = Some package_lastmod →
         lastmod_cache' !! format = Some package_lastmod)
      ∧ (∀ q, q ∈ paths →
           q ∈ extracted_files
           ∨ ∃ g, g ≠ format ∧ g ∈ formats
                  ∧ q ∈ outputs_of collection package_name package_file g).
Proof.
  intros Hmeta Hpaths Habsent.
  induction formats as [|g formats IH]; intros extracted_files lastmod_cache w Hpk Hknown.
  - simpl. unfold_monad. do 3 eexists. split; [reflexivity|].
    split; [done|]. split.
    + intros [?%elem_of_nil|?]; done.
    + auto.
  - destruct (Hknown g) as [[member_path local] Hg]; [by left|].
    destruct (extract_one_known env collection package_name package_file package g
                lastmod_cache w package_lastmod member_path local Hmeta Hg Hpk)
      as (w1 & Hone & _).
    assert (g ≠ "package") as Hne.
    { intros ->. rewrite format_paths_not_package in Hg. discriminate. }
    destruct (IH (extracted_files ++
                    (if package !! member_path is Some _
                     then outputs_of collection package_name package_file g else []))
                (<[g := package_lastmod]> lastmod_cache) w1)
      as (paths & lastmod_cache' & w' & Hloop & Hpk' & Hformat & Hfrom).
    { by rewrite lookup_insert_ne. }
    { intros g' Hg'. apply Hknown. by right. }
    exists paths, lastmod_cache', w'. split; [|split; [done|split]].
    + simpl. unfold mbind, M_bind. rewrite Hone. exact Hloop.
    + intros Hin. apply Hformat.
      destruct (decide (g = format)) as [->|Hgf].
      * right. apply lookup_insert_eq.
      * rewrite lookup_insert_ne by done.
        destruct Hin as [[->|?]%elem_of_cons|?]; auto. done.
    + intros q Hq. destruct (Hfrom q Hq) as [Hq'|(g' & ? & ? & ?)].
      * apply elem_of_app in Hq' as [?|Hq']; [by left|]. right.
        destruct (package !! member_path) eqn:Hmember; [|by apply elem_of_nil in Hq'].
        exists g. split; [|split; [by left|done]].
        intros ->. rewrite Hpaths in Hg. simplify_eq.
      * right. exists g'. split; [done|]. split; [by right|done].
Qed.

Lemma stale_formats_total (lastmod_cache : gmap string string) (formats : list string) :
  is_Some (lastmod_cache !! "package") →
  ∃ eligible, stale_formats lastmod_cache formats = Ret eligible.
Proof.
  intros Hpk. destruct (stale_formats lastmod_cache formats) as [eligible|e] eqn:H; [eauto|].
  apply stale_formats_raise in H as (_ & H & _). rewrite H in Hpk. by destruct Hpk.
Qed.

(** C8: an eligible format whose member is missing from the archive is no
    error.  With a package timestamp in the record, known format names and a
    readable archive the extractor ends normally; no path in its answer comes
    from that format; the format's timestamp is the package timestamp
    afterwards, so the format is not eligible again as long as the package
    timestamp stays what it is. *)
Theorem extract_package_files_absent_member
    env (collection package_name package_file : string) (options : Options)
    (lastmod_cache : gmap string string) (w : World)
    (bytes : string) (package : gmap string string)
    (package_lastmod format package_path local_name : string) :
  metadata_succeeds env →
  fs w !! package_file = Some bytes →
  env_zip_decode env bytes = Some package →
  lastmod_cache !! "package" = Some package_lastmod →
  (∀ g, g ∈ requested_formats options → is_Some (format_paths collection package_name g)) →
  format ∈ requested_formats options →
  is_stale lastmod_cache format = Ret true →
  format_paths collection package_name format = Some (package_path, local_name) →
  package !! package_path = None →
  ∃ paths lastmod_cache' w',
    extract_package_files env collection package_name package_file options (lastmod_cache, w)
    = (Ret paths, (lastmod_cache', w'))
    ∧ (∀ q, q ∈ paths →
         ∃ g, g ≠ format ∧ g ∈ requested_formats options
              ∧ q ∈ outputs_of collection package_name package_file g)
    ∧ lastmod_cache' !! format = Some package_lastmod
    ∧ lastmod_cache' !! "package" = Some package_lastmod
    ∧ is_stale lastmod_cache' format = Ret false.
Proof.
  intros Hmeta Hfile Hzip Hpk Hknown Hreq Hstale Hpaths Habsent.
  destruct (stale_formats_total lastmod_cache (requested_formats options)) as [eligible Hsel];
    [by rewrite Hpk|].
  pose proof (stale_formats_ret _ _ _ Hsel) as Hel.
  assert (format ∈ eligible) as Hin by (apply Hel; done).
  destruct (extract_loop_absent env collection package_name package_file package format
              package_lastmod package_path local_name Hmeta Hpaths Habsent
              eligible [] lastmod_cache (emit (EvZipOpen package_file) w) Hpk)
    as (paths & lastmod_cache' & w' & Hloop & Hpk' & Hformat & Hfrom).
  { intros g Hg. apply Hknown. by apply Hel in Hg as [? _]. }
  exists paths, lastmod_cache', w'. split; [|split; [|split; [|split]]].
  - unfold extract_package_files. unfold_monad. unfold path_exists. rewrite Hfile.
    rewrite bool_decide_eq_true_2 by eauto. simpl. rewrite Hsel.
    destruct eligible as [|g eligible]; [by apply elem_of_nil in Hin|].
    unfold zip_open. rewrite Hfile, Hzip. exact Hloop.
  - intros q Hq. destruct (Hfrom q Hq) as [?%elem_of_nil|(g & ? & Hg & ?)]; [done|].
    exists g. split; [done|]. split; [|done]. by apply Hel in Hg as [? _].
  - apply Hformat. by left.
  - done.
  - unfold is_stale. rewrite Hformat by (by left). rewrite Hpk'. by rewrite ltb_irrefl.
Qed.

(** ** Logs *)

Lemma extends_refl P w w' : log w' = log w → extends P w w'.
Proof. intros H. exists []. rewrite app_nil_r. auto. Qed.

Lemma extends_trans P w1 w2 w3 : extends P w1 w2 → extends P w2 w3 → extends P w1 w3.
Proof.
  intros (e1 & H1 & F1) (e2 & H2 & F2). exists (e1 ++ e2).
  rewrite H2, H1, app_assoc. split; [done|]. by apply Forall_app.
Qed.

Lemma extends_mono (P Q : event → Prop) w w' :
  (∀ e, P e → Q e) → extends P w w' → extends Q w w'.
Proof. intros HPQ (e & H & F). exists e. split; [done|]. eapply Forall_impl; eauto. Qed.

Lemma logs_mono {S A} `{HasWorld S} (P Q : event → Prop) (m : M S A) :
  (∀ e, P e → Q e) → logs P m → logs Q m.
Proof. intros HPQ Hm s r s' Hrun. eapply extends_mono, Hm; eauto. Qed.

Lemma logs_ret {S A} `{HasWorld S} P (a : A) : logs P (mret a : M S A).
Proof. intros s r s' [= <- <-]. by apply extends_refl. Qed.

Lemma logs_raise {S A} `{HasWorld S} P e : logs P (raise e : M S A).
Proof. intros s r s' [= <- <-]. by apply extends_refl. Qed.

Lemma logs_bind {S A B} `{HasWorld S} P (m : M S A) (k : A → M S B) :
  logs P m → (∀ a, logs P (k a)) → logs P (m ≫= k).
Proof.
  intros Hm Hk s r s' Hrun. unfold mbind, M_bind in Hrun.
  destruct (m s) as [[a|e] s1] eqn:H1.
  - eapply extends_trans; [eapply Hm, H1|eapply Hk, Hrun].
  - simplify_eq. eapply Hm, H1.
Qed.

Lemma logs_try_finally {S A} `{HasWorld S} P (body : M S A) (handler : M S unit) :
  logs P body → logs P handler → logs P (try_finally body handler).
Proof.
  intros Hb Hh s r s' Hrun. unfold try_finally in Hrun.
  destruct (body s) as [r1 s1] eqn:H1. destruct (handler s1) as [[[]|e] s2] eqn:H2;
    simplify_eq; (eapply extends_trans; [eapply Hb, H1|eapply Hh, H2]).
Qed.

Lemma logs_try_except {S A} `{HasWorld S} P (body : M S A) catches (handler : exn → M S A) :
  logs P body → (∀ e, logs P (handler e)) → logs P (try_except body catches handler).
Proof.
  intros Hb Hh s r s' Hrun. unfold try_except in Hrun.
  destruct (body s) as [[a|e] s1] eqn:H1.
  - simplify_eq. eapply Hb, H1.
  - destruct (catches e).
    + eapply extends_trans; [eapply Hb, H1|eapply Hh, Hrun].
    + simplify_eq. eapply Hb, H1.
Qed.

Lemma logs_on_fst {S1 S2 A} `{HasWorld S2} P (m : M S1 A) :
  logs P (on_fst m : M (S1 * S2) A).
Proof.
  intros [s1 s2] r s' Hrun. unfold on_fst in Hrun. destruct (m s1) as [r1 s1'].
  simplify_eq. by apply extends_refl.
Qed.

Lemma logs_on_snd {S1 S2 A} `{HasWorld S2} P (m : M S2 A) :
  logs P m → logs P (on_snd m : M (S1 * S2) A).
Proof.
  intros Hm [s1 s2] r s' Hrun. unfold on_snd in Hrun. destruct (m s2) as [r1 s2'] eqn:H2.
  simplify_eq. eapply Hm, H2.
Qed.

Lemma logs_fs_only {A} P (m : M World A) :
  (∀ w, log (m w).2 = log w) → logs P m.
Proof.
  intros Hm w r w' Hrun. apply extends_refl. specialize (Hm w). by rewrite Hrun in Hm.
Qed.

Lemma logs_exists P path : logs P (exists_ path).
Proof. by apply logs_fs_only. Qed.

Lemma logs_utils_read P path : logs P (utils_read path).
Proof. by apply logs_fs_only. Qed.

Lemma logs_utils_write P text path : logs P (utils_write text path).
Proof. by apply logs_fs_only. Qed.

Lemma logs_os_unlink P path : logs P (os_unlink path).
Proof. apply logs_fs_only. intros w. unfold os_unlink. by destruct (path_exists path w). Qed.

Lemma logs_bill_version_metadata env P package_name text_path :
  logs P (bill_version_metadata env package_name text_path).
Proof.
  apply logs_fs_only. intros w. unfold bill_version_metadata.
  by destruct (env_extract_bill_version_metadata env package_name text_path (fs w)).
Qed.

Lemma logs_utils_download env (P : event → Prop) url destination options :
  P (EvDownload url destination options) →
  logs P (utils_download env url destination options).
Proof.
  intros HP w r w' Hrun. unfold utils_download in Hrun.
  destruct (env_download env url destination options (fs w)) as [body files'].
  simplify_eq. exists [EvDownload url destination options]. split; [done|]. by constructor.
Qed.

Lemma logs_zip_open env (P : event → Prop) path :
  P (EvZipOpen path) → logs P (zip_open env path).
Proof.
  intros HP w r w' Hrun. unfold zip_open in Hrun.
  exists [EvZipOpen path]. split; [|by constructor].
  destruct (fs w !! path) as [bytes|]; [destruct (env_zip_decode env bytes)|]; by simplify_eq.
Qed.

Create HintDb logs.

Ltac logs_step :=
  first
    [ solve [auto 1 with logs nocore]
    | apply logs_ret | apply logs_raise | apply logs_on_fst
    | apply logs_exists | apply logs_utils_read | apply logs_utils_write
    | apply logs_os_unlink | apply logs_bill_version_metadata
    | apply logs_utils_download; exact I
    | apply logs_zip_open; exact I
    | apply logs_on_snd
    | apply logs_try_finally
    | apply logs_try_except; [|intros ?]
    | apply logs_bind; [|intros ?]
    | case_match ].

Ltac solve_logs := repeat logs_step; try done.

Lemma logs_mirror_package_zipfile env collection package_name file_path lastmod options :
  logs not_dump (mirror_package_zipfile env collection package_name file_path lastmod options).
Proof. unfold mirror_package_zipfile. solve_logs. Qed.

Lemma logs_extract_one env collection package_name package_file package format :
  logs not_dump (extract_one env collection package_name package_file package format).
Proof. unfold extract_one. solve_logs. Qed.

Lemma logs_extract_loop env collection package_name package_file package formats :
  ∀ extracted_files,
    logs not_dump
      (extract_loop env collection package_name package_file package formats extracted_files).
Proof.
  induction formats as [|format formats IH]; intros extracted_files; simpl.
  - solve_logs.
  - apply logs_bind; [apply logs_extract_one|]. intros added. apply IH.
Qed.

#[local] Hint Resolve logs_mirror_package_zipfile logs_extract_loop : logs.

Lemma logs_extract_package_files env collection package_name package_file options :
  logs not_dump (extract_package_files env collection package_name package_file options).
Proof. unfold extract_package_files. solve_logs. Qed.

#[local] Hint Resolve logs_extract_package_files : logs.

Lemma logs_mirror_package_in env collection package_name lastmod path options :
  logs not_dump (mirror_package_in env collection package_name lastmod path options).
Proof. unfold mirror_package_in. solve_logs. Qed.

Lemma logs_with_record {A} P package_name (m : M (gmap string string * World) A) :
  logs P m → logs P (with_record package_name m).
Proof.
  intros Hm [packages w] r s' Hrun. unfold with_record in Hrun.
  destruct (m (default ∅ (packages !! package_name), w)) as [r1 [files w1]] eqn:H1.
  simplify_eq. apply (Hm _ _ _ H1).
Qed.

Lemma logs_mirror_package env collection package_name lastmod options :
  logs not_dump (mirror_package env collection package_name lastmod options).
Proof.
  unfold mirror_package. solve_logs. apply logs_with_record, logs_mirror_package_in.
Qed.

Lemma logs_mirror_bulkdata_file env collection url item_path lastmod options :
  logs not_dump (mirror_bulkdata_file env collection url item_path lastmod options).
Proof. unfold mirror_bulkdata_file. solve_logs. Qed.

Lemma run_chunks_extends {S A B} `{HasWorld S} P (f : A → M S B) (size : nat)
    (tasks : list A) :
  (∀ t, logs P (f t)) →
  ∀ left broken s answer s',
    run_chunks f size left broken tasks s = (answer, s') →
    extends P (world_of s) (world_of s').
Proof.
  intros Hf. induction tasks as [|t tasks IH]; intros left broken s answer s' Hrun;
    cbn [run_chunks] in Hrun.
  - simplify_eq. by apply extends_refl.
  - cbv zeta in Hrun.
    destruct (if Nat.eqb left 0 then false else broken).
    + eapply IH, Hrun.
    + destruct (f t s) as [[r|e] s1] eqn:Hf1;
        destruct (run_chunks f size _ _ tasks s1) as [[rs e'] s2] eqn:Hrest;
        simplify_eq;
        (eapply extends_trans; [eapply Hf, Hf1|eapply IH, Hrest]).
Qed.

Lemma logs_starmap {S A B} `{HasWorld S} P (processes : positive) (f : A → M S B)
    (tasks : list A) :
  (∀ t, logs P (f t)) → logs P (starmap processes f tasks).
Proof.
  intros Hf s r s' Hrun. unfold starmap in Hrun.
  destruct (run_chunks f _ 0 false tasks s) as [[rs e] s1] eqn:Hchunks.
  assert (s' = s1) as -> by (destruct e; by simplify_eq).
  eapply run_chunks_extends; [exact Hf|exact Hchunks].
Qed.

Lemma logs_package_worker env packages options t :
  logs not_dump (package_worker env packages options t).
Proof.
  intros w r w' Hrun. unfold package_worker in Hrun.
  destruct (mirror_package env (pt_collection t) (pt_package_name t) (pt_lastmod t) options
              (packages, w)) as [r1 [packages' w1]] eqn:H1.
  simplify_eq. apply (logs_mirror_package _ _ _ _ _ _ _ _ H1).
Qed.

Lemma logs_load_store env P path : logs P (load_store env path).
Proof. unfold load_store. solve_logs. Qed.

Lemma not_dump_below trail e : not_dump e → below trail e.
Proof. by destruct e. Qed.

Lemma below_app trail url e : below (trail ++ [url]) e → below trail e.
Proof. destruct e; simpl; try done. rewrite length_app. simpl. lia. Qed.

Lemma logs_dump_store (P : event → Prop) trail path text :
  P (EvStoreDump trail path) → logs P (dump_store trail path text).
Proof.
  intros HP w r w' Hrun. unfold dump_store in Hrun.
  destruct (dir_exists (OsPath.dirname path) w); simplify_eq.
  - exists [EvStoreDump trail path]. split; [done|]. by constructor.
  - by apply extends_refl.
Qed.

Lemma logs_finally_dump {A} env (P : event → Prop) trail path store
    (body : M (Store * World) A) :
  logs P body → P (EvStoreDump trail path) →
  logs P (finally_dump env trail path store body).
Proof.
  intros Hbody HP w r w' Hrun. unfold finally_dump in Hrun.
  destruct (body (store, w)) as [r1 [store' w1]] eqn:H1.
  destruct (dump_store trail path (env_yaml_dump env store') w1) as [r2 w2] eqn:H2.
  assert (w' = w2) as -> by (destruct r2; by simplify_eq).
  eapply extends_trans; [apply (Hbody _ _ _ H1)|].
  apply (logs_dump_store P trail path _ HP _ _ _ H2).
Qed.

Lemma logs_update_sitemap_with env (walker : walker2) url current_lastmod how_we_got_here
    options :
  (∀ url' lastmod' options' cache_file,
     logs (below (how_we_got_here ++ [url]))
       (walker url' lastmod' (how_we_got_here ++ [url]) options' cache_file)) →
  logs (below how_we_got_here)
    (update_sitemap_with env walker url current_lastmod how_we_got_here options).
Proof.
  intros Hwalker. unfold update_sitemap_with.
  destruct (should_skip_sitemap url options); [apply logs_ret|].
  destruct (get_sitemap_cache_file url) as [name|e]; [|apply logs_raise].
  assert (below how_we_got_here
            (EvStoreDump (how_we_got_here ++ [url])
               (sitemap_lastmod_cache_file env name))) as Hdump.
  { simpl. rewrite length_app. simpl. lia. }
  apply logs_bind; [apply logs_load_store|]. intros [store|dumped].
  - apply logs_finally_dump; [|exact Hdump].
    eapply logs_mono; [|apply Hwalker]. intros e. apply below_app.
  - apply logs_try_finally; [apply logs_raise|]. apply logs_dump_store, Hdump.
Qed.

Lemma logs_index_loop P update_sitemap how_we_got_here options nodes :
  (∀ url lastmod, logs P (update_sitemap url lastmod how_we_got_here options)) →
  ∀ results, logs P (index_loop update_sitemap how_we_got_here options nodes results).
Proof.
  intros Hupdate. induction nodes as [|[url lastmod] nodes IH]; intros results; simpl.
  - apply logs_ret.
  - apply logs_bind; [apply Hupdate|]. intros sitemap_results. apply IH.
Qed.

(** Every dump that happens during [update_sitemap2] is the dump of a call
    further down the tree. *)
Lemma logs_update_sitemap2 env depth :
  ∀ url current_lastmod how_we_got_here options cache_file,
    logs (below how_we_got_here)
      (update_sitemap2 env depth url current_lastmod how_we_got_here options cache_file).
Proof.
  induction depth as [|depth IH]; intros url current_lastmod how_we_got_here options cache_file;
    simpl.
  - solve_logs; apply logs_starmap; intros t; (eapply logs_mono; [apply not_dump_below|]);
      [apply logs_mirror_bulkdata_file|apply logs_package_worker].
  - solve_logs.
    + apply logs_index_loop. intros url' lastmod'. apply logs_update_sitemap_with.
      intros. apply IH.
    + apply logs_starmap; intros t; (eapply logs_mono; [apply not_dump_below|]).
      apply logs_mirror_bulkdata_file.
    + apply logs_starmap; intros t; (eapply logs_mono; [apply not_dump_below|]).
      apply logs_package_worker.
Qed.

(** ** The store of a sitemap *)

Lemma collect_tasks_lastmod how_we_got_here options env nodes :
  ∀ package_tasks bulkdata_tasks store r store',
    collect_tasks env how_we_got_here options nodes package_tasks bulkdata_tasks store
    = (r, store') →
    store_lastmod store' = store_lastmod store.
Proof.
  induction nodes as [|[url lastmod] nodes IH];
    intros package_tasks bulkdata_tasks store r store' H; simpl in H.
  - unfold_monad. by simplify_eq.
  - repeat case_match; unfold_monad; simplify_eq; try done;
      match goal with H : collect_tasks _ _ _ _ _ _ _ = _ |- _ => apply IH in H end;
      by rewrite ?H.
Qed.

(** [update_sitemap2] changes the stored lastmod in one place only: after a
    download that was decided and that succeeded, to the lastmod given by the
    parent, if that is not empty. *)
Lemma update_sitemap2_lastmod env depth url current_lastmod how_we_got_here options
    cache_file store w r store' w' :
  update_sitemap2 env depth url current_lastmod how_we_got_here options cache_file (store, w)
  = (r, (store', w')) →
  store_lastmod store' = store_lastmod store
  ∨ (should_download_sitemap (store_lastmod store) current_lastmod options = true
     ∧ ∃ t, current_lastmod = Some t ∧ t ≠ EmptyString ∧ store_lastmod store' = Some t).
Proof.
  intros H.
  assert (∀ t, Py.truthy (get_str current_lastmod) = true →
               get_str current_lastmod = t →
               current_lastmod = Some t ∧ t ≠ EmptyString) as Hpresent.
  { intros t Ht <-. destruct current_lastmod as [[|c t']|]; simpl in *; try discriminate.
    split; [done|discriminate]. }
  destruct depth; simpl in H; unfold_monad; unfold utils_download in H;
    repeat (case_match; simplify_eq/=); try (by left);
    repeat match goal with
      | H : collect_tasks _ _ _ _ _ _ _ = _ |- _ => apply collect_tasks_lastmod in H
      | H : _ && _ = true |- _ => apply andb_true_iff in H as [? ?]
      end;
    simpl in *;
    try (right; split; [done|]; eexists; split; [|split]; [eapply Hpresent; eauto| eapply Hpresent; eauto|]; by eauto);
    try (left; congruence).
Qed.

Lemma dumps_by_below trail events : Forall (below trail) events → dumps_by trail events = 0.
Proof.
  unfold dumps_by. induction 1 as [|e events He _ IH]; [done|]. simpl.
  destruct e as [| |trail' path]; simpl; try done.
  rewrite bool_decide_eq_false_2; [done|]. intros ->. simpl in He. lia.
Qed.

Lemma dumps_by_app trail events events' :
  dumps_by trail (events ++ events') = dumps_by trail events + dumps_by trail events'.
Proof. unfold dumps_by. by rewrite List.filter_app, length_app. Qed.

(** C3, as the code has it.  A sitemap that passes the skip filter and
    whose URL names a store file has its store written back exactly once by
    its own call when the store file is absent or loads and the directory of
    the store file is on disk once the processing is over.  When the store is
    a mapping this holds whatever the outcome [r] of the processing is (a
    result, the empty answer after a failed transport, or an exception): the
    written store is the one the processing leaves, and its lastmod is either
    the one read or, when the download was decided and the parent gave a
    lastmod, that one.  A store that is not a mapping makes the processing
    fail at once and is written back as it was loaded. *)
Theorem update_sitemap_writes_store_once
    env (depth : nat) (url : string) (current_lastmod : option string)
    (how_we_got_here : list string) (options : Options) (w : World) (name : string) :
  should_skip_sitemap url options = false →
  get_sitemap_cache_file url = Ret name →
  let trail := how_we_got_here ++ [url] in
  let lastmod_cache_file := sitemap_lastmod_cache_file env name in
  (∀ store r store' w2,
     load_store env lastmod_cache_file w = (Ret (YamlMapping store), w) →
     update_sitemap2 env depth url current_lastmod trail options (sitemap_cache_file name)
       (store, w)
     = (r, (store', w2)) →
     dir_exists (OsPath.dirname lastmod_cache_file) w2 = true →
     let download := should_download_sitemap (store_lastmod store) current_lastmod options in
     ∃ events,
       log w2 = log w ++ events
       ∧ update_sitemap env depth url current_lastmod how_we_got_here options w
         = (r, mkWorld (<[lastmod_cache_file := env_yaml_dump env store']> (fs w2))
                 (log w ++ events ++ [EvStoreDump trail lastmod_cache_file]))
       ∧ dumps_by trail (events ++ [EvStoreDump trail lastmod_cache_file]) = 1
       ∧ (store_lastmod store' = store_lastmod store
          ∨ (download = true
             ∧ ∃ t, current_lastmod = Some t ∧ store_lastmod store' = Some t))
       ∧ (download = false ∨ current_lastmod = None →
          store_lastmod store' = store_lastmod store))
  ∧ (∀ dumped,
       load_store env lastmod_cache_file w = (Ret (YamlOther dumped), w) →
       dir_exists (OsPath.dirname lastmod_cache_file) w = true →
       update_sitemap env depth url current_lastmod how_we_got_here options w
       = (Raise (AttributeError "get"),
          mkWorld (<[lastmod_cache_file := dumped]> (fs w))
            (log w ++ [EvStoreDump trail lastmod_cache_file]))
       ∧ dumps_by trail [EvStoreDump trail lastmod_cache_file] = 1).
Proof.
  intros Hskip Hname trail lastmod_cache_file. subst trail lastmod_cache_file. split.
  - intros store r store' w2 Hload Hrun Hdir download. subst download.
    destruct (logs_update_sitemap2 env depth _ _ _ _ _ _ _ _ Hrun)
      as (events & Hlog & Hbelow).
    change (log w2 = log w ++ events) in Hlog.
    pose proof (update_sitemap2_lastmod _ _ _ _ _ _ _ _ _ _ _ _ Hrun) as Hlastmod.
    exists events. split; [done|]. split; [|split; [|split]].
    + unfold update_sitemap, update_sitemap_with. rewrite Hskip, Hname.
      cbv zeta. unfold mbind, M_bind. rewrite Hload.
      unfold finally_dump. rewrite Hrun. unfold dump_store. rewrite Hdir.
      unfold emit, set_fs. simpl. by rewrite Hlog, <- app_assoc.
    + rewrite dumps_by_app, (dumps_by_below _ _ Hbelow). unfold dumps_by. simpl.
      by rewrite bool_decide_eq_true_2.
    + destruct Hlastmod as [?|(? & t & ? & _ & ?)]; [by left|right]. eauto.
    + intros Hno. destruct Hlastmod as [?|(Hd & t & Ht & _ & ?)]; [done|].
      destruct Hno as [Hno|Hno]; congruence.
  - intros dumped Hload Hdir. split.
    + unfold update_sitemap, update_sitemap_with. rewrite Hskip, Hname.
      cbv zeta. unfold mbind, M_bind. rewrite Hload.
      unfold try_finally, raise, dump_store. by rewrite Hdir.
    + unfold dumps_by. simpl. by rewrite bool_decide_eq_true_2.
Qed.

(** ** What the walker asks of the transport *)

Lemma run_bind {S A B} (m : M S A) (k : A → M S B) (s : S) :
  (m ≫= k) s = match m s with
               | (Ret a, s1) => k a s1
               | (Raise e, s1) => (Raise e, s1)
               end.
Proof. reflexivity. Qed.

Ltac logs_any_walker :=
  repeat first
    [ logs_step
    | apply logs_starmap; intros ?;
      (eapply logs_mono; [|first [apply logs_mirror_bulkdata_file|apply logs_package_worker]]);
      done
    | eapply logs_mono;
      [|apply logs_index_loop; intros ? ?; apply logs_update_sitemap_with; intros;
        apply logs_update_sitemap2];
      done ].

(** The first thing [update_sitemap2] does is to call the transport for the
    sitemap, with [force] set to the fetch decision. *)
Lemma update_sitemap2_first_event env depth url current_lastmod how_we_got_here options
    cache_file store w :
  ∃ r s' events,
    update_sitemap2 env depth url current_lastmod how_we_got_here options cache_file (store, w)
    = (r, s')
    ∧ log s'.2
      = log w
        ++ EvDownload url cache_file
             (merge options
                (Some (should_download_sitemap (store_lastmod store) current_lastmod options))
                (Some true) None None)
           :: events.
Proof.
  destruct depth; cbn [update_sitemap2]; rewrite run_bind;
    change (on_fst get_state (store, w)) with (Ret store, (store, w));
    cbv beta iota; rewrite run_bind; unfold on_snd at 1, utils_download;
    destruct (env_download env _ _ _ _) as [body files']; cbv beta iota;
    match goal with
    | |- ∃ r s' events, ?m ?s = (r, s') ∧ _ =>
        assert (logs any_event m) as Hlogs by logs_any_walker;
        destruct (m s) as [r s'] eqn:Hrest
    end;
    destruct (Hlogs _ _ _ Hrest) as (events & Hlog & _);
    exists r, s', events; (split; [done|]);
    change (log s'.2 = (log w ++ [EvDownload url cache_file
             (merge options
                (Some (should_download_sitemap (store_lastmod store) current_lastmod options))
                (Some true) None None)]) ++ events) in Hlog;
    by rewrite Hlog, <- app_assoc.
Qed.

(** C9: a child entry without lastmod reaches the walker as the empty
    string; whatever the store and the options say, the walker decides to
    download it and calls the transport with [force] set, and the stored
    lastmod is the same afterwards, so the next run finds the same situation. *)
Theorem update_sitemap2_empty_lastmod
    env (depth : nat) (url : string) (how_we_got_here : list string) (options : Options)
    (cache_file : string) (store : Store) (w : World) :
  (∀ walker nodes results,
     index_loop walker how_we_got_here options ((url, EmptyString) :: nodes) results
     = (walker url (Some EmptyString) how_we_got_here options
        ≫= λ sitemap_results,
             index_loop walker how_we_got_here options nodes (results ++ sitemap_results)))
  ∧ should_download_sitemap (store_lastmod store) (Some EmptyString) options = true
  ∧ ∃ r store' w' events,
      update_sitemap2 env depth url (Some EmptyString) how_we_got_here options cache_file
        (store, w)
      = (r, (store', w'))
      ∧ log w'
        = log w ++ EvDownload url cache_file (merge options (Some true) (Some true) None None)
                   :: events
      ∧ opt_force (merge options (Some true) (Some true) None None) = true
      ∧ store_lastmod store' = store_lastmod store.
Proof.
  split; [done|]. split; [done|].
  destruct (update_sitemap2_first_event env depth url (Some EmptyString) how_we_got_here
              options cache_file store w) as (r & [store' w'] & events & Hrun & Hlog).
  exists r, store', w', events. split; [done|]. split; [exact Hlog|]. split; [done|].
  apply update_sitemap2_lastmod in Hrun as [?|(_ & t & [= <-] & Ht & _)]; done.
Qed.

(** C4, as the code has it: with [cached] set and [force] not set, a sitemap
    whose parent gave a lastmod is not decided for download and the transport
    is called for it without [force]; the root of a tree, which has no parent
    lastmod, is decided for download all the same, and the transport is called
    for it with [force] set. *)
Theorem cached_fetch_decisions
    env (depth : nat) (url : string) (how_we_got_here : list string) (options : Options)
    (cache_file : string) (store : Store) (w : World) :
  opt_cached options = true →
  opt_force options = false →
  (∀ t, t ≠ EmptyString →
     should_download_sitemap (store_lastmod store) (Some t) options = false
     ∧ ∃ r s' events,
         update_sitemap2 env depth url (Some t) how_we_got_here options cache_file (store, w)
         = (r, s')
         ∧ log s'.2
           = log w ++ EvDownload url cache_file
                        (merge options (Some false) (Some true) None None) :: events)
  ∧ should_download_sitemap (store_lastmod store) None options = true
  ∧ (∃ r s' events,
       update_sitemap2 env depth url None how_we_got_here options cache_file (store, w)
       = (r, s')
       ∧ log s'.2
         = log w ++ EvDownload url cache_file
                      (merge options (Some true) (Some true) None None) :: events)
  ∧ opt_force (merge options (Some true) (Some true) None None) = true.
Proof.
  intros Hcached Hforce. split; [|split; [done|split; [|done]]].
  - intros t Ht.
    assert (should_download_sitemap (store_lastmod store) (Some t) options = false) as Hno.
    { unfold should_download_sitemap. destruct t; [done|]. by rewrite Hforce, Hcached. }
    split; [done|].
    destruct (update_sitemap2_first_event env depth url (Some t) how_we_got_here
                options cache_file store w) as (r & s' & events & Hrun & Hlog).
    rewrite Hno in Hlog. eauto.
  - destruct (update_sitemap2_first_event env depth url None how_we_got_here
                options cache_file store w) as (r & s' & events & Hrun & Hlog).
    eauto.
Qed.

(** ** A record without a package timestamp *)

Lemma stale_formats_no_package (lastmod_cache : gmap string string) (formats : list string) :
  lastmod_cache !! "package" = None →
  (Exists (λ format, is_Some (lastmod_cache !! format)) formats →
   stale_formats lastmod_cache formats = Raise (KeyError "package"))
  ∧ (Forall (λ format, lastmod_cache !! format = None) formats →
     stale_formats lastmod_cache formats = Ret formats).
Proof.
  intros Hpk. induction formats as [|f formats [IHe IHa]]; simpl.
  - split; [by intros ?%Exists_nil|done].
  - unfold is_stale. rewrite Hpk. split.
    + intros [[t Ht]|Hrest]%Exists_cons.
      * by rewrite Ht.
      * destruct (lastmod_cache !! f); [done|]. by rewrite (IHe Hrest).
    + intros [Hf Hrest]%Forall_cons. by rewrite Hf, (IHa Hrest).
Qed.

Lemma extract_one_no_package env collection package_name package_file package format
    lastmod_cache w :
  is_Some (format_paths collection package_name format) →
  lastmod_cache !! "package" = None →
  (extract_one env collection package_name package_file package format (lastmod_cache, w)).1
  = Raise (KeyError "package").
Proof.
  intros [[package_path local_name] Hpaths] Hpk. unfold extract_one. rewrite Hpaths.
  unfold_monad. destruct (package !! package_path); simpl; by rewrite Hpk.
Qed.

(** C10, as the code has it: when the archive file exists and the record
    has no package timestamp, the extractor raises [KeyError] on that key as
    soon as a requested format has a recorded timestamp, and also when none
    has one but some format is requested, the archive opens and the requested
    formats are known ones. *)
Theorem extract_package_files_without_package_timestamp
    env (collection package_name package_file : string) (options : Options)
    (lastmod_cache : gmap string string) (w : World) :
  path_exists package_file w = true →
  lastmod_cache !! "package" = None →
  (∃ format, format ∈ requested_formats options ∧ is_Some (lastmod_cache !! format))
  ∨ (requested_formats options ≠ []
     ∧ (∃ bytes, fs w !! package_file = Some bytes ∧ is_Some (env_zip_decode env bytes))
     ∧ ∀ format, format ∈ requested_formats options →
                 is_Some (format_paths collection package_name format)) →
  (extract_package_files env collection package_name package_file options (lastmod_cache, w)).1
  = Raise (KeyError "package").
Proof.
  intros Hex Hpk Hcases.
  destruct (stale_formats_no_package lastmod_cache (requested_formats options) Hpk)
    as [Hraise Hret].
  unfold extract_package_files. unfold_monad. rewrite Hex. simpl.
  destruct (decide (Exists (λ format, is_Some (lastmod_cache !! format))
                      (requested_formats options))) as [Hsome|Hnone].
  { by rewrite (Hraise Hsome). }
  destruct Hcases as [(format & Hin & Hts)|(Hne & (bytes & Hfile & [package Hzip]) & Hknown)].
  { exfalso. apply Hnone, Exists_exists. eauto. }
  rewrite Hret.
  2: { apply Forall_forall. intros format Hin. apply eq_None_not_Some. intros Hts.
       apply Hnone, Exists_exists. eauto. }
  destruct (requested_formats options) as [|format formats]; [done|].
  unfold zip_open. rewrite Hfile, Hzip. simpl. unfold mbind, M_bind.
  pose proof (extract_one_no_package env collection package_name package_file package format
                lastmod_cache (emit (EvZipOpen package_file) w)) as Hone.
  destruct (extract_one env collection package_name package_file package format
              (lastmod_cache, emit (EvZipOpen package_file) w)) as [r s1].
  simpl in Hone. rewrite Hone; [done| |done]. apply Hknown. by left.
Qed.

(** ** The container mirror *)

Lemma last_char_app (a b : string) : b ≠ EmptyString → Py.last_char (a +:+ b) = Py.last_char b.
Proof.
  intros Hb. induction a as [|c a IH]; [done|].
  rewrite append_cons. simpl. rewrite IH.
  destruct (a +:+ b) eqn:Hab; [|done].
  destruct a; [|discriminate Hab]. rewrite append_nil in Hab. done.
Qed.

Lemma package_marker_not_archive (path : string) :
  package_marker_path path ≠ package_file_path path.
Proof.
  intros Heq. apply (f_equal Py.last_char) in Heq. revert Heq.
  unfold package_marker_path. rewrite last_char_app by discriminate.
  unfold package_file_path, OsPath.join.
  change (String.prefix "/" "package.zip") with false. cbv iota.
  destruct (negb (Py.truthy path) || OsPath.ends_with_slash path).
  - rewrite last_char_app by discriminate. discriminate.
  - rewrite last_char_app by discriminate. discriminate.
Qed.

(** The marker is current and [force] is off: the mirror answers [True] and
    touches neither the disk nor the log. *)
Lemma mirror_package_in_current env collection package_name lastmod path options
    lastmod_cache w :
  fs w !! package_marker_path path = Some lastmod →
  opt_force options = false →
  mirror_package_in env collection package_name lastmod path options (lastmod_cache, w)
  = (Ret RTrue, (checked_record path lastmod_cache w, w)).
Proof.
  intros Hmarker Hforce. unfold mirror_package_in, checked_record. unfold_monad.
  destruct (bool_decide (lastmod_cache ≠ ∅) && negb (path_exists (package_file_path path) w));
    cbv beta iota; unfold path_exists; rewrite Hforce;
    repeat first
      [ rewrite Hmarker
      | rewrite bool_decide_eq_true_2 by eauto
      | progress cbn [andb negb]
      | progress cbv beta iota ];
    reflexivity.
Qed.

(** A file that is not an archive makes the extractor raise [BadZipfile] as
    soon as it has a format to extract. *)
Lemma extract_package_files_corrupt env collection package_name package_file options
    lastmod_cache w bytes format eligible :
  fs w !! package_file = Some bytes →
  env_zip_decode env bytes = None →
  stale_formats lastmod_cache (requested_formats options) = Ret (format :: eligible) →
  extract_package_files env collection package_name package_file options (lastmod_cache, w)
  = (Raise BadZipfile, (lastmod_cache, emit (EvZipOpen package_file) w)).
Proof.
  intros Hfile Hzip Hsel. unfold extract_package_files. unfold_monad.
  unfold path_exists. rewrite Hfile. rewrite bool_decide_eq_true_2 by eauto.
  cbn [negb]. cbv beta iota. rewrite Hsel. unfold zip_open. by rewrite Hfile, Hzip.
Qed.

Lemma mirror_package_in_corrupt env collection package_name lastmod path options
    lastmod_cache w downloaded lastmod_cache1 w1 bytes format eligible :
  fs w !! package_marker_path path ≠ Some lastmod ∨ opt_force options = true →
  mirror_package_zipfile env collection package_name (package_file_path path) lastmod options
    (checked_record path lastmod_cache w, w)
  = (Ret downloaded, (lastmod_cache1, w1)) →
  fs w1 !! package_file_path path = Some bytes →
  env_zip_decode env bytes = None →
  stale_formats lastmod_cache1 (requested_formats options) = Ret (format :: eligible) →
  mirror_package_in env collection package_name lastmod path options (lastmod_cache, w)
  = (Ret (RList []),
     (lastmod_cache1,
      mkWorld (delete (package_file_path path) (fs w1))
        (log w1 ++ [EvZipOpen (package_file_path path)]))).
Proof.
  intros Hnoskip Hzipfile Hfile Hzip Hsel.
  pose proof (extract_package_files_corrupt env collection package_name
                (package_file_path path) options lastmod_cache1 w1 bytes format eligible
                Hfile Hzip Hsel) as Hextract.
  unfold mirror_package_in. unfold_monad. fold (checked_record path lastmod_cache w).
  assert ((if path_exists (package_marker_path path) w && negb (opt_force options)
           then bool_decide (Some lastmod = fs w !! package_marker_path path)
           else false) = false) as Hcurrent.
  { destruct Hnoskip as [Hne | ->]; [|by rewrite andb_false_r].
    destruct (_ && _); [|done]. by rewrite bool_decide_eq_false_2. }
  unfold checked_record in *.
  destruct (bool_decide (lastmod_cache ≠ ∅) && negb (path_exists (package_file_path path) w));
    cbv beta iota;
    (destruct (path_exists (package_marker_path path) w && negb (opt_force options));
     cbv beta iota; rewrite ?Hcurrent; cbv beta iota;
     rewrite Hzipfile; cbv beta iota; rewrite Hextract; cbn [is_BadZipfile]; cbv beta iota;
     unfold os_unlink, path_exists, emit, set_fs; cbn [fs log];
     rewrite Hfile; rewrite bool_decide_eq_true_2 by eauto; reflexivity).
Qed.

(** C1, as the code has it.  When the marker beside the archive is current
    and [force] is off, the mirror skips the package: it returns without
    opening the archive and leaves the disk and the log as they are, so a
    damaged archive and its marker stay.  When the extractor is reached and
    finds an archive that does not open, the mirror deletes the archive,
    answers the empty list and does not write the marker; a marker that is
    there stays as it is. *)
Theorem mirror_package_corrupt_archive
    env (collection package_name lastmod : string) (options : Options)
    (packages : gmap string (gmap string string)) (w : World) (path : string) :
  get_output_path env collection package_name options = Ret (Some path) →
  Py.truthy path = true →
  let file_path := package_file_path path in
  let marker := package_marker_path path in
  let record := checked_record path (default ∅ (packages !! package_name)) w in
  (fs w !! marker = Some lastmod → opt_force options = false →
   ∃ r,
     mirror_package env collection package_name lastmod options (packages, w)
     = (Ret r, (<[package_name := record]> packages, w)))
  ∧ (∀ downloaded record1 w1 bytes format eligible,
       fs w !! marker ≠ Some lastmod ∨ opt_force options = true →
       mirror_package_zipfile env collection package_name file_path lastmod options
         (record, w)
       = (Ret downloaded, (record1, w1)) →
       fs w1 !! file_path = Some bytes →
       env_zip_decode env bytes = None →
       stale_formats record1 (requested_formats options) = Ret (format :: eligible) →
       ∃ w',
         mirror_package env collection package_name lastmod options (packages, w)
         = (Ret (RList []), (<[package_name := record1]> packages, w'))
         ∧ fs w' = delete file_path (fs w1)
         ∧ fs w' !! file_path = None
         ∧ fs w' !! marker = fs w1 !! marker
         ∧ log w' = log w1 ++ [EvZipOpen file_path]).
Proof.
  intros Hpath Htruthy file_path marker record. subst file_path marker record.
  split.
  - intros Hmarker Hforce. eexists. unfold mirror_package. rewrite Hpath.
    change (get_str (Some path)) with path.
    rewrite Htruthy. cbn [negb]. unfold with_record.
    by rewrite (mirror_package_in_current _ _ _ _ _ _ _ _ Hmarker Hforce).
  - intros downloaded record1 w1 bytes format eligible Hnoskip Hzipfile Hfile Hzip Hsel.
    eexists. split; [|split; [|split; [|split]]].
    + unfold mirror_package. rewrite Hpath. change (get_str (Some path)) with path.
      rewrite Htruthy. cbn [negb].
      unfold with_record.
      by rewrite (mirror_package_in_corrupt _ _ _ _ _ _ _ _ _ _ _ _ _ _
                    Hnoskip Hzipfile Hfile Hzip Hsel).
    + done.
    + apply lookup_delete_eq.
    + apply lookup_delete_ne. apply not_eq_sym, package_marker_not_archive.
    + done.
Qed.

(** ** The statements on concrete worlds *)

(** C1 as it is written fails twice.  With the truncated archive beside a
    current marker and [force] off, the run opens nothing: the damage is not
    detected and both files stay.  With [force] on, the damage is detected
    and the archive is deleted, but the marker file stays. *)
Lemma mirror_package_truncated_archive_current_marker :
  env_zip_decode (Sample.env ∅) "ZIP" = None
  ∧ fs Sample.truncated_world !! Sample.archive_path = Some "ZIP"
  ∧ fs Sample.truncated_world !! Sample.marker_path = Some "2020-12-31"
  ∧ (let '(_, (_, w')) :=
       mirror_package (Sample.env ∅) "STATUTE" "134" "2020-12-31" (Sample.extract "pdf")
         (∅, Sample.truncated_world) in
     fs w' !! Sample.archive_path = Some "ZIP"
     ∧ fs w' !! Sample.marker_path = Some "2020-12-31"
     ∧ log w' = [])
  ∧ (let '(r, (_, w')) :=
       mirror_package (Sample.env ∅) "STATUTE" "134" "2020-12-31"
         (Sample.extract_forced "pdf") (∅, Sample.truncated_world) in
     r = Ret (RList [])
     ∧ fs w' !! Sample.archive_path = None
     ∧ fs w' !! Sample.marker_path = Some "2020-12-31").
Proof. vm_compute. repeat split; reflexivity. Qed.

Lemma mirror_package_corrupt_archive_witness :
  ∃ w',
    mirror_package (Sample.env ∅) "STATUTE" "134" "2020-12-31" (Sample.extract_forced "pdf")
      (∅, Sample.truncated_world)
    = (Ret (RList []), (<["134" := {[ "package" := "2020-12-31" ]}]> ∅, w'))
    ∧ fs w' !! Sample.archive_path = None
    ∧ fs w' !! Sample.marker_path = Some "2020-12-31".
Proof.
  destruct (mirror_package_corrupt_archive (Sample.env ∅) "STATUTE" "134" "2020-12-31"
              (Sample.extract_forced "pdf") ∅ Sample.truncated_world
              "data/govinfo/STATUTE/134" eq_refl eq_refl) as [_ H].
  destruct (H true {[ "package" := "2020-12-31" ]}
              (mkWorld (fs Sample.truncated_world)
                 [EvDownload "https://www.govinfo.gov/content/pkg/STATUTE-134.zip"
                    Sample.archive_path
                    (merge (Sample.extract_forced "pdf") (Some true) (Some true) (Some false)
                       (Some false))])
              "ZIP" "pdf" [])
    as (w' & Hrun & _ & Hgone & Hmarker & _).
  - right. reflexivity.
  - vm_compute. reflexivity.
  - vm_compute. reflexivity.
  - vm_compute. reflexivity.
  - vm_compute. reflexivity.
  - exists w'. split; [exact Hrun|]. split; [exact Hgone|].
    etrans; [exact Hmarker|]. vm_compute. reflexivity.
Defined.

Lemma update_sitemap_writes_store_once_witness :
  let url := "https://www.govinfo.gov/sitemap/STATUTE_2020_sitemap.xml" in
  let root := "https://www.govinfo.gov/sitemap/STATUTE_sitemap_index.xml" in
  let lastmod_cache_file := "govinfo/sitemap/STATUTE/2020/sitemap-lastmod.yaml" in
  ∃ r w' events,
    update_sitemap (Sample.env Sample.remote) 5 url (Some "2021-01-01") [root]
      (Sample.extract "pdf") Sample.empty_world
    = (r, w')
    ∧ log w' = events ++ [EvStoreDump [root; url] lastmod_cache_file]
    ∧ dumps_by [root; url] (events ++ [EvStoreDump [root; url] lastmod_cache_file]) = 1
    ∧ fs w' !! lastmod_cache_file = Some "lastmod: 2021-01-01".
Proof.
  intros url root lastmod_cache_file.
  destruct (update_sitemap2 (Sample.env Sample.remote) 5 url (Some "2021-01-01") [root; url]
              (Sample.extract "pdf") "govinfo/sitemap/STATUTE/2020/sitemap.xml"
              (empty_store, Sample.empty_world)) as [r [store' w2]] eqn:Hrun.
  assert (dir_exists "govinfo/sitemap/STATUTE/2020" w2 = true) as Hdir.
  { replace w2 with (r, (store', w2)).2.2 by reflexivity. rewrite <- Hrun.
    vm_compute. reflexivity. }
  assert (env_yaml_dump (Sample.env Sample.remote) store' = "lastmod: 2021-01-01") as Hdump.
  { replace store' with (r, (store', w2)).2.1 by reflexivity. rewrite <- Hrun.
    vm_compute. reflexivity. }
  destruct (proj1 (update_sitemap_writes_store_once (Sample.env Sample.remote) 5 url
                     (Some "2021-01-01") [root] (Sample.extract "pdf") Sample.empty_world
                     "STATUTE/2020" eq_refl eq_refl)
              empty_store r store' w2 eq_refl Hrun Hdir)
    as (events & _ & Hupdate & Hdumps & _ & _).
  exists r,
    (mkWorld (<[lastmod_cache_file := env_yaml_dump (Sample.env Sample.remote) store']> (fs w2))
       (events ++ [EvStoreDump [root; url] lastmod_cache_file])),
    events.
  split; [exact Hupdate|]. split; [reflexivity|]. split; [exact Hdumps|].
  cbn [fs]. etrans; [apply lookup_insert_eq|]. by rewrite Hdump.
Defined.

(** C3 as it is written fails where the call has no store to write.  A
    sitemap whose URL has none of the four shapes passes the skip filter and
    is refused before a store file is named; a store file that does not load
    ends the call before the processing starts.  Nothing is written in either
    case. *)
Lemma update_sitemap_without_store :
  should_skip_sitemap "https://www.govinfo.gov/sitemap/A-B_sitemap_index.xml" no_options
  = false
  ∧ update_sitemap (Sample.env Sample.remote) 5
      "https://www.govinfo.gov/sitemap/A-B_sitemap_index.xml" (Some "2021-01-01") []
      no_options Sample.empty_world
    = (Raise (ValueError "https://www.govinfo.gov/sitemap/A-B_sitemap_index.xml"),
       Sample.empty_world)
  ∧ should_skip_sitemap "https://www.govinfo.gov/sitemap/STATUTE_sitemap_index.xml"
      no_options
    = false
  ∧ update_sitemap (Sample.env Sample.remote) 5
      "https://www.govinfo.gov/sitemap/STATUTE_sitemap_index.xml" None [] no_options
      (mkWorld {[ "govinfo/sitemap/STATUTE/sitemap-lastmod.yaml" := "{" ]} [])
    = (Raise (LoadError "govinfo/sitemap/STATUTE/sitemap-lastmod.yaml"),
       mkWorld {[ "govinfo/sitemap/STATUTE/sitemap-lastmod.yaml" := "{" ]} []).
Proof. vm_compute. repeat split; reflexivity. Qed.

(** C4 as it is written fails: with [cached] set, on an empty disk, the run
    fetches the root index with [force] set (and then, here, the sitemap below
    it and the archive it lists), and files appear on the disk. *)
Lemma cached_run_fetches_the_root :
  opt_cached Sample.cached_statute = true
  ∧ fs Sample.empty_world = ∅
  ∧ (let '(r, w') :=
       run (Sample.env Sample.remote) 5 Sample.cached_statute Sample.empty_world in
     r = Ret tt
     ∧ head (log w')
       = Some (EvDownload "https://www.govinfo.gov/sitemap/STATUTE_sitemap_index.xml"
                 "govinfo/sitemap/STATUTE/sitemap.xml"
                 (merge Sample.cached_statute (Some true) (Some true) None None))
     ∧ opt_force (merge Sample.cached_statute (Some true) (Some true) None None) = true
     ∧ fs w' !! "govinfo/sitemap/STATUTE/sitemap.xml"
       = Some "Ihttps://www.govinfo.gov/sitemap/STATUTE_2020_sitemap.xml 2021-01-01"
     ∧ fs w' !! Sample.archive_path = Some "ZIP|STATUTE-134/pdf/STATUTE-134.pdf|%PDF").
Proof. vm_compute. repeat split; reflexivity. Qed.

Lemma cached_fetch_decisions_witness :
  should_download_sitemap None (Some "2021-01-01") Sample.cached_statute = false
  ∧ should_download_sitemap None None Sample.cached_statute = true
  ∧ ∃ r s' events,
      update_sitemap2 (Sample.env Sample.remote) 5
        "https://www.govinfo.gov/sitemap/STATUTE_sitemap_index.xml" None
        ["https://www.govinfo.gov/sitemap/STATUTE_sitemap_index.xml"]
        Sample.cached_statute "govinfo/sitemap/STATUTE/sitemap.xml"
        (empty_store, Sample.empty_world)
      = (r, s')
      ∧ log s'.2
        = log Sample.empty_world
          ++ EvDownload "https://www.govinfo.gov/sitemap/STATUTE_sitemap_index.xml"
               "govinfo/sitemap/STATUTE/sitemap.xml"
               (merge Sample.cached_statute (Some true) (Some true) None None) :: events.
Proof.
  destruct (cached_fetch_decisions (Sample.env Sample.remote) 5
              "https://www.govinfo.gov/sitemap/STATUTE_sitemap_index.xml"
              ["https://www.govinfo.gov/sitemap/STATUTE_sitemap_index.xml"]
              Sample.cached_statute "govinfo/sitemap/STATUTE/sitemap.xml"
              empty_store Sample.empty_world eq_refl eq_refl)
    as (Hchild & Hroot & Hfetch & _).
  split; [|split; [exact Hroot|exact Hfetch]].
  apply (Hchild "2021-01-01"). discriminate.
Defined.

(** C5 at a current marker: the container mirror answers [True], which is
    not a list of paths, and changes nothing; the flat-item mirror in the same
    situation answers the list with the item's path. *)
Theorem mirror_package_current_marker_answers_True :
  mirror_package (Sample.env ∅) "STATUTE" "134" "2020-12-31" (Sample.extract "pdf")
    (∅, Sample.current_world)
  = (Ret RTrue, ({[ "134" := ∅ ]}, Sample.current_world))
  ∧ mirror_bulkdata_file (Sample.env ∅) "FR"
      "https://www.govinfo.gov/bulkdata/FR/2020/FR-2020-01-02.xml" "2020/FR-2020-01-02.xml"
      "2020-01-03" no_options Sample.flat_world
    = (Ret (RList ["data/govinfo/FR/2020/FR-2020-01-02.xml"]), Sample.flat_world).
Proof. split; vm_compute; reflexivity. Qed.

Lemma should_skip_sitemap_shapes_witness :
  should_skip_sitemap "https://www.govinfo.gov/sitemap/STATUTE_sitemap_index.xml"
    (Sample.years "2020") = false
  ∧ should_skip_sitemap "https://www.govinfo.gov/sitemap/STATUTE_2019_sitemap.xml"
      (Sample.years "2020") = true
  ∧ should_skip_sitemap "https://www.govinfo.gov/sitemap/STATUTE_2020_sitemap.xml"
      (Sample.years "2020") = false
  ∧ should_skip_sitemap "https://www.govinfo.gov/sitemap/bulkdata/FR/2019/01/sitemap.xml"
      (Sample.years "2020") = true
  ∧ update_sitemap_with (Sample.env Sample.remote)
      (update_sitemap2 (Sample.env Sample.remote) 5)
      "https://www.govinfo.gov/sitemap/STATUTE_2019_sitemap.xml" (Some "2021-01-01") []
      (Sample.years "2020") Sample.empty_world
    = (Ret [], Sample.empty_world).
Proof.
  assert (∀ url, Re.rmatch re_collection_index url = None →
                 Re.rmatch re_bulkdata_index url = None → ¬ is_index_url url) as Hnot.
  { intros url H1 H2 [[m H]|[m H]]; congruence. }
  split; [|split; [|split; [|split]]].
  - apply (should_skip_sitemap_shapes _ (Sample.years "2020")). left. vm_compute. eauto.
  - rewrite (proj1 (proj2 (should_skip_sitemap_shapes _ (Sample.years "2020"))) "2019");
      [reflexivity|].
    split; [apply Hnot; reflexivity|]. exists ["STATUTE"; "2019"]. split; reflexivity.
  - rewrite (proj1 (proj2 (should_skip_sitemap_shapes _ (Sample.years "2020"))) "2020");
      [reflexivity|].
    split; [apply Hnot; reflexivity|]. exists ["STATUTE"; "2020"]. split; reflexivity.
  - rewrite (proj1 (proj2 (proj2 (should_skip_sitemap_shapes _ (Sample.years "2020")))) "2019");
      [reflexivity|].
    split; [apply Hnot; reflexivity|]. exists ["FR"; "2019"; "/01"]. split; reflexivity.
  - apply (should_skip_sitemap_shapes _ (Sample.years "2020")). reflexivity.
Defined.

Lemma extract_package_files_absent_member_witness :
  ∃ paths lastmod_cache' w',
    extract_package_files (Sample.env ∅) "STATUTE" "134" Sample.archive_path
      (Sample.extract "pdf,xml") ({[ "package" := "2020-12-31" ]}, Sample.unmarked_world)
    = (Ret paths, (lastmod_cache', w'))
    ∧ (∀ q, q ∈ paths →
         ∃ g, g ≠ "xml" ∧ g ∈ requested_formats (Sample.extract "pdf,xml")
              ∧ q ∈ outputs_of "STATUTE" "134" Sample.archive_path g)
    ∧ lastmod_cache' !! "xml" = Some "2020-12-31"
    ∧ lastmod_cache' !! "package" = Some "2020-12-31"
    ∧ is_stale lastmod_cache' "xml" = Ret false.
Proof.
  apply (extract_package_files_absent_member (Sample.env ∅) "STATUTE" "134"
           Sample.archive_path (Sample.extract "pdf,xml") {[ "package" := "2020-12-31" ]}
           Sample.unmarked_world "ZIP|STATUTE-134/pdf/STATUTE-134.pdf|%PDF"
           {[ "STATUTE-134/pdf/STATUTE-134.pdf" := "%PDF" ]}
           "2020-12-31" "xml" "STATUTE-134/xml/STATUTE-134.xml" "document.xml").
  - intros package_name text_path files. reflexivity.
  - vm_compute. reflexivity.
  - vm_compute. reflexivity.
  - vm_compute. reflexivity.
  - change (requested_formats (Sample.extract "pdf,xml")) with ["pdf"; "xml"].
    intros g [->|[->|Hg%elem_of_nil]%elem_of_cons]%elem_of_cons; [vm_compute; eauto..|done].
  - change (requested_formats (Sample.extract "pdf,xml")) with ["pdf"; "xml"].
    apply elem_of_cons. right. apply elem_of_cons. by left.
  - vm_compute. reflexivity.
  - vm_compute. reflexivity.
  - vm_compute. reflexivity.
Defined.

(** C10 as it is written fails when the archive file is not there: the
    record has no package timestamp and the requested format has a recorded
    one, yet the extractor answers the empty list. *)
Lemma extract_package_files_no_archive_no_error :
  let lastmod_cache : gmap string string := {[ "pdf" := "2020-12-31" ]} in
  lastmod_cache !! "package" = None
  ∧ "pdf" ∈ requested_formats (Sample.extract "pdf")
  ∧ lastmod_cache !! "pdf" = Some "2020-12-31"
  ∧ path_exists Sample.archive_path Sample.empty_world = false
  ∧ extract_package_files (Sample.env ∅) "STATUTE" "134" Sample.archive_path
      (Sample.extract "pdf") (lastmod_cache, Sample.empty_world)
    = (Ret [], (lastmod_cache, Sample.empty_world)).
Proof.
  split; [reflexivity|]. split; [|split; [|split]]; [|vm_compute; reflexivity..].
  change (requested_formats (Sample.extract "pdf")) with ["pdf"]. by left.
Qed.

Lemma extract_package_files_without_package_timestamp_witness :
  (extract_package_files (Sample.env ∅) "STATUTE" "134" Sample.archive_path
     (Sample.extract "pdf") ({[ "pdf" := "2020-12-31" ]}, Sample.unmarked_world)).1
  = Raise (KeyError "package")
  ∧ (extract_package_files (Sample.env ∅) "STATUTE" "134" Sample.archive_path
       (Sample.extract "pdf,xml") (∅, Sample.unmarked_world)).1
    = Raise (KeyError "package").
Proof.
  split.
  - apply extract_package_files_without_package_timestamp; [reflexivity..|].
    left. exists "pdf". split; [|vm_compute; eauto].
    change (requested_formats (Sample.extract "pdf")) with ["pdf"]. by left.
  - apply extract_package_files_without_package_timestamp; [reflexivity..|].
    right. change (requested_formats (Sample.extract "pdf,xml")) with ["pdf"; "xml"].
    split; [done|]. split.
    + exists "ZIP|STATUTE-134/pdf/STATUTE-134.pdf|%PDF". split; [|vm_compute; eauto].
      vm_compute. reflexivity.
    + intros g [->|[->|Hg%elem_of_nil]%elem_of_cons]%elem_of_cons; [vm_compute; eauto..|done].
Defined.

Lemma extract_package_files_eligibility_witness :
  (* "pdf" is as recent as the package: asking for it again opens nothing *)
  extract_package_files (Sample.env ∅) "STATUTE" "134" Sample.archive_path
    (Sample.extract "pdf")
    ({[ "package" := "2020-12-31"; "pdf" := "2020-12-31" ]}, Sample.unmarked_world)
  = (Ret [], ({[ "package" := "2020-12-31"; "pdf" := "2020-12-31" ]}, Sample.unmarked_world))
  (* "xml" was never asked for: the archive is opened *)
  ∧ log (extract_package_files (Sample.env ∅) "STATUTE" "134" Sample.archive_path
           (Sample.extract "xml")
           ({[ "package" := "2020-12-31"; "pdf" := "2020-12-31" ]}, Sample.unmarked_world)).2.2
    = [EvZipOpen Sample.archive_path].
Proof.
  split.
  - pose proof (extract_package_files_eligibility (Sample.env ∅) "STATUTE" "134"
                  Sample.archive_path (Sample.extract "pdf")
                  {[ "package" := "2020-12-31"; "pdf" := "2020-12-31" ]}
                  Sample.unmarked_world) as H.
    change (stale_formats _ _) with (Ret [] : result (list string)) in H.
    destruct H as (_ & H & _). by apply H.
  - pose proof (extract_package_files_eligibility (Sample.env ∅) "STATUTE" "134"
                  Sample.archive_path (Sample.extract "xml")
                  {[ "package" := "2020-12-31"; "pdf" := "2020-12-31" ]}
                  Sample.unmarked_world) as H.
    change (stale_formats _ _) with (Ret ["xml"] : result (list string)) in H.
    destruct H as (_ & _ & H). by apply H.
Defined.

(** ** The helpers on small inputs *)

Example strip_years : Py.strip " 2019,2020 " = "2019,2020".
Proof. reflexivity. Qed.

Example split_years : Py.split "," "2019, 2020" = ["2019"; " 2020"].
Proof. reflexivity. Qed.

Example split_empty : Py.split "," EmptyString = [EmptyString].
Proof. reflexivity. Qed.

Example replace_all :
  Py.replace ".xml" "-lastmod.yaml" "a.xml/sitemap.xml" = "a-lastmod.yaml/sitemap-lastmod.yaml".
Proof. reflexivity. Qed.

Example splitext_archive :
  OsPath.splitext_root "data/govinfo/STATUTE/x.y/package.zip"
  = "data/govinfo/STATUTE/x.y/package".
Proof. reflexivity. Qed.

Example splitext_hidden : OsPath.splitext_root "data/x.y/.hidden" = "data/x.y/.hidden".
Proof. reflexivity. Qed.

Example dirname_archive : OsPath.dirname "data/x.y//package.zip" = "data/x.y".
Proof. reflexivity. Qed.

Example dirname_root : OsPath.dirname "/package.zip" = "/".
Proof. reflexivity. Qed.

Example basename_item : OsPath.basename "113/hr/BILLSTATUS-113hr2.xml" = "BILLSTATUS-113hr2.xml".
Proof. reflexivity. Qed.

Example int_blank_underscore : PyInt.int " 1_14 " = Some 114%Z.
Proof. reflexivity. Qed.

Example int_refused : PyInt.int "113,114" = None.
Proof. reflexivity. Qed.

(** The separator FS is a blank for [str.strip] and not for [int]. *)
Example int_separator_refused :
  Py.strip (String "028" "114") = "114" ∧ PyInt.int (String "028" "114") = None.
Proof. split; reflexivity. Qed.

(** Twenty tasks on a pool of two workers make chunks of three.  The tasks
    1 and 9 raise: the tasks 2, 10 and 11 of their chunks do not run, all
    others do. *)
Example starmap_chunks :
  let task (i : nat) : M (list nat) nat :=
    λ ran, (if bool_decide (i = 1 ∨ i = 9) then Raise BadZipfile else Ret i, ran ++ [i]) in
  starmap 2 task (seq 0 20) []
  = (Raise BadZipfile, [0; 1; 3; 4; 5; 6; 7; 8; 9; 12; 13; 14; 15; 16; 17; 18; 19])
  ∧ starmap 2 task (seq 2 7) [] = (Ret [2; 3; 4; 5; 6; 7; 8], [2; 3; 4; 5; 6; 7; 8]).
Proof. split; vm_compute; reflexivity. Qed.

(** Repetition is greedy: the year is the last run of digits that still lets
    the rest of the pattern match. *)
Example year_greedy :
  Re.rmatch re_year_sitemap "https://www.govinfo.gov/sitemap/A_1_2_sitemap.xml"
  = Some ["A_1"; "2"].
Proof. reflexivity. Qed.

Example cache_file_bulkdata :
  get_sitemap_cache_file "https://www.govinfo.gov/sitemap/bulkdata/BILLSTATUS/115hr/sitemap.xml"
  = Ret "BILLSTATUS-bulkdata/115hr".
Proof. reflexivity. Qed.

Example cache_file_unknown_shape :
  should_skip_sitemap "https://www.govinfo.gov/sitemap/A-B_sitemap_index.xml" no_options = false
  ∧ get_sitemap_cache_file "https://www.govinfo.gov/sitemap/A-B_sitemap_index.xml"
    = Raise (ValueError "https://www.govinfo.gov/sitemap/A-B_sitemap_index.xml").
Proof. split; reflexivity. Qed.

Example bill_id_pair :
  get_bill_id_for_package "113hconres66ih" false None
  = Ret (Some (BillAndVersion "hconres66-113" "ih")).
Proof. reflexivity. Qed.

Example bill_id_other_congress : get_bill_id_for_package "113hr2" false (Some "114") = Ret None.
Proof. reflexivity. Qed.

Example bill_id_no_version :
  get_bill_id_for_package "113hr2" true (Some "113") = Ret (Some (BillVersionId "hr2-113-")).
Proof. reflexivity. Qed.

(** A first run on an empty disk mirrors the sample tree; the store of the
    2020 sitemap keeps the lastmod its parent gave. *)
Example first_run :
  let '(r, w') :=
    run (Sample.env Sample.remote) 5
      (mkOptions (Some "STATUTE") None None None (Some "pdf") None false false None None None)
      Sample.empty_world in
  r = Ret tt
  ∧ fs w' !! "data/govinfo/STATUTE/134/document.pdf" = Some "%PDF"
  ∧ fs w' !! Sample.marker_path = Some "2020-12-31"
  ∧ fs w' !! "govinfo/sitemap/STATUTE/2020/sitemap-lastmod.yaml"
    = Some "lastmod: 2021-01-01".
Proof. vm_compute. repeat split; reflexivity. Qed.

(** * Further properties of the code *)

(** ** Extraction twice *)

Lemma extract_one_ret env collection package_name package_file package format
    lastmod_cache w added lastmod_cache' w' :
  extract_one env collection package_name package_file package format (lastmod_cache, w)
  = (Ret added, (lastmod_cache', w')) →
  is_Some (format_paths collection package_name format)
  ∧ ∃ package_lastmod,
      lastmod_cache !! "package" = Some package_lastmod
      ∧ lastmod_cache' = <[format := package_lastmod]> lastmod_cache.
Proof.
  unfold extract_one.
  destruct (format_paths collection package_name format) as [[package_path local_name]|];
    unfold_monad; intros H; [|by simplify_eq].
  split; [eauto|].
  destruct (lastmod_cache !! "package") as [package_lastmod|] eqn:Hpk.
  - exists package_lastmod. split; [done|].
    repeat (case_match; simplify_eq/=); done.
  - repeat (case_match; simplify_eq/=); done.
Qed.

Lemma extract_loop_ret env collection package_name package_file package formats :
  ∀ extracted_files lastmod_cache w paths lastmod_cache' w',
    extract_loop env collection package_name package_file package formats extracted_files
      (lastmod_cache, w)
    = (Ret paths, (lastmod_cache', w')) →
    (∀ f, f ∉ formats → lastmod_cache' !! f = lastmod_cache !! f)
    ∧ ("package" ∉ formats)
    ∧ (formats ≠ [] → is_Some (lastmod_cache !! "package"))
    ∧ (∀ f, f ∈ formats → lastmod_cache' !! f = lastmod_cache !! "package").
Proof.
  induction formats as [|g formats IH];
    intros extracted_files lastmod_cache w paths lastmod_cache' w' H; simpl in H.
  - unfold_monad. simplify_eq. repeat split; try done.
    + by intros ?%elem_of_nil.
    + by intros f ?%elem_of_nil.
  - unfold mbind, M_bind in H.
    destruct (extract_one env collection package_name package_file package g (lastmod_cache, w))
      as [[added|e] [lastmod_cache1 w1]] eqn:Hone; [|discriminate].
    apply extract_one_ret in Hone as (Hknown & package_lastmod & Hpk & ->).
    apply IH in H as (Hother & Hnot & _ & Hin).
    assert (g ≠ "package") as Hg.
    { intros ->. rewrite format_paths_not_package in Hknown. by destruct Hknown. }
    repeat split.
    + intros f Hf. apply not_elem_of_cons in Hf as [? ?].
      rewrite Hother by done. by rewrite lookup_insert_ne.
    + intros [?|?]%elem_of_cons; [by apply Hg|done].
    + by rewrite Hpk.
    + intros f Hf. rewrite Hpk.
      destruct (decide (f ∈ formats)) as [Hrest|Hrest].
      * rewrite (Hin f Hrest). by rewrite lookup_insert_ne.
      * apply elem_of_cons in Hf as [->|?]; [|done].
        rewrite Hother by done. apply lookup_insert_eq.
Qed.

Lemma stale_formats_none (lastmod_cache : gmap string string) (formats : list string) :
  (∀ f, f ∈ formats → is_stale lastmod_cache f = Ret false) →
  stale_formats lastmod_cache formats = Ret [].
Proof.
  induction formats as [|f formats IH]; intros H; simpl; [done|].
  rewrite (H f) by (by left). rewrite IH; [done|]. intros g Hg. apply H. by right.
Qed.

Lemma stale_formats_each (lastmod_cache : gmap string string) (formats eligible : list string) :
  stale_formats lastmod_cache formats = Ret eligible →
  ∀ f, f ∈ formats → ∃ b, is_stale lastmod_cache f = Ret b.
Proof.
  revert eligible. induction formats as [|g formats IH]; intros eligible H f Hf; simpl in H.
  - by apply elem_of_nil in Hf.
  - destruct (is_stale lastmod_cache g) as [keep|] eqn:Hg; [|discriminate].
    destruct (stale_formats lastmod_cache formats) as [kept|] eqn:Hrest; [|discriminate].
    apply elem_of_cons in Hf as [->|Hf]; [eauto|]. eapply IH; eauto.
Qed.

(** X1: Extraction is idempotent: once the extractor has answered normally on
    an archive that is on disk, no requested format is eligible with the record
    it leaves, and a second call answers the empty list without opening the
    archive and without changing the record, the disk or the log. *)
Theorem extract_package_files_twice
    env (collection package_name package_file : string) (options : Options)
    (lastmod_cache : gmap string string) (w : World)
    (paths : list string) (lastmod_cache' : gmap string string) (w' : World) :
  path_exists package_file w = true →
  extract_package_files env collection package_name package_file options (lastmod_cache, w)
  = (Ret paths, (lastmod_cache', w')) →
  stale_formats lastmod_cache' (requested_formats options) = Ret []
  ∧ ∀ w'',
      extract_package_files env collection package_name package_file options
        (lastmod_cache', w'')
      = (Ret [], (lastmod_cache', w'')).
Proof.
  intros Hex Hrun.
  assert (stale_formats lastmod_cache' (requested_formats options) = Ret []) as Hnone.
  { unfold extract_package_files in Hrun. unfold_monad. rewrite Hex in Hrun. simpl in Hrun.
    destruct (stale_formats lastmod_cache (requested_formats options)) as [eligible|e] eqn:Hsel;
      [|discriminate].
    destruct eligible as [|g eligible]; [by simplify_eq|].
    destruct (zip_open env package_file w) as [[package|e] w1]; [|discriminate].
    apply extract_loop_ret in Hrun as (Hother & Hnot & Hpk & Hin).
    destruct Hpk as [package_lastmod Hpk]; [done|].
    apply stale_formats_none. intros f Hf. unfold is_stale.
    rewrite (Hother "package" Hnot), Hpk.
    destruct (decide (f ∈ g :: eligible)) as [Hel|Hel].
    - rewrite (Hin f Hel), Hpk. by rewrite ltb_irrefl.
    - rewrite (Hother f Hel).
      destruct (stale_formats_each _ _ _ Hsel f Hf) as [b Hb].
      destruct b.
      + exfalso. apply Hel. by apply (stale_formats_ret _ _ _ Hsel).
      + unfold is_stale in Hb. rewrite Hpk in Hb.
        destruct (lastmod_cache !! f); [done|discriminate]. }
  split; [done|]. intros w''. unfold extract_package_files. unfold_monad.
  destruct (path_exists package_file w''); simpl; [|done]. by rewrite Hnone.
Qed.

Lemma extract_package_files_twice_witness :
  let first :=
    extract_package_files (Sample.env ∅) "STATUTE" "134" Sample.archive_path
      (Sample.extract "pdf,xml") ({[ "package" := "2020-12-31" ]}, Sample.unmarked_world) in
  first.1 = Ret ["data/govinfo/STATUTE/134/document.pdf"]
  ∧ extract_package_files (Sample.env ∅) "STATUTE" "134" Sample.archive_path
      (Sample.extract "pdf,xml") first.2
    = (Ret [], first.2).
Proof.
  cbv zeta.
  destruct (extract_package_files (Sample.env ∅) "STATUTE" "134" Sample.archive_path
              (Sample.extract "pdf,xml") ({[ "package" := "2020-12-31" ]}, Sample.unmarked_world))
    as [r [lastmod_cache' w']] eqn:Hfirst.
  assert (r = Ret ["data/govinfo/STATUTE/134/document.pdf"]) as ->.
  { apply (f_equal fst) in Hfirst. simpl in Hfirst. rewrite <- Hfirst. vm_compute. reflexivity. }
  split; [reflexivity|].
  apply (extract_package_files_twice (Sample.env ∅) "STATUTE" "134" Sample.archive_path
           (Sample.extract "pdf,xml") {[ "package" := "2020-12-31" ]} Sample.unmarked_world
           ["data/govinfo/STATUTE/134/document.pdf"] lastmod_cache' w' eq_refl Hfirst).
Defined.

(** ** Filters that are blank *)

Lemma lstrip_blank (s : string) : OsPath.all_chars Py.isspace s = true → Py.lstrip s = EmptyString.
Proof.
  induction s as [|c s IH]; simpl; [done|].
  intros [Hc Hs]%andb_true_iff. rewrite Hc. by apply IH.
Qed.

Lemma strip_blank (s : string) : OsPath.all_chars Py.isspace s = true → Py.strip s = EmptyString.
Proof. intros H. unfold Py.strip. by rewrite lstrip_blank. Qed.

(** X2: Without filters nothing is pruned: when [--years] and [--congress] are
    missing, empty or made of blanks only, no URL at all is skipped. *)
Theorem should_skip_sitemap_blank_filters (url : string) (options : Options) :
  OsPath.all_chars Py.isspace (get_str (opt_years options)) = true →
  OsPath.all_chars Py.isspace (get_str (opt_congress options)) = true →
  should_skip_sitemap url options = false.
Proof.
  intros Hyears Hcongress. unfold should_skip_sitemap.
  rewrite (strip_blank _ Hyears), (strip_blank _ Hcongress). simpl.
  repeat case_match; done.
Qed.

Lemma should_skip_sitemap_blank_filters_witness :
  should_skip_sitemap "https://www.govinfo.gov/sitemap/STATUTE_2019_sitemap.xml"
    (mkOptions None None (Some "  ") None None None false false None None None)
  = false.
Proof. apply should_skip_sitemap_blank_filters; reflexivity. Defined.

(** ** The walker when the transport or the parser fails *)

(** What [update_sitemap2] gets from the transport. *)
Lemma update_sitemap2_run env depth url current_lastmod how_we_got_here options cache_file
    store w :
  let download := should_download_sitemap (store_lastmod store) current_lastmod options in
  let request := merge options (Some download) (Some true) None None in
  let answer := env_download env url cache_file request (fs w) in
  let w1 := mkWorld answer.2 (log w ++ [EvDownload url cache_file request]) in
  update_sitemap2 env depth url current_lastmod how_we_got_here options cache_file (store, w)
  = if negb (body_ok answer.1) then (Ret [], (store, w1))
    else
      let store1 :=
        if download && Py.truthy (get_str current_lastmod)
        then set_lastmod (get_str current_lastmod) store else store in
      match env_parse_sitemap env (get_str answer.1) with
      | None => (Raise (Exception ("XML syntax error in " +:+ url)), (store1, w1))
      | Some (SitemapIndex nodes) =>
          match depth with
          | O => (Raise RecursionError, (store1, w1))
          | S depth' =>
              on_snd (index_loop (update_sitemap_with env (update_sitemap2 env depth'))
                        how_we_got_here options nodes []) (store1, w1)
          end
      | Some (UrlSet nodes) =>
          ('(package_tasks, bulkdata_tasks) ←
             on_fst (collect_tasks env how_we_got_here options nodes [] []);
           lastmod_cache ← on_fst get_state;
           bulkdata_results ←
             on_snd (starmap (env_processes env) (bulkdata_worker env options)
                       bulkdata_tasks);
           package_results ←
             on_snd (starmap (env_processes env)
                       (package_worker env (default ∅ (store_packages lastmod_cache))
                          options) package_tasks);
           mret (bulkdata_results ++ package_results)) (store1, w1)
      | Some OtherDocument => (Ret [], (store1, w1))
      end.
Proof.
  intros download request answer w1. subst download request answer w1.
  destruct depth; cbn [update_sitemap2]; rewrite run_bind;
    change (on_fst get_state (store, w)) with (Ret store, (store, w));
    cbv beta iota; rewrite run_bind; unfold on_snd at 1, utils_download;
    destruct (env_download env _ _ _ _) as [body files']; cbv beta iota; cbn [fst snd];
    (destruct (negb (body_ok body)); [reflexivity|]);
    rewrite run_bind;
    (destruct (should_download_sitemap _ _ _ && Py.truthy _); cbn;
     destruct (env_parse_sitemap env (get_str body)) as [[nodes|nodes|]|]; reflexivity).
Qed.

(** X3: A transport that delivers nothing is no error: the walker answers the
    empty list, has made this one call and nothing else, and leaves the store
    as it was read, so the same decision is taken on the next run. *)
Theorem update_sitemap2_transport_failure
    env (depth : nat) (url : string) (current_lastmod : option string)
    (how_we_got_here : list string) (options : Options) (cache_file : string)
    (store : Store) (w : World) :
  let request :=
    merge options
      (Some (should_download_sitemap (store_lastmod store) current_lastmod options))
      (Some true) None None in
  body_ok (env_download env url cache_file request (fs w)).1 = false →
  update_sitemap2 env depth url current_lastmod how_we_got_here options cache_file (store, w)
  = (Ret [],
     (store,
      mkWorld (env_download env url cache_file request (fs w)).2
        (log w ++ [EvDownload url cache_file request]))).
Proof.
  intros request Hbody. rewrite update_sitemap2_run. cbv zeta. fold request.
  by rewrite Hbody.
Qed.

Lemma update_sitemap2_transport_failure_witness :
  update_sitemap2 (Sample.env ∅) 5 "https://www.govinfo.gov/sitemap/STATUTE_2020_sitemap.xml"
    (Some "2021-01-01") [] no_options "govinfo/sitemap/STATUTE/2020/sitemap.xml"
    (mkStore (Some "2020-06-01") None, Sample.empty_world)
  = (Ret [],
     (mkStore (Some "2020-06-01") None,
      mkWorld ∅
        [EvDownload "https://www.govinfo.gov/sitemap/STATUTE_2020_sitemap.xml"
           "govinfo/sitemap/STATUTE/2020/sitemap.xml"
           (merge no_options (Some true) (Some true) None None)])).
Proof.
  etrans.
  - apply (update_sitemap2_transport_failure (Sample.env ∅) 5
             "https://www.govinfo.gov/sitemap/STATUTE_2020_sitemap.xml" (Some "2021-01-01") []
             no_options "govinfo/sitemap/STATUTE/2020/sitemap.xml"
             (mkStore (Some "2020-06-01") None) Sample.empty_world).
    reflexivity.
  - vm_compute. reflexivity.
Defined.

Lemma on_snd_fst {S1 S2 A} (m : M S2 A) (s1 : S1) (s2 : S2) : ((on_snd m (s1, s2)).2).1 = s1.
Proof. unfold on_snd. by destruct (m s2). Qed.

(** The stored lastmod after [update_sitemap2], exactly. *)
Lemma update_sitemap2_lastmod_exact env depth url current_lastmod how_we_got_here options
    cache_file store w :
  let download := should_download_sitemap (store_lastmod store) current_lastmod options in
  let request := merge options (Some download) (Some true) None None in
  store_lastmod
    (update_sitemap2 env depth url current_lastmod how_we_got_here options cache_file
       (store, w)).2.1
  = if body_ok (env_download env url cache_file request (fs w)).1
       && download && Py.truthy (get_str current_lastmod)
    then Some (get_str current_lastmod) else store_lastmod store.
Proof.
  intros download request. rewrite update_sitemap2_run. cbv zeta.
  fold download. fold request.
  destruct (body_ok (env_download env url cache_file request (fs w)).1); [|done].
  cbn [negb andb].
  set (store1 := if download && Py.truthy (get_str current_lastmod)
                 then set_lastmod (get_str current_lastmod) store else store).
  assert (store_lastmod store1
          = if download && Py.truthy (get_str current_lastmod)
            then Some (get_str current_lastmod) else store_lastmod store) as <-.
  { subst store1. by destruct (download && _). }
  destruct (env_parse_sitemap env _) as [[nodes|nodes|]|]; try done.
  - destruct depth; [done|]. by rewrite on_snd_fst.
  - unfold_monad.
    destruct (collect_tasks env how_we_got_here options nodes [] [] store1)
      as [[[package_tasks bulkdata_tasks]|e] store2] eqn:Htasks;
      apply collect_tasks_lastmod in Htasks; [|done].
    repeat (case_match; simplify_eq/=); done.
Qed.

(** X4: The lastmod of the parent is recorded as soon as the body has arrived,
    before it is parsed.  So once the transport has delivered a body for a
    sitemap with a non-empty parent lastmod, the next run with the same lastmod
    and without [force] does not download it again, whatever the outcome was:
    a result, or the exception of a body that does not parse. *)
Theorem update_sitemap2_then_no_download
    env (depth : nat) (url : string) (lastmod : string)
    (how_we_got_here : list string) (options : Options) (cache_file : string)
    (store : Store) (w : World) :
  let request :=
    merge options
      (Some (should_download_sitemap (store_lastmod store) (Some lastmod) options))
      (Some true) None None in
  lastmod ≠ EmptyString →
  opt_force options = false →
  body_ok (env_download env url cache_file request (fs w)).1 = true →
  should_download_sitemap
    (store_lastmod
       (update_sitemap2 env depth url (Some lastmod) how_we_got_here options cache_file
          (store, w)).2.1)
    (Some lastmod) options
  = false
  ∧ (env_parse_sitemap env (get_str (env_download env url cache_file request (fs w)).1) = None →
     ∃ message,
       (update_sitemap2 env depth url (Some lastmod) how_we_got_here options cache_file
          (store, w)).1
       = Raise (Exception message)).
Proof.
  intros request Hne Hforce Hbody. split.
  - rewrite update_sitemap2_lastmod_exact. cbv zeta. fold request. rewrite Hbody.
    change (get_str (Some lastmod)) with lastmod. cbn [andb].
    assert (Py.truthy lastmod = true) as -> by (by destruct lastmod).
    rewrite andb_true_r.
    destruct (should_download_sitemap (store_lastmod store) (Some lastmod) options) eqn:Hd.
    + unfold should_download_sitemap. destruct lastmod; [done|].
      rewrite Hforce. destruct (opt_cached options); [done|].
      by rewrite bool_decide_eq_true_2.
    + done.
  - intros Hparse. rewrite update_sitemap2_run. cbv zeta. fold request.
    rewrite Hbody, Hparse. eexists. reflexivity.
Qed.

Lemma update_sitemap2_then_no_download_witness :
  let env := Sample.env {[ "https://www.govinfo.gov/sitemap/STATUTE_2020_sitemap.xml" := "?" ]} in
  let after :=
    update_sitemap2 env 5 "https://www.govinfo.gov/sitemap/STATUTE_2020_sitemap.xml"
      (Some "2021-01-01") [] no_options "govinfo/sitemap/STATUTE/2020/sitemap.xml"
      (empty_store, Sample.empty_world) in
  should_download_sitemap (store_lastmod after.2.1) (Some "2021-01-01") no_options = false
  ∧ ∃ message, after.1 = Raise (Exception message).
Proof.
  intros env after.
  destruct (update_sitemap2_then_no_download env 5
              "https://www.govinfo.gov/sitemap/STATUTE_2020_sitemap.xml" "2021-01-01" []
              no_options "govinfo/sitemap/STATUTE/2020/sitemap.xml" empty_store
              Sample.empty_world) as [Hnext Hraise]; [discriminate|reflexivity|reflexivity|].
  split; [exact Hnext|]. apply Hraise. reflexivity.
Defined.

(** ** A name filter that matches nothing *)

Lemma collect_tasks_filtered env how_we_got_here options nodes :
  Py.truthy (get_str (opt_filter options)) = true →
  (∀ name, env_re_search env (get_str (opt_filter options)) name = false) →
  ∀ package_tasks bulkdata_tasks store,
    collect_tasks env how_we_got_here options nodes package_tasks bulkdata_tasks store
    = (Ret (package_tasks, bulkdata_tasks), store)
    ∨ ∃ msg,
        collect_tasks env how_we_got_here options nodes package_tasks bulkdata_tasks store
        = (Raise (Exception msg), store).
Proof.
  intros Hfilter Hnever.
  assert (∀ name, filtered_out env options name = true) as Hout.
  { intros name. unfold filtered_out. by rewrite Hfilter, Hnever. }
  induction nodes as [|[url lastmod] nodes IH]; intros package_tasks bulkdata_tasks store;
    simpl.
  - by left.
  - destruct (Re.rmatch re_collection_item url) as [m|].
    + rewrite Hout. apply IH.
    + destruct (Re.rmatch re_bulkdata_item url) as [m|].
      * rewrite Hout. apply IH.
      * right. eauto.
Qed.

(** X5: When the user's filter matches no name, a sitemap that lists items
    leads to no work below it: after its own download there is no further
    transport call and no archive is opened, the disk is as the transport left
    it, the store gets no package entry, and the answer is the empty list (or
    the exception for an item URL of no known shape). *)
Theorem update_sitemap2_filter_matches_nothing
    env (depth : nat) (url : string) (current_lastmod : option string)
    (how_we_got_here : list string) (options : Options) (cache_file : string)
    (store : Store) (w : World) (nodes : list (string * string)) :
  let request :=
    merge options
      (Some (should_download_sitemap (store_lastmod store) current_lastmod options))
      (Some true) None None in
  let answer := env_download env url cache_file request (fs w) in
  let after :=
    update_sitemap2 env depth url current_lastmod how_we_got_here options cache_file
      (store, w) in
  body_ok answer.1 = true →
  env_parse_sitemap env (get_str answer.1) = Some (UrlSet nodes) →
  Py.truthy (get_str (opt_filter options)) = true →
  (∀ name, env_re_search env (get_str (opt_filter options)) name = false) →
  after.2.2 = mkWorld answer.2 (log w ++ [EvDownload url cache_file request])
  ∧ store_packages after.2.1 = store_packages store
  ∧ (after.1 = Ret [] ∨ ∃ msg, after.1 = Raise (Exception msg)).
Proof.
  intros request answer after Hbody Hparse Hfilter Hnever. subst after.
  rewrite update_sitemap2_run. cbv zeta. fold request. fold answer.
  rewrite Hbody, Hparse. cbn [negb]. unfold_monad.
  set (store1 := if _ && _ then _ else store).
  assert (store_packages store1 = store_packages store) as Hpackages.
  { subst store1. by destruct (_ && _). }
  destruct (collect_tasks_filtered env how_we_got_here options nodes Hfilter Hnever [] []
              store1) as [Htasks|[msg Htasks]]; rewrite Htasks; simpl; eauto.
Qed.

Lemma update_sitemap2_filter_matches_nothing_witness :
  let env :=
    mkEnvironment (Sample.download Sample.remote) "cache" "data" Sample.output_for_bill
      Sample.zip_decode (λ pattern subject, false) (λ html, html) Sample.metadata
      Sample.parse_sitemap Sample.yaml_load Sample.yaml_dump 2 in
  let options := mkOptions None None None None None (Some "^$") false false None None None in
  let after :=
    update_sitemap2 env 5 "https://www.govinfo.gov/sitemap/STATUTE_2020_sitemap.xml"
      (Some "2021-01-01") [] options "govinfo/sitemap/STATUTE/2020/sitemap.xml"
      (empty_store, Sample.empty_world) in
  List.length (log after.2.2) = 1 ∧ store_packages after.2.1 = None ∧ after.1 = Ret [].
Proof.
  intros env options after.
  destruct (update_sitemap2_filter_matches_nothing env 5
              "https://www.govinfo.gov/sitemap/STATUTE_2020_sitemap.xml" (Some "2021-01-01")
              [] options "govinfo/sitemap/STATUTE/2020/sitemap.xml" empty_store
              Sample.empty_world
              [("https://www.govinfo.gov/app/details/STATUTE-134", "2020-12-31")])
    as (Hworld & Hpackages & _); [reflexivity..|].
  fold after in Hworld, Hpackages. rewrite Hworld.
  split; [reflexivity|]. split; [exact Hpackages|]. vm_compute. reflexivity.
Defined.

(** ** A run with nothing to do *)

Lemma elem_of_insert_sorted (x y : string) (l : list string) :
  y ∈ Py.insert_sorted x l → y = x ∨ y ∈ l.
Proof.
  induction l as [|z l IH]; simpl.
  - intros ?%list_elem_of_singleton. by left.
  - destruct (String.leb x z).
    + intros [->|?]%elem_of_cons; auto.
    + intros [->|H]%elem_of_cons; [right; by left|].
      destruct (IH H); [by left|right; by right].
Qed.

Lemma elem_of_sorted (y : string) (l : list string) : y ∈ Py.sorted l → y ∈ l.
Proof.
  induction l as [|x l IH]; simpl; [done|].
  intros [->|?]%elem_of_insert_sorted; [by left|right; auto].
Qed.

Lemma for_each_nothing {S A} (l : list A) (body : A → M S unit) (s : S) :
  (∀ x, x ∈ l → body x s = (Ret tt, s)) → for_each l body s = (Ret tt, s).
Proof.
  induction l as [|x l IH]; intros H; simpl; [done|].
  unfold mbind, M_bind. rewrite (H x) by (by left). apply IH. intros y Hy. apply H. by right.
Qed.

(** X6: A run that names no collection does nothing at all: when every piece
    of [--collections] and of [--bulkdata] between the commas is empty (the
    options are missing, empty, or only commas), [run] ends normally with the
    disk and the log untouched. *)
Theorem run_without_collections env (depth : nat) (options : Options) (w : World) :
  (∀ c, c ∈ Py.split "," (get_str (opt_collections options)) → c = EmptyString) →
  (∀ c, c ∈ Py.split "," (get_str (opt_bulkdata options)) → c = EmptyString) →
  run env depth options w = (Ret tt, w).
Proof.
  intros Hcollections Hbulkdata. unfold run. unfold mbind, M_bind.
  rewrite for_each_nothing.
  - apply for_each_nothing. intros c Hc%elem_of_sorted. by rewrite (Hbulkdata c Hc).
  - intros c Hc%elem_of_sorted. by rewrite (Hcollections c Hc).
Qed.

Lemma run_without_collections_witness :
  run (Sample.env Sample.remote) 5
    (mkOptions (Some ",,") None None None (Some "pdf") None false true None None None)
    Sample.empty_world
  = (Ret tt, Sample.empty_world).
Proof.
  apply run_without_collections.
  - change (Py.split "," (get_str (Some ",,"))) with [EmptyString; EmptyString; EmptyString].
    intros c Hc. repeat (apply elem_of_cons in Hc as [->|Hc]; [done|]).
    by apply elem_of_nil in Hc.
  - change (Py.split "," (get_str None)) with [EmptyString].
    intros c Hc. repeat (apply elem_of_cons in Hc as [->|Hc]; [done|]).
    by apply elem_of_nil in Hc.
Defined.

(** ** The container mirror, run after run *)

Lemma mirror_package_zipfile_run env collection package_name file_path lastmod options
    lastmod_cache w :
  mirror_package_zipfile env collection package_name file_path lastmod options
    (lastmod_cache, w)
  = if bool_decide (lastmod_cache !! "package" = Some lastmod) && negb (opt_force options)
    then (Ret false, (lastmod_cache, w))
    else if path_exists file_path w && opt_cached options
    then (Ret false, (lastmod_cache, w))
    else (Ret true,
          (<["package" := lastmod]> lastmod_cache,
           mkWorld
             (env_download env (package_url collection package_name) file_path
                (package_request options) (fs w)).2
             (log w ++ [EvDownload (package_url collection package_name) file_path
                          (package_request options)]))).
Proof.
  unfold mirror_package_zipfile, package_url, package_request. unfold_monad.
  destruct (_ && negb _); [done|]. cbv beta iota.
  destruct (path_exists file_path w && opt_cached options); [done|].
  unfold utils_download. by destruct (env_download env _ _ _ _).
Qed.

Lemma mirror_package_in_run env collection package_name lastmod path options lastmod_cache w :
  mirror_package_in env collection package_name lastmod path options (lastmod_cache, w)
  = let file_path := package_file_path path in
    let record := checked_record path lastmod_cache w in
    if marker_current path lastmod options w then (Ret RTrue, (record, w))
    else
      match mirror_package_zipfile env collection package_name file_path lastmod options
              (record, w) with
      | (Raise e, s1) => (Raise e, s1)
      | (Ret downloaded, s1) =>
          match extract_package_files env collection package_name file_path options s1 with
          | (Ret extracted_files, (record2, w2)) =>
              (Ret (RList ((if downloaded : bool then [file_path] else []) ++ extracted_files)),
               (record2,
                if Py.truthy lastmod
                then set_fs <[package_marker_path path := lastmod]> w2 else w2))
          | (Raise e, (record2, w2)) =>
              if is_BadZipfile e then
                match os_unlink file_path w2 with
                | (Ret _, w3) => (Ret (RList []), (record2, w3))
                | (Raise e', w3) => (Raise e', (record2, w3))
                end
              else (Raise e, (record2, w2))
          end
      end.
Proof.
  unfold mirror_package_in, checked_record, marker_current. unfold_monad. cbv zeta.
  destruct (bool_decide (lastmod_cache ≠ ∅) && negb (path_exists (package_file_path path) w));
    cbv beta iota;
    (destruct (path_exists (package_marker_path path) w && negb (opt_force options));
     cbv beta iota; cbn [andb];
     [destruct (bool_decide (Some lastmod = fs w !! package_marker_path path)); [done|]|];
     cbv beta iota;
     (destruct (mirror_package_zipfile env _ _ _ _ _ _) as [[downloaded|e] s1]; [|done]);
     (destruct (extract_package_files env _ _ _ _ _) as [[extracted|e] [record2 w2]];
      cbv beta iota;
      [destruct (Py.truthy lastmod); reflexivity|];
      (destruct (is_BadZipfile e); [|done]);
      destruct (os_unlink (package_file_path path) w2) as [[[]|e'] w3]; reflexivity)).
Qed.


Lemma marker_current_true path lastmod options w :
  fs w !! package_marker_path path = Some lastmod → opt_force options = false →
  marker_current path lastmod options w = true.
Proof.
  intros Hmarker Hforce. unfold marker_current, path_exists. rewrite Hmarker, Hforce.
  rewrite !bool_decide_eq_true_2; eauto.
Qed.

Lemma mirror_package_in_converges
    env (collection package_name lastmod path : string) (options : Options)
    (lastmod_cache : gmap string string) (w : World)
    (files : list string) (lastmod_cache' : gmap string string) (w' : World) :
  Py.truthy lastmod = true →
  mirror_package_in env collection package_name lastmod path options (lastmod_cache, w)
  = (Ret (RList files), (lastmod_cache', w')) →
  is_Some (fs w' !! package_file_path path) →
  fs w' !! package_marker_path path = Some lastmod
  ∧ ∀ options' record,
      opt_force options' = false →
      mirror_package_in env collection package_name lastmod path options' (record, w')
      = (Ret RTrue, (record, w')).
Proof.
  intros Hlastmod Hrun Harchive.
  assert (fs w' !! package_marker_path path = Some lastmod) as Hmarker.
  { rewrite mirror_package_in_run in Hrun. cbv zeta in Hrun. rewrite Hlastmod in Hrun.
    destruct (marker_current path lastmod options w); [discriminate|].
    destruct (mirror_package_zipfile env _ _ _ _ _ _) as [[downloaded|e] s1]; [|discriminate].
    destruct (extract_package_files env _ _ _ _ _) as [[extracted|e] [record2 w2]].
    - simplify_eq. simpl. apply lookup_insert_eq.
    - destruct (is_BadZipfile e); [|discriminate]. unfold os_unlink in Hrun.
      destruct (path_exists (package_file_path path) w2); [|discriminate].
      simplify_eq. simpl in Harchive. rewrite lookup_delete_eq in Harchive.
      by destruct Harchive. }
  split; [done|]. intros options' record Hforce.
  rewrite mirror_package_in_run. cbv zeta.
  rewrite (marker_current_true _ _ _ _ Hmarker Hforce).
  unfold checked_record, path_exists. rewrite (bool_decide_eq_true_2 _ Harchive).
  by rewrite andb_false_r.
Qed.

Lemma checked_record_missing path lastmod_cache w :
  fs w !! package_file_path path = None → checked_record path lastmod_cache w = ∅.
Proof.
  intros Hfile. unfold checked_record, path_exists. rewrite Hfile.
  rewrite (bool_decide_eq_false_2 (is_Some None)) by (by intros [? ?]).
  cbn [negb]. rewrite andb_true_r. case_bool_decide; [done|].
  destruct (decide (lastmod_cache = ∅)); [done|]. by exfalso.
Qed.

Lemma mirror_package_in_missing_archive
    env (collection package_name lastmod path : string) (options : Options)
    (lastmod_cache : gmap string string) (w : World) :
  fs w !! package_file_path path = None →
  marker_current path lastmod options w = false →
  ∃ r s' events,
    mirror_package_in env collection package_name lastmod path options (lastmod_cache, w)
    = (r, s')
    ∧ log s'.2
      = log w ++ EvDownload (package_url collection package_name) (package_file_path path)
                   (package_request options) :: events
    ∧ opt_force (package_request options) = true.
Proof.
  intros Hfile Hmarker.
  destruct (mirror_package_in env collection package_name lastmod path options
              (lastmod_cache, w)) as [r s'] eqn:Hrun.
  rewrite mirror_package_in_run in Hrun. cbv zeta in Hrun. rewrite Hmarker in Hrun.
  rewrite (checked_record_missing _ _ _ Hfile), mirror_package_zipfile_run in Hrun.
  rewrite lookup_empty in Hrun. rewrite bool_decide_eq_false_2 in Hrun by done.
  unfold path_exists at 1 in Hrun. rewrite Hfile in Hrun.
  rewrite (bool_decide_eq_false_2 (is_Some None)) in Hrun by (by intros [? ?]).
  cbn [andb] in Hrun.
  match type of Hrun with
  | context [extract_package_files ?a ?b ?c ?d ?e ?s] =>
      destruct (extract_package_files a b c d e s) as [r2 [record2 w2]] eqn:Hextract;
      destruct (logs_extract_package_files _ _ _ _ _ _ _ _ Hextract) as (events & Hlog & _)
  end.
  change (log w2 = (log w ++ [EvDownload (package_url collection package_name)
                                (package_file_path path) (package_request options)])
                   ++ events) in Hlog.
  rewrite <- app_assoc in Hlog. simpl in Hlog.
  exists r, s'. destruct r2 as [extracted|e].
  - exists events. simplify_eq. split; [done|]. split; [|done].
    destruct (Py.truthy lastmod); done.
  - destruct (is_BadZipfile e).
    + unfold os_unlink in Hrun. exists events.
      destruct (path_exists (package_file_path path) w2); simplify_eq; done.
    + exists events. by simplify_eq.
Qed.




Lemma mirror_package_in_cached_without_record
    env (collection package_name lastmod path : string) (options : Options)
    (lastmod_cache : gmap string string) (w : World) (bytes : string) :
  opt_cached options = true →
  fs w !! package_file_path path = Some bytes →
  is_Some (env_zip_decode env bytes) →
  lastmod_cache !! "package" = None →
  marker_current path lastmod options w = false →
  requested_formats options ≠ [] →
  (∀ format, format ∈ requested_formats options →
             is_Some (format_paths collection package_name format)) →
  (mirror_package_in env collection package_name lastmod path options (lastmod_cache, w)).1
  = Raise (KeyError "package").
Proof.
  intros Hcached Hfile [package Hzip] Hpk Hmarker Hne Hknown.
  rewrite mirror_package_in_run. cbv zeta. rewrite Hmarker.
  assert (checked_record path lastmod_cache w = lastmod_cache) as ->.
  { unfold checked_record, path_exists. rewrite Hfile.
    rewrite (bool_decide_eq_true_2 (is_Some (Some bytes))) by eauto.
    by rewrite andb_false_r. }
  rewrite mirror_package_zipfile_run. rewrite Hpk.
  rewrite bool_decide_eq_false_2 by done. cbn [andb].
  unfold path_exists at 1. rewrite Hfile, Hcached.
  rewrite (bool_decide_eq_true_2 (is_Some (Some bytes))) by eauto. cbn [andb].
  destruct (stale_formats_no_package lastmod_cache (requested_formats options) Hpk)
    as [Hraise Hret].
  unfold extract_package_files. unfold_monad. unfold path_exists. rewrite Hfile.
  rewrite (bool_decide_eq_true_2 (is_Some (Some bytes))) by eauto. cbn [negb]. cbv beta iota.
  destruct (decide (Exists (λ format, is_Some (lastmod_cache !! format))
                      (requested_formats options))) as [Hsome|Hnone].
  { by rewrite (Hraise Hsome). }
  rewrite Hret.
  2: { apply Forall_forall. intros format Hin. apply eq_None_not_Some. intros Hts.
       apply Hnone, Exists_exists. eauto. }
  destruct (requested_formats options) as [|format formats]; [done|].
  unfold zip_open. rewrite Hfile, Hzip. simpl. unfold mbind, M_bind.
  pose proof (extract_one_no_package env collection package_name (package_file_path path)
                package format lastmod_cache
                (emit (EvZipOpen (package_file_path path)) w)) as Hone.
  destruct (extract_one env collection package_name (package_file_path path) package format
              (lastmod_cache, emit (EvZipOpen (package_file_path path)) w))
    as [r [record1 w1]].
  simpl in Hone. rewrite Hone; [done| |done]. apply Hknown. by left.
Qed.

(** [mirror_package] once the output path is known. *)
Lemma mirror_package_run env collection package_name lastmod options packages w path :
  get_output_path env collection package_name options = Ret (Some path) →
  Py.truthy path = true →
  mirror_package env collection package_name lastmod options (packages, w)
  = let '(r, (record, w')) :=
      mirror_package_in env collection package_name lastmod path options
        (default ∅ (packages !! package_name), w) in
    (r, (<[package_name := record]> packages, w')).
Proof.
  intros Hpath Htruthy. unfold mirror_package. rewrite Hpath.
  change (get_str (Some path)) with path. by rewrite Htruthy.
Qed.

(** X7: Convergence of the container mirror.  Let [get_output_path] store the
    package under [path] for the options of a run.  When that run answers a
    list for a lastmod that is not empty and the archive is on disk
    afterwards, the marker beside it holds the lastmod; a later run with this
    lastmod, without [force], and with options for which [get_output_path]
    gives the same [path], then answers [True] and leaves the disk and the
    log as they are: no transport call, no archive opened. *)
Theorem mirror_package_converges
    env (collection package_name lastmod path : string) (options : Options)
    (packages : gmap string (gmap string string)) (w : World)
    (files : list string) (packages' : gmap string (gmap string string)) (w' : World) :
  get_output_path env collection package_name options = Ret (Some path) →
  Py.truthy path = true →
  Py.truthy lastmod = true →
  mirror_package env collection package_name lastmod options (packages, w)
  = (Ret (RList files), (packages', w')) →
  is_Some (fs w' !! package_file_path path) →
  fs w' !! package_marker_path path = Some lastmod
  ∧ ∀ options' packages2,
      opt_force options' = false →
      get_output_path env collection package_name options' = Ret (Some path) →
      mirror_package env collection package_name lastmod options' (packages2, w')
      = (Ret RTrue,
         (<[package_name := default ∅ (packages2 !! package_name)]> packages2, w')).
Proof.
  intros Hpath Htruthy Hlastmod Hrun Harchive.
  rewrite (mirror_package_run _ _ _ _ _ _ _ _ Hpath Htruthy) in Hrun.
  destruct (mirror_package_in env collection package_name lastmod path options
              (default ∅ (packages !! package_name), w)) as [r [record w1]] eqn:Hin.
  simplify_eq.
  destruct (mirror_package_in_converges _ _ _ _ _ _ _ _ _ _ _ Hlastmod Hin Harchive)
    as [Hmarker Hnext].
  split; [done|]. intros options' packages2 Hforce Hpath'.
  rewrite (mirror_package_run _ _ _ _ _ _ _ _ Hpath' Htruthy).
  by rewrite (Hnext options' _ Hforce).
Qed.


(** X8: A missing archive is always fetched: when the archive file is not on
    disk and the marker does not let the mirror skip, the transport is called
    for the archive with [force] set, whatever the record says about the
    package and also under [cached]; this call is the first thing that happens. *)
Theorem mirror_package_missing_archive
    env (collection package_name lastmod path : string) (options : Options)
    (packages : gmap string (gmap string string)) (w : World) :
  get_output_path env collection package_name options = Ret (Some path) →
  Py.truthy path = true →
  fs w !! package_file_path path = None →
  marker_current path lastmod options w = false →
  ∃ r s' events,
    mirror_package env collection package_name lastmod options (packages, w) = (r, s')
    ∧ log s'.2
      = log w ++ EvDownload (package_url collection package_name) (package_file_path path)
                   (package_request options) :: events
    ∧ opt_force (package_request options) = true.
Proof.
  intros Hpath Htruthy Hfile Hmarker.
  rewrite (mirror_package_run _ _ _ _ _ _ _ _ Hpath Htruthy).
  destruct (mirror_package_in_missing_archive env collection package_name lastmod path options
              (default ∅ (packages !! package_name)) w Hfile Hmarker)
    as (r & [record w'] & events & Hrun & Hlog & Hforce).
  rewrite Hrun. cbv beta iota. eexists _, _, events. split; [reflexivity|].
  split; [exact Hlog|exact Hforce].
Qed.




(** X10: Under [cached], with the archive on disk, a record that has no package
    timestamp and a marker that does not let the mirror skip, asking for a
    format ends in [KeyError] on the package timestamp: the archive is not
    fetched, so nothing records a package timestamp before the extractor needs
    it. *)
Theorem mirror_package_cached_without_record
    env (collection package_name lastmod path : string) (options : Options)
    (packages : gmap string (gmap string string)) (w : World) (bytes : string) :
  get_output_path env collection package_name options = Ret (Some path) →
  Py.truthy path = true →
  opt_cached options = true →
  fs w !! package_file_path path = Some bytes →
  is_Some (env_zip_decode env bytes) →
  default ∅ (packages !! package_name) !! "package" = None →
  marker_current path lastmod options w = false →
  requested_formats options ≠ [] →
  (∀ format, format ∈ requested_formats options →
             is_Some (format_paths collection package_name format)) →
  (mirror_package env collection package_name lastmod options (packages, w)).1
  = Raise (KeyError "package").
Proof.
  intros Hpath Htruthy Hcached Hfile Hzip Hpk Hmarker Hne Hknown.
  rewrite (mirror_package_run _ _ _ _ _ _ _ _ Hpath Htruthy).
  pose proof (mirror_package_in_cached_without_record env collection package_name lastmod path
                options _ w bytes Hcached Hfile Hzip Hpk Hmarker Hne Hknown) as Hrun.
  destruct (mirror_package_in env collection package_name lastmod path options _)
    as [r [record w']]. exact Hrun.
Qed.

Lemma mirror_package_converges_witness :
  ∃ packages' w',
    mirror_package (Sample.env Sample.remote) "STATUTE" "134" "2020-12-31"
      (Sample.extract "pdf") (∅, Sample.empty_world)
    = (Ret (RList [Sample.archive_path; "data/govinfo/STATUTE/134/document.pdf"]),
       (packages', w'))
    ∧ mirror_package (Sample.env Sample.remote) "STATUTE" "134" "2020-12-31"
        (Sample.extract "pdf,xml") (packages', w')
      = (Ret RTrue, (<["134" := default ∅ (packages' !! "134")]> packages', w')).
Proof.
  destruct (mirror_package (Sample.env Sample.remote) "STATUTE" "134" "2020-12-31"
              (Sample.extract "pdf") (∅, Sample.empty_world))
    as [r [packages' w']] eqn:Hfirst.
  assert (r = Ret (RList [Sample.archive_path; "data/govinfo/STATUTE/134/document.pdf"]))
    as ->.
  { apply (f_equal fst) in Hfirst. simpl in Hfirst. rewrite <- Hfirst. vm_compute. reflexivity. }
  assert (is_Some (fs w' !! package_file_path "data/govinfo/STATUTE/134")) as Harchive.
  { apply (f_equal (λ x, fs x.2.2)) in Hfirst. simpl in Hfirst. rewrite <- Hfirst.
    apply (bool_decide_eq_true_1 (is_Some _)). vm_compute. reflexivity. }
  assert (get_output_path (Sample.env Sample.remote) "STATUTE" "134" (Sample.extract "pdf")
          = Ret (Some "data/govinfo/STATUTE/134")) as Hpath by (vm_compute; reflexivity).
  assert (get_output_path (Sample.env Sample.remote) "STATUTE" "134" (Sample.extract "pdf,xml")
          = Ret (Some "data/govinfo/STATUTE/134")) as Hpath' by (vm_compute; reflexivity).
  assert (Py.truthy "data/govinfo/STATUTE/134" = true) as Htruthy by reflexivity.
  assert (Py.truthy "2020-12-31" = true) as Hlastmod by reflexivity.
  assert (opt_force (Sample.extract "pdf,xml") = false) as Hforce by reflexivity.
  exists packages', w'. split; [reflexivity|].
  exact (proj2 (mirror_package_converges (Sample.env Sample.remote) "STATUTE" "134"
                  "2020-12-31" "data/govinfo/STATUTE/134" (Sample.extract "pdf") ∅
                  Sample.empty_world _ packages' w' Hpath Htruthy Hlastmod Hfirst Harchive)
           (Sample.extract "pdf,xml") packages' Hforce Hpath').
Defined.

Lemma mirror_package_missing_archive_witness :
  ∃ r s' events,
    mirror_package (Sample.env Sample.remote) "STATUTE" "134" "2020-12-31"
      (mkOptions None None None None None None true false None None None)
      ({[ "134" := {[ "package" := "2020-12-31" ]} ]}, Sample.empty_world)
    = (r, s')
    ∧ log s'.2
      = EvDownload "https://www.govinfo.gov/content/pkg/STATUTE-134.zip" Sample.archive_path
          (package_request (mkOptions None None None None None None true false None None None))
        :: events.
Proof.
  destruct (mirror_package_missing_archive (Sample.env Sample.remote) "STATUTE" "134"
              "2020-12-31" "data/govinfo/STATUTE/134"
              (mkOptions None None None None None None true false None None None)
              {[ "134" := {[ "package" := "2020-12-31" ]} ]} Sample.empty_world
              eq_refl eq_refl eq_refl eq_refl)
    as (r & s' & events & Hrun & Hlog & _).
  exists r, s', events. split; [exact Hrun|exact Hlog].
Defined.


Lemma mirror_package_cached_without_record_witness :
  (mirror_package (Sample.env Sample.remote) "STATUTE" "134" "2020-12-31"
     (mkOptions None None None None (Some "pdf") None true false None None None)
     (∅, Sample.unmarked_world)).1
  = Raise (KeyError "package").
Proof.
  assert (requested_formats
            (mkOptions None None None None (Some "pdf") None true false None None None)
          = ["pdf"]) as Hrequested by (vm_compute; reflexivity).
  apply (mirror_package_cached_without_record (Sample.env Sample.remote) "STATUTE" "134"
           "2020-12-31" "data/govinfo/STATUTE/134"
           (mkOptions None None None None (Some "pdf") None true false None None None)
           ∅ Sample.unmarked_world "ZIP|STATUTE-134/pdf/STATUTE-134.pdf|%PDF").
  - vm_compute. reflexivity.
  - reflexivity.
  - reflexivity.
  - vm_compute. reflexivity.
  - apply (bool_decide_eq_true_1 (is_Some _)). vm_compute. reflexivity.
  - vm_compute. reflexivity.
  - vm_compute. reflexivity.
  - rewrite Hrequested. discriminate.
  - rewrite Hrequested.
    intros format Hf. apply elem_of_cons in Hf as [->|Hf]; [vm_compute; eexists; reflexivity|].
    by apply elem_of_nil in Hf.
Defined.

(** ** Package names and sitemap URLs, through the patterns *)

Lemma backtrack_eq {R} (k : nat → option R) (lo n : nat) :
  Re.backtrack k lo n
  = if Nat.ltb n lo then None
    else match k n with
         | Some r => Some r
         | None => match n with O => None | S n' => Re.backtrack k lo n' end
         end.
Proof. destruct n; reflexivity. Qed.

(** Greedy repetition settles on the longest count that lets the rest of
    the pattern match. *)
Lemma backtrack_found {R} (k : nat → option R) (lo n extra : nat) (r : R) :
  (lo ≤ n)%nat → k n = Some r → (∀ j, (0 < j ≤ extra)%nat → k (n + j) = None) →
  Re.backtrack k lo (n + extra) = Some r.
Proof.
  intros Hlo Hk Hnone. induction extra as [|extra IH].
  - rewrite Nat.add_0_r, backtrack_eq, (proj2 (Nat.ltb_ge n lo)) by lia.
    rewrite Hk. reflexivity.
  - rewrite backtrack_eq, (proj2 (Nat.ltb_ge (n + S extra) lo)) by lia.
    rewrite Hnone by lia. rewrite Nat.add_succ_r. apply IH.
    intros j Hj. apply Hnone. lia.
Qed.

Lemma backtrack_longest {R} (k : nat → option R) (lo n : nat) (r : R) :
  (lo ≤ n)%nat → k n = Some r → Re.backtrack k lo n = Some r.
Proof.
  intros Hlo Hk. rewrite <- (Nat.add_0_r n).
  apply backtrack_found; [exact Hlo|exact Hk|]. intros j Hj. lia.
Qed.

Lemma length_app (s t : string) :
  String.length (s +:+ t) = String.length s + String.length t.
Proof. induction s as [|c s IH]; [reflexivity|]. rewrite append_cons. simpl. by rewrite IH. Qed.

Lemma drop_app (s t : string) (j : nat) :
  Py.drop (String.length s + j) (s +:+ t) = Py.drop j t.
Proof. induction s as [|c s IH]; [reflexivity|]. rewrite append_cons. simpl. exact IH. Qed.

Lemma take_app (s t : string) : Py.take (String.length s) (s +:+ t) = s.
Proof.
  induction s as [|c s IH]; [by destruct t|]. rewrite append_cons. simpl. by rewrite IH.
Qed.

Lemma span_app (p : ascii → bool) (s t : string) :
  OsPath.all_chars p s = true → Re.span p (s +:+ t) = String.length s + Re.span p t.
Proof.
  induction s as [|c s IH]; [reflexivity|]. rewrite append_cons. simpl.
  intros [Hc Hs]%andb_prop. rewrite Hc, IH by exact Hs. reflexivity.
Qed.

Lemma append_empty (s : string) : s +:+ EmptyString = s.
Proof. induction s as [|c s IH]; [reflexivity|]. rewrite append_cons. by rewrite IH. Qed.

Lemma append_assoc (a b c : string) : (a +:+ b) +:+ c = a +:+ b +:+ c.
Proof. induction a as [|x a IH]; [reflexivity|]. rewrite !append_cons. by rewrite IH. Qed.

Lemma truthy_length (s : string) : Py.truthy s = true → (1 ≤ String.length s)%nat.
Proof. destruct s; [discriminate|]. simpl. lia. Qed.

(** The text that a group takes when [rest] is left of [g +:+ rest]. *)
Lemma group_text (g rest : string) :
  Py.take (String.length (g +:+ rest) - String.length rest) (g +:+ rest) = g.
Proof.
  rewrite length_app. replace (String.length g + String.length rest - String.length rest)
    with (String.length g) by lia. apply take_app.
Qed.

(** A group of one repeated class takes [g] when the rest of the pattern
    matches what follows it and fails after any longer run of the class. *)
Lemma run_group_plus {R} (p : ascii → bool) (g rest : string) (gs : list string)
    (k : string → list string → option R) (r : R) :
  chars_of p g = true →
  k rest (gs ++ [g]) = Some r →
  (∀ j, (0 < j ≤ Re.span p rest)%nat →
        k (Py.drop j rest)
          (gs ++ [Py.take (String.length (g +:+ rest) - String.length (Py.drop j rest))
                    (g +:+ rest)]) = None) →
  Re.run (Re.Group (Re.Plus p)) (g +:+ rest) gs k = Some r.
Proof.
  intros [Hg Hall]%andb_prop Hk Hnone. cbn [Re.run].
  rewrite span_app by exact Hall.
  apply backtrack_found.
  - by apply truthy_length.
  - rewrite <- (Nat.add_0_r (String.length g)), drop_app. cbn [Py.drop].
    replace (Py.drop 0 rest) with rest by (by destruct rest).
    rewrite group_text. exact Hk.
  - intros j Hj. rewrite drop_app. apply Hnone, Hj.
Qed.

Lemma is_lower_not_digit (c : ascii) : Re.is_lower c = true → Re.is_digit c = false.
Proof.
  unfold Re.is_lower, Re.is_digit. cbv zeta.
  intros [H1 H2]%andb_prop. apply Nat.leb_le in H1.
  apply andb_false_iff. right. apply Nat.leb_gt. lia.
Qed.

Lemma is_digit_not_lower (c : ascii) : Re.is_digit c = true → Re.is_lower c = false.
Proof.
  intros H. destruct (Re.is_lower c) eqn:Hl; [|reflexivity].
  apply is_lower_not_digit in Hl. congruence.
Qed.

Lemma span_all (p : ascii → bool) (s : string) :
  OsPath.all_chars p s = true → Re.span p s = String.length s.
Proof.
  intros H. rewrite <- (append_empty s) at 1. rewrite span_app by exact H. simpl. lia.
Qed.

Lemma drop_all (s : string) : Py.drop (String.length s) s = EmptyString.
Proof. induction s as [|c s IH]; [reflexivity|]. exact IH. Qed.

Lemma take_all (s : string) : Py.take (String.length s) s = s.
Proof. induction s as [|c s IH]; [reflexivity|]. simpl. by rewrite IH. Qed.

Lemma span_first (p q : ascii → bool) (s t : string) :
  chars_of q s = true → (∀ c, q c = true → p c = false) → Re.span p (s +:+ t) = 0.
Proof.
  intros [Hs Hall]%andb_prop Hpq. destruct s as [|c s]; [discriminate|].
  rewrite append_cons. simpl in Hall |- *. apply andb_prop in Hall as [Hc _].
  by rewrite (Hpq c Hc).
Qed.

Lemma run_seq {R} (r1 r2 : Re.regex) (s : string) (gs : list string)
    (k : string → list string → option R) :
  Re.run (Re.Seq r1 r2) s gs k = Re.run r1 s gs (λ s' gs', Re.run r2 s' gs' k).
Proof. reflexivity. Qed.

(** The version group and the end of the subject. *)
Lemma run_version_code (version_code : string) (gs : list string) :
  is_version_code version_code = true →
  Re.run (Re.seq [Re.Group (Re.Alt (Re.Seq (Re.Set_ Re.is_lower) (Re.Star is_lower_or_digit))
                                   (Re.Lit EmptyString));
                  Re.End]) version_code gs (λ _ gs', Some gs')
  = Some (gs ++ [version_code]).
Proof.
  destruct version_code as [|c v]; [reflexivity|].
  intros [Hc Hv]%andb_prop.
  cbn [Re.seq foldr Re.run]. rewrite Hc.
  rewrite span_all by exact Hv.
  rewrite (backtrack_longest _ 0 (String.length v) (gs ++ [String c v])); [reflexivity|lia|].
  rewrite drop_all. cbn [String.length]. rewrite Nat.sub_0_r.
  change (Py.take (S (String.length v)) (String c v)) with (String c (Py.take (String.length v) v)).
  rewrite take_all. reflexivity.
Qed.

Lemma rmatch_bill_package (congress bill_type bill_number version_code : string) :
  chars_of Re.is_digit congress = true →
  chars_of Re.is_lower bill_type = true →
  chars_of Re.is_digit bill_number = true →
  is_version_code version_code = true →
  Re.rmatch re_bill_package (congress +:+ bill_type +:+ bill_number +:+ version_code)
  = Some [congress; bill_type; bill_number; version_code].
Proof.
  intros Hcongress Htype Hnumber Hversion.
  unfold Re.rmatch, re_bill_package.
  change (Re.seq (?a :: ?b :: ?c :: ?rest)) with (Re.Seq a (Re.Seq b (Re.Seq c (Re.seq rest)))).
  rewrite run_seq.
  apply run_group_plus; [exact Hcongress| |].
  2: { intros j Hj. rewrite (span_first _ Re.is_lower) in Hj; [lia|exact Htype|].
       apply is_lower_not_digit. }
  cbv beta. rewrite run_seq.
  apply run_group_plus; [exact Htype| |].
  2: { intros j Hj. rewrite (span_first _ Re.is_digit) in Hj; [lia|exact Hnumber|].
       apply is_digit_not_lower. }
  cbv beta. rewrite run_seq.
  apply run_group_plus; [exact Hnumber| |].
  2: { intros j Hj. exfalso. destruct version_code as [|c v]; [simpl in Hj; lia|].
       apply andb_prop in Hversion as [Hc _]. simpl in Hj.
       rewrite (is_lower_not_digit c Hc) in Hj. lia. }
  apply (run_version_code version_code [congress; bill_type; bill_number] Hversion).
Qed.

(** X11: A package name put together from a congress, a bill type, a bill number
    and a version code is taken apart into the same four pieces: without a
    congress restriction the answer names the bill as type, number, a dash
    and the congress, with the version code beside it or after another dash. *)
Theorem get_bill_id_for_package_round_trip
    (congress bill_type bill_number version_code : string) (with_version : bool) :
  chars_of Re.is_digit congress = true →
  chars_of Re.is_lower bill_type = true →
  chars_of Re.is_digit bill_number = true →
  is_version_code version_code = true →
  get_bill_id_for_package (congress +:+ bill_type +:+ bill_number +:+ version_code)
    with_version None
  = Ret (Some (if with_version
               then BillVersionId (bill_of congress bill_type bill_number +:+ "-"
                                   +:+ version_code)
               else BillAndVersion (bill_of congress bill_type bill_number) version_code)).
Proof.
  intros Hcongress Htype Hnumber Hversion. unfold get_bill_id_for_package.
  rewrite (rmatch_bill_package _ _ _ _ Hcongress Htype Hnumber Hversion).
  unfold bill_of. cbn [Re.group nth Nat.sub get_str default Py.truthy negb].
  destruct with_version; cbn [negb]; [|reflexivity].
  rewrite !append_assoc. reflexivity.
Qed.

Lemma get_bill_id_for_package_round_trip_witness :
  get_bill_id_for_package "116hr1625enr" true None = Ret (Some (BillVersionId "hr1625-116-enr"))
  ∧ get_bill_id_for_package "116hr1625enr" false None
    = Ret (Some (BillAndVersion "hr1625-116" "enr")).
Proof.
  split.
  - exact (get_bill_id_for_package_round_trip "116" "hr" "1625" "enr" true
             eq_refl eq_refl eq_refl eq_refl).
  - exact (get_bill_id_for_package_round_trip "116" "hr" "1625" "enr" false
             eq_refl eq_refl eq_refl eq_refl).
Defined.

(** X12: With a congress restriction that reads as another number than the
    congress of a BILLS package, the package is skipped: the mirror answers
    the empty list and neither the records nor the world change. *)
Theorem mirror_package_other_congress
    (env : Environment) (congress bill_type bill_number version_code lastmod : string)
    (options : Options) (restriction : string) (a b : Z)
    (s : gmap string (gmap string string) * World) :
  chars_of Re.is_digit congress = true →
  chars_of Re.is_lower bill_type = true →
  chars_of Re.is_digit bill_number = true →
  is_version_code version_code = true →
  opt_congress options = Some restriction →
  Py.truthy restriction = true →
  PyInt.int congress = Some a →
  PyInt.int restriction = Some b →
  a ≠ b →
  mirror_package env "BILLS" (congress +:+ bill_type +:+ bill_number +:+ version_code)
    lastmod options s
  = (Ret (RList []), s).
Proof.
  intros Hcongress Htype Hnumber Hversion Hopt Htruthy Ha Hb Hab.
  unfold mirror_package, get_output_path, get_bill_id_for_package.
  rewrite (rmatch_bill_package _ _ _ _ Hcongress Htype Hnumber Hversion).
  rewrite Hopt. change (get_str (Some restriction)) with restriction.
  cbn [Re.group nth Nat.sub].
  rewrite Htruthy, Ha, Hb.
  rewrite (bool_decide_eq_true_2 (a ≠ b)) by exact Hab.
  reflexivity.
Qed.

Lemma mirror_package_other_congress_witness :
  mirror_package (Sample.env Sample.remote) "BILLS" "115hr1625enr" "2020-12-31"
    (mkOptions None None None (Some " 0116") None None false false None None None)
    (∅, Sample.empty_world)
  = (Ret (RList []), (∅, Sample.empty_world)).
Proof.
  apply (mirror_package_other_congress (Sample.env Sample.remote) "115" "hr" "1625" "enr"
           "2020-12-31" _ " 0116" 115 116); try reflexivity.
  discriminate.
Defined.

Lemma prefix_app (l s : string) : String.prefix l (l +:+ s) = true.
Proof.
  induction l as [|c l IH]; [by destruct s|]. rewrite append_cons. simpl.
  destruct (ascii_dec c c) as [_|Hne]; [exact IH|by destruct Hne].
Qed.

Lemma run_lit {R} (l s : string) (gs : list string) (k : string → list string → option R) :
  Re.run (Re.Lit l) (l +:+ s) gs k = k s gs.
Proof.
  cbn [Re.run]. rewrite prefix_app.
  rewrite <- (Nat.add_0_r (String.length l)), drop_app. by destruct s.
Qed.

Lemma rmatch_collection_index (collection : string) :
  chars_of Re.is_word collection = true →
  Re.rmatch re_collection_index (COLLECTION_SITEMAPINDEX_PATTERN collection)
  = Some [collection].
Proof.
  intros Hword. unfold Re.rmatch, re_collection_index, COLLECTION_SITEMAPINDEX_PATTERN.
  change (Re.seq (?a :: ?b :: ?c :: ?rest)) with (Re.Seq a (Re.Seq b (Re.Seq c (Re.seq rest)))).
  rewrite run_seq, run_lit, run_seq, run_lit, run_seq.
  apply run_group_plus; [exact Hword|reflexivity|].
  intros j [Hpos Hj]. change (Re.span Re.is_word "_sitemap_index.xml") with 14 in Hj.
  do 15 (destruct j as [|j]; [first [lia|reflexivity]|]). lia.
Qed.

Lemma rmatch_bulkdata_index (collection : string) :
  chars_of Re.is_word collection = true →
  Re.rmatch re_bulkdata_index (BULKDATA_SITEMAPINDEX_PATTERN collection)
  = Some [collection].
Proof.
  intros Hword. unfold Re.rmatch, re_bulkdata_index, BULKDATA_SITEMAPINDEX_PATTERN.
  change (Re.seq (?a :: ?b :: ?c :: ?rest)) with (Re.Seq a (Re.Seq b (Re.Seq c (Re.seq rest)))).
  rewrite run_seq, run_lit, run_seq, run_lit, run_seq.
  apply run_group_plus; [exact Hword|reflexivity|].
  intros j [Hpos Hj]. change (Re.span Re.is_word "/sitemapindex.xml") with 0 in Hj. lia.
Qed.

Lemma bulkdata_index_other_shapes (collection : string) :
  Re.rmatch re_collection_index (BULKDATA_SITEMAPINDEX_PATTERN collection) = None
  ∧ Re.rmatch re_year_sitemap (BULKDATA_SITEMAPINDEX_PATTERN collection) = None.
Proof. split; vm_compute; reflexivity. Qed.

(** X13: The two root sitemaps that [run] asks for, for a collection named with
    word characters, are sitemap indexes: they are never skipped, whatever
    the filters, and their cache directories are the collection's name, with
    [-bulkdata] after it for the bulk data tree. *)
Theorem root_sitemaps_round_trip (collection : string) (options : Options) :
  chars_of Re.is_word collection = true →
  get_sitemap_cache_file (COLLECTION_SITEMAPINDEX_PATTERN collection) = Ret collection
  ∧ get_sitemap_cache_file (BULKDATA_SITEMAPINDEX_PATTERN collection)
    = Ret (collection +:+ "-bulkdata")
  ∧ should_skip_sitemap (COLLECTION_SITEMAPINDEX_PATTERN collection) options = false
  ∧ should_skip_sitemap (BULKDATA_SITEMAPINDEX_PATTERN collection) options = false.
Proof.
  intros Hword.
  pose proof (rmatch_collection_index collection Hword) as Hc.
  pose proof (rmatch_bulkdata_index collection Hword) as Hb.
  destruct (bulkdata_index_other_shapes collection) as [Hn1 Hn2].
  unfold get_sitemap_cache_file, should_skip_sitemap.
  rewrite Hc, Hb, Hn1, Hn2. repeat split; reflexivity.
Qed.

Lemma root_sitemaps_round_trip_witness :
  get_sitemap_cache_file "https://www.govinfo.gov/sitemap/BILLS_sitemap_index.xml" = Ret "BILLS"
  ∧ get_sitemap_cache_file "https://www.govinfo.gov/sitemap/bulkdata/BILLSTATUS/sitemapindex.xml"
    = Ret "BILLSTATUS-bulkdata".
Proof.
  split.
  - exact (proj1 (root_sitemaps_round_trip "BILLS" no_options eq_refl)).
  - exact (proj1 (proj2 (root_sitemaps_round_trip "BILLSTATUS" no_options eq_refl))).
Defined.

(** ** The flat-item mirror *)

Lemma mirror_bulkdata_file_run env collection url item_path lastmod options w :
  String.eqb collection "BILLSTATUS" = false →
  mirror_bulkdata_file env collection url item_path lastmod options w
  = let path := bulkdata_path env collection item_path in
    if bulkdata_current path lastmod options w then (Ret (RList [path]), w)
    else if path_exists path w && opt_cached options then (Ret RNone, w)
    else
      let answer := env_download env url path (bulkdata_request options) (fs w) in
      let w1 := mkWorld answer.2 (log w ++ [EvDownload url path (bulkdata_request options)]) in
      if body_ok answer.1
      then (Ret (RList [path]), set_fs <[bulkdata_marker path := lastmod]> w1)
      else (Ret RNone, w1).
Proof.
  intros Hflat.
  unfold mirror_bulkdata_file, bulkdata_current, bulkdata_path, bulkdata_marker,
    bulkdata_request.
  rewrite Hflat. unfold_monad. cbv zeta.
  destruct (path_exists _ w && negb (opt_force options)); cbv beta iota; cbn [andb];
    [destruct (bool_decide (Some lastmod = _)); [done|]|]; cbv beta iota;
    (destruct (path_exists _ w && opt_cached options); [done|]);
    unfold utils_download; cbv beta iota;
    destruct (env_download env _ _ _ _) as [body files]; cbn [fst snd];
    by destruct (body_ok body).
Qed.

(** X14: Whenever the flat-item mirror answers a list, the list is the item's
    path alone and the marker beside it holds the sitemap's timestamp; any
    later call for the same item and timestamp that is not forced gives the
    same answer and leaves the world as it is: nothing is fetched again. *)
Theorem mirror_bulkdata_file_converges
    (env : Environment) (collection url item_path lastmod : string) (options : Options)
    (w w' : World) (paths : list string) :
  String.eqb collection "BILLSTATUS" = false →
  mirror_bulkdata_file env collection url item_path lastmod options w
  = (Ret (RList paths), w') →
  paths = [bulkdata_path env collection item_path]
  ∧ fs w' !! bulkdata_marker (bulkdata_path env collection item_path) = Some lastmod
  ∧ ∀ url' options',
      opt_force options' = false →
      mirror_bulkdata_file env collection url' item_path lastmod options' w'
      = (Ret (RList paths), w').
Proof.
  intros Hflat Hrun.
  rewrite (mirror_bulkdata_file_run _ _ _ _ _ _ _ Hflat) in Hrun. cbv zeta in Hrun.
  set (path := bulkdata_path env collection item_path) in *.
  assert (paths = [path] ∧ fs w' !! bulkdata_marker path = Some lastmod) as [-> Hmarker].
  { destruct (bulkdata_current path lastmod options w) eqn:Hcurrent.
    - injection Hrun as <- <-. split; [reflexivity|].
      unfold bulkdata_current in Hcurrent.
      apply andb_prop in Hcurrent as [_ Heq]. apply bool_decide_eq_true_1 in Heq. by symmetry.
    - destruct (path_exists path w && opt_cached options); [discriminate Hrun|].
      destruct (body_ok _); [|discriminate Hrun].
      injection Hrun as <- <-. split; [reflexivity|].
      cbn [set_fs fs]. apply lookup_insert_eq. }
  split; [reflexivity|]. split; [exact Hmarker|].
  intros url' options' Hforce.
  rewrite (mirror_bulkdata_file_run _ _ _ _ _ _ _ Hflat). cbv zeta. fold path.
  unfold bulkdata_current, path_exists. rewrite Hmarker, Hforce.
  rewrite (bool_decide_eq_true_2 (is_Some (Some lastmod))) by (eexists; reflexivity).
  rewrite (bool_decide_eq_true_2 (Some lastmod = Some lastmod)) by reflexivity.
  reflexivity.
Qed.

(** X15: The flat-item mirror calls the transport at most once: exactly when the
    marker does not settle the matter and the file is not both on disk and
    asked for from the cache.  The request is for the item's URL and path,
    with the download forced, binary, and not routed to the cache. *)
Theorem mirror_bulkdata_file_fetch_decision
    (env : Environment) (collection url item_path lastmod : string) (options : Options)
    (w : World) :
  String.eqb collection "BILLSTATUS" = false →
  let path := bulkdata_path env collection item_path in
  log (mirror_bulkdata_file env collection url item_path lastmod options w).2
  = log w ++
    (if negb (bulkdata_current path lastmod options w)
        && negb (path_exists path w && opt_cached options)
     then [EvDownload url path (bulkdata_request options)] else [])
  ∧ opt_force (bulkdata_request options) = true
  ∧ opt_binary (bulkdata_request options) = Some true
  ∧ opt_to_cache (bulkdata_request options) = Some false.
Proof.
  intros Hflat path.
  rewrite (mirror_bulkdata_file_run _ _ _ _ _ _ _ Hflat). cbv zeta. fold path.
  split; [|by destruct options].
  destruct (bulkdata_current path lastmod options w); cbn [negb andb snd].
  { by rewrite app_nil_r. }
  destruct (path_exists path w && opt_cached options); cbn [negb snd].
  { by rewrite app_nil_r. }
  by destruct (body_ok _).
Qed.

(** X16: The flat-item mirror answers [None] in two cases only, both with a
    marker that does not settle the matter: the file is on disk and the run
    is cache-only, or the transport gave nothing. *)
Theorem mirror_bulkdata_file_answers_none
    (env : Environment) (collection url item_path lastmod : string) (options : Options)
    (w : World) :
  String.eqb collection "BILLSTATUS" = false →
  let path := bulkdata_path env collection item_path in
  (mirror_bulkdata_file env collection url item_path lastmod options w).1 = Ret RNone
  ↔ bulkdata_current path lastmod options w = false
    ∧ (path_exists path w && opt_cached options = true
       ∨ body_ok (env_download env url path (bulkdata_request options) (fs w)).1 = false).
Proof.
  intros Hflat path.
  rewrite (mirror_bulkdata_file_run _ _ _ _ _ _ _ Hflat). cbv zeta. fold path.
  destruct (bulkdata_current path lastmod options w); cbn [fst].
  { split; [discriminate|]. intros [H _]. discriminate H. }
  destruct (path_exists path w && opt_cached options); cbn [fst].
  { split; [|reflexivity]. intros _. split; [reflexivity|]. by left. }
  destruct (body_ok _); cbn [fst].
  - split; [discriminate|]. intros [_ [H|H]]; discriminate H.
  - split; [|reflexivity]. intros _. split; [reflexivity|]. by right.
Qed.

Lemma mirror_bulkdata_file_converges_witness :
  ∃ w',
    mirror_bulkdata_file
      (Sample.env {[ "https://www.govinfo.gov/bulkdata/FR/2020/FR-2020-01-02.xml" := "<FR/>" ]})
      "FR" "https://www.govinfo.gov/bulkdata/FR/2020/FR-2020-01-02.xml"
      "2020/FR-2020-01-02.xml" "2020-01-03" no_options Sample.empty_world
    = (Ret (RList ["data/govinfo/FR/2020/FR-2020-01-02.xml"]), w')
    ∧ fs w' !! "data/govinfo/FR/2020/FR-2020-01-02-lastmod.txt" = Some "2020-01-03"
    ∧ mirror_bulkdata_file
        (Sample.env {[ "https://www.govinfo.gov/bulkdata/FR/2020/FR-2020-01-02.xml" := "<FR/>" ]})
        "FR" "https://www.govinfo.gov/bulkdata/FR/2020/FR-2020-01-02.xml"
        "2020/FR-2020-01-02.xml" "2020-01-03" Sample.cached_statute w'
      = (Ret (RList ["data/govinfo/FR/2020/FR-2020-01-02.xml"]), w').
Proof.
  destruct (mirror_bulkdata_file
              (Sample.env {[ "https://www.govinfo.gov/bulkdata/FR/2020/FR-2020-01-02.xml"
                             := "<FR/>" ]})
              "FR" "https://www.govinfo.gov/bulkdata/FR/2020/FR-2020-01-02.xml"
              "2020/FR-2020-01-02.xml" "2020-01-03" no_options Sample.empty_world)
    as [r w'] eqn:Hfirst.
  assert (r = Ret (RList ["data/govinfo/FR/2020/FR-2020-01-02.xml"])) as ->.
  { apply (f_equal fst) in Hfirst. simpl in Hfirst. rewrite <- Hfirst. vm_compute. reflexivity. }
  exists w'. split; [reflexivity|].
  destruct (mirror_bulkdata_file_converges _ "FR" _ _ _ _ _ _ _ eq_refl Hfirst)
    as (_ & Hmarker & Hagain).
  split; [exact Hmarker|]. apply Hagain. reflexivity.
Defined.

Lemma mirror_bulkdata_file_fetch_decision_witness :
  log (mirror_bulkdata_file (Sample.env ∅) "FR"
         "https://www.govinfo.gov/bulkdata/FR/2020/FR-2020-01-02.xml"
         "2020/FR-2020-01-02.xml" "2020-01-04" Sample.cached_statute Sample.flat_world).2 = []
  ∧ log (mirror_bulkdata_file (Sample.env ∅) "FR"
           "https://www.govinfo.gov/bulkdata/FR/2020/FR-2020-01-02.xml"
           "2020/FR-2020-01-02.xml" "2020-01-04" no_options Sample.flat_world).2
    = [EvDownload "https://www.govinfo.gov/bulkdata/FR/2020/FR-2020-01-02.xml"
         "data/govinfo/FR/2020/FR-2020-01-02.xml" (bulkdata_request no_options)].
Proof.
  split.
  - etrans; [exact (proj1 (mirror_bulkdata_file_fetch_decision (Sample.env ∅) "FR"
                             "https://www.govinfo.gov/bulkdata/FR/2020/FR-2020-01-02.xml"
                             "2020/FR-2020-01-02.xml" "2020-01-04" Sample.cached_statute
                             Sample.flat_world eq_refl))|].
    vm_compute. reflexivity.
  - etrans; [exact (proj1 (mirror_bulkdata_file_fetch_decision (Sample.env ∅) "FR"
                             "https://www.govinfo.gov/bulkdata/FR/2020/FR-2020-01-02.xml"
                             "2020/FR-2020-01-02.xml" "2020-01-04" no_options
                             Sample.flat_world eq_refl))|].
    vm_compute. reflexivity.
Defined.

Lemma mirror_bulkdata_file_answers_none_witness :
  (mirror_bulkdata_file (Sample.env ∅) "FR"
     "https://www.govinfo.gov/bulkdata/FR/2020/FR-2020-01-02.xml"
     "2020/FR-2020-01-02.xml" "2020-01-04" Sample.cached_statute Sample.flat_world).1
  = Ret RNone.
Proof.
  apply (mirror_bulkdata_file_answers_none (Sample.env ∅) "FR"
           "https://www.govinfo.gov/bulkdata/FR/2020/FR-2020-01-02.xml"
           "2020/FR-2020-01-02.xml" "2020-01-04" Sample.cached_statute Sample.flat_world
           eq_refl).
  split; [vm_compute; reflexivity|]. left. vm_compute. reflexivity.
Defined.

Lemma run_group {R} (r : Re.regex) (s : string) (gs : list string)
    (k : string → list string → option R) :
  Re.run (Re.Group r) s gs k
  = Re.run r s gs
      (λ s' gs', k s' (gs' ++ [Py.take (String.length s - String.length s') s])).
Proof. reflexivity. Qed.

Lemma run_set {R} (p : ascii → bool) (c : ascii) (s : string) (gs : list string)
    (k : string → list string → option R) :
  p c = true → Re.run (Re.Set_ p) (String c s) gs k = k s gs.
Proof. intros Hc. cbn [Re.run]. by rewrite Hc. Qed.

Lemma is_hse_not_digit (c : ascii) : is_hse c = true → Re.is_digit c = false.
Proof.
  unfold is_hse. intros H.
  apply orb_prop in H as [H|H]; [apply orb_prop in H as [H|H]|];
    apply Ascii.eqb_eq in H; subst c; reflexivity.
Qed.

Lemma rmatch_crpt_package (congress : string) (c : ascii) (report_number : string) :
  chars_of Re.is_digit congress = true →
  is_hse c = true →
  chars_of Re.is_digit report_number = true →
  Re.rmatch re_crpt_package (congress +:+ String c "rpt" +:+ report_number)
  = Some [congress; String c "rpt"; report_number].
Proof.
  intros Hcongress Hc Hnumber. unfold Re.rmatch, re_crpt_package.
  change (Re.seq (?a :: ?b :: ?c :: ?rest)) with (Re.Seq a (Re.Seq b (Re.Seq c (Re.seq rest)))).
  rewrite run_seq.
  apply run_group_plus; [exact Hcongress| |].
  2: { intros j Hj. rewrite append_cons in Hj. simpl in Hj.
       rewrite (is_hse_not_digit c Hc) in Hj. lia. }
  cbv beta. rewrite run_seq, run_group, run_seq, append_cons, (run_set _ _ _ _ _ Hc).
  cbv beta. rewrite run_lit.
  change (String c ("rpt" +:+ report_number)) with (String c "rpt" +:+ report_number).
  rewrite group_text, run_seq.
  rewrite <- (append_empty report_number) at 1.
  apply run_group_plus; [exact Hnumber|reflexivity|].
  intros j Hj. simpl in Hj. lia.
Qed.

(** X17: A committee report named by a congress, one of [hrpt], [srpt] and
    [erpt], and a report number is stored under the congress, [crpt], the
    report type and the type followed by the number; it is skipped when a
    congress restriction is given whose text is not the congress of the name. *)
Theorem get_output_path_crpt
    (env : Environment) (congress : string) (c : ascii) (report_number : string)
    (options : Options) :
  chars_of Re.is_digit congress = true →
  is_hse c = true →
  chars_of Re.is_digit report_number = true →
  get_output_path env "CRPT" (congress +:+ String c "rpt" +:+ report_number) options
  = if Py.truthy (get_str (opt_congress options))
       && negb (String.eqb congress (get_str (opt_congress options)))
    then Ret None
    else Ret (Some (env_data_dir env +:+ "/" +:+ congress +:+ "/" +:+ "crpt" +:+ "/"
                    +:+ String c "rpt" +:+ "/" +:+ String c "rpt" +:+ report_number)).
Proof.
  intros Hcongress Hc Hnumber. unfold get_output_path.
  rewrite (bool_decide_eq_false_2 ("CRPT" = "BILLS")) by discriminate.
  rewrite (bool_decide_eq_true_2 ("CRPT" = "CRPT")) by reflexivity.
  rewrite (rmatch_crpt_package _ _ _ Hcongress Hc Hnumber). reflexivity.
Qed.

Lemma get_output_path_crpt_witness :
  get_output_path (Sample.env ∅) "CRPT" "116hrpt5" no_options
  = Ret (Some "data/116/crpt/hrpt/hrpt5")
  ∧ get_output_path (Sample.env ∅) "CRPT" "116hrpt5"
      (mkOptions None None None (Some "0116") None None false false None None None)
    = Ret None.
Proof.
  split.
  - exact (get_output_path_crpt (Sample.env ∅) "116" "h" "5" no_options
             eq_refl eq_refl eq_refl).
  - exact (get_output_path_crpt (Sample.env ∅) "116" "h" "5"
             (mkOptions None None None (Some "0116") None None false false None None None)
             eq_refl eq_refl eq_refl).
Defined.

(** ** Items of a sitemap, sorted into tasks *)

Lemma run_group_star_all {R} (p : ascii → bool) (g : string) (gs : list string)
    (k : string → list string → option R) (r : R) :
  OsPath.all_chars p g = true →
  k EmptyString (gs ++ [g]) = Some r →
  Re.run (Re.Group (Re.Star p)) g gs k = Some r.
Proof.
  intros Hall Hk. cbn [Re.run]. rewrite span_all by exact Hall.
  apply backtrack_longest; [lia|].
  rewrite drop_all. cbn [String.length]. rewrite Nat.sub_0_r, take_all. exact Hk.
Qed.

Lemma run_any {R} (c : ascii) (s : string) (gs : list string)
    (k : string → list string → option R) :
  Re.not_newline c = true → Re.run Re.Any (String c s) gs k = k s gs.
Proof. intros Hc. cbn [Re.run]. by rewrite Hc. Qed.

Lemma collection_base_pieces (x : string) :
  COLLECTION_BASE_URL +:+ x
  = "https://www" +:+ String "." ("govinfo" +:+ String "." ("gov/app/details/" +:+ x)).
Proof. reflexivity. Qed.

Lemma bulkdata_base_pieces (x : string) :
  BULKDATA_BASE_URL +:+ x
  = "https://www" +:+ String "." ("govinfo" +:+ String "." ("gov/bulkdata/" +:+ x)).
Proof. reflexivity. Qed.

Lemma rmatch_collection_item (collection package_name : string) :
  chars_of (Re.is_not "-") collection = true →
  OsPath.all_chars Re.not_newline package_name = true →
  Re.rmatch re_collection_item (COLLECTION_BASE_URL +:+ collection +:+ "-" +:+ package_name)
  = Some [collection; package_name].
Proof.
  intros Hcollection Hname. unfold Re.rmatch, re_collection_item.
  rewrite collection_base_pieces.
  change (Re.seq [?r1; ?r2; ?r3; ?r4; ?r5; ?r6; ?r7; ?r8])
    with (Re.Seq r1 (Re.Seq r2 (Re.Seq r3 (Re.Seq r4 (Re.Seq r5 (Re.Seq r6
            (Re.Seq r7 (Re.seq [r8])))))))).
  rewrite run_seq, run_lit, run_seq, run_any, run_seq, run_lit, run_seq, run_any by reflexivity.
  rewrite run_seq, run_lit, run_seq.
  apply run_group_plus; [exact Hcollection| |].
  2: { intros j Hj. rewrite append_cons in Hj. simpl in Hj. lia. }
  cbv beta. rewrite run_seq, run_lit.
  change (Re.seq [?a]) with (Re.Seq a (Re.Lit EmptyString)). rewrite run_seq.
  apply run_group_star_all; [exact Hname|reflexivity].
Qed.

Lemma rmatch_bulkdata_item (collection item_path : string) :
  chars_of (Re.is_not "/") collection = true →
  OsPath.all_chars Re.not_newline item_path = true →
  Re.rmatch re_collection_item (BULKDATA_BASE_URL +:+ collection +:+ "/" +:+ item_path) = None
  ∧ Re.rmatch re_bulkdata_item (BULKDATA_BASE_URL +:+ collection +:+ "/" +:+ item_path)
    = Some [collection; item_path].
Proof.
  intros Hcollection Hpath. split; [vm_compute; reflexivity|].
  unfold Re.rmatch, re_bulkdata_item. rewrite bulkdata_base_pieces.
  change (Re.seq [?r1; ?r2; ?r3; ?r4; ?r5; ?r6; ?r7; ?r8])
    with (Re.Seq r1 (Re.Seq r2 (Re.Seq r3 (Re.Seq r4 (Re.Seq r5 (Re.Seq r6
            (Re.Seq r7 (Re.seq [r8])))))))).
  rewrite run_seq, run_lit, run_seq, run_any, run_seq, run_lit, run_seq, run_any by reflexivity.
  rewrite run_seq, run_lit, run_seq.
  apply run_group_plus; [exact Hcollection| |].
  2: { intros j Hj. rewrite append_cons in Hj. simpl in Hj. lia. }
  cbv beta. rewrite run_seq, run_lit.
  change (Re.seq [?a]) with (Re.Seq a (Re.Lit EmptyString)). rewrite run_seq.
  apply run_group_star_all; [exact Hpath|reflexivity].
Qed.

(** X18: An item of a sitemap is sorted by its address.  Under the base address
    of the collections, the text up to the first dash is the collection and
    the rest is the package name, and the item becomes a package task; under
    the base address of the bulk data, the text up to the first slash is the
    collection and the rest is the item's path, and the item becomes a
    flat-item task that keeps the address.  An item whose name the filter
    rejects is dropped; only a package that is kept makes sure that the store
    has a dictionary of packages. *)
Theorem collect_tasks_sorts_items
    (env : Environment) (how_we_got_here : list string) (options : Options)
    (collection name lastmod : string) (rest : list (string * string))
    (package_tasks : list package_task) (bulkdata_tasks : list bulkdata_task)
    (store : Store) :
  OsPath.all_chars Re.not_newline name = true →
  (chars_of (Re.is_not "-") collection = true →
   collect_tasks env how_we_got_here options
     ((COLLECTION_BASE_URL +:+ collection +:+ "-" +:+ name, lastmod) :: rest)
     package_tasks bulkdata_tasks store
   = if filtered_out env options name
     then collect_tasks env how_we_got_here options rest package_tasks bulkdata_tasks store
     else collect_tasks env how_we_got_here options rest
            (package_tasks ++ [mkPackageTask collection name lastmod]) bulkdata_tasks
            (setdefault_packages store))
  ∧ (chars_of (Re.is_not "/") collection = true →
     collect_tasks env how_we_got_here options
       ((BULKDATA_BASE_URL +:+ collection +:+ "/" +:+ name, lastmod) :: rest)
       package_tasks bulkdata_tasks store
     = if filtered_out env options name
       then collect_tasks env how_we_got_here options rest package_tasks bulkdata_tasks store
       else collect_tasks env how_we_got_here options rest package_tasks
              (bulkdata_tasks
               ++ [mkBulkdataTask collection
                     (BULKDATA_BASE_URL +:+ collection +:+ "/" +:+ name) name lastmod])
              store).
Proof.
  intros Hname. split; intros Hcollection.
  - cbn [collect_tasks].
    rewrite (rmatch_collection_item _ _ Hcollection Hname).
    cbn [Re.group Nat.sub nth].
    destruct (filtered_out env options name); [reflexivity|].
    unfold_monad. reflexivity.
  - cbn [collect_tasks].
    destruct (rmatch_bulkdata_item _ _ Hcollection Hname) as [-> ->].
    cbn [Re.group Nat.sub nth].
    destruct (filtered_out env options name); reflexivity.
Qed.

Lemma collect_tasks_sorts_items_witness :
  collect_tasks (Sample.env ∅) [] no_options
    [("https://www.govinfo.gov/app/details/BILLS-116hr1625enr", "2020-12-31");
     ("https://www.govinfo.gov/bulkdata/FR/2020/FR-2020-01-02.xml", "2020-01-03")]
    [] [] empty_store
  = (Ret ([mkPackageTask "BILLS" "116hr1625enr" "2020-12-31"],
          [mkBulkdataTask "FR" "https://www.govinfo.gov/bulkdata/FR/2020/FR-2020-01-02.xml"
             "2020/FR-2020-01-02.xml" "2020-01-03"]),
     setdefault_packages empty_store).
Proof.
  etrans.
  { exact (proj1 (collect_tasks_sorts_items (Sample.env ∅) [] no_options "BILLS"
                    "116hr1625enr" "2020-12-31"
                    [("https://www.govinfo.gov/bulkdata/FR/2020/FR-2020-01-02.xml",
                      "2020-01-03")] [] [] empty_store eq_refl) eq_refl). }
  cbv beta iota. change (filtered_out (Sample.env ∅) no_options "116hr1625enr") with false.
  cbv beta iota.
  etrans.
  { exact (proj2 (collect_tasks_sorts_items (Sample.env ∅) [] no_options "FR"
                    "2020/FR-2020-01-02.xml" "2020-01-03" []
                    [mkPackageTask "BILLS" "116hr1625enr" "2020-12-31"] []
                    (setdefault_packages empty_store) eq_refl) eq_refl). }
  reflexivity.
Defined.

(** ** The sitemap of a collection for one year *)

Lemma backtrack_none {R} (k : nat → option R) (lo n : nat) :
  (∀ m, (m ≤ n)%nat → k m = None) → Re.backtrack k lo n = None.
Proof.
  induction n as [|n IH]; intros Hnone; rewrite backtrack_eq;
    destruct (Nat.ltb _ lo); try reflexivity; rewrite Hnone by lia; [reflexivity|].
  apply IH. intros m Hm. apply Hnone. lia.
Qed.

(** Where [n] characters into [s +:+ t] is: at a character of [s], or [j]
    characters into [t]. *)
Lemma drop_cases (p : ascii → bool) (s t : string) (n : nat) :
  OsPath.all_chars p s = true →
  (∃ c r, p c = true ∧ Py.drop n (s +:+ t) = String c r)
  ∨ (∃ j, Py.drop n (s +:+ t) = Py.drop j t).
Proof.
  revert n. induction s as [|c s IH]; intros n Hall.
  - right. exists n. reflexivity.
  - apply andb_prop in Hall as [Hc Hs]. rewrite append_cons. destruct n as [|n].
    + left. exists c, (s +:+ t). split; [exact Hc|reflexivity].
    + cbn [Py.drop]. apply IH, Hs.
Qed.

Lemma run_lit_mismatch {R} (x : ascii) (l : string) (c : ascii) (s : string)
    (gs : list string) (k : string → list string → option R) :
  x ≠ c → Re.run (Re.Lit (String x l)) (String c s) gs k = None.
Proof. intros Hne. cbn [Re.run String.prefix]. by destruct (ascii_dec x c). Qed.

Lemma prefix_mismatch (l1 : string) (x : ascii) (l2 : string) (y : ascii) (t : string) :
  x ≠ y → String.prefix (l1 +:+ String x l2) (l1 +:+ String y t) = false.
Proof.
  intros Hne. induction l1 as [|c l1 IH].
  - rewrite !append_nil. cbn [String.prefix]. by destruct (ascii_dec x y).
  - rewrite !append_cons. cbn [String.prefix].
    destruct (ascii_dec c c) as [_|Hcc]; [exact IH|reflexivity].
Qed.

Lemma chars_of_cons (p : ascii → bool) (s : string) :
  chars_of p s = true → ∃ c r, s = String c r ∧ p c = true ∧ OsPath.all_chars p s = true.
Proof.
  intros [Hs Hall]%andb_prop. destruct s as [|c r]; [discriminate|].
  exists c, r. split; [reflexivity|]. split; [|exact Hall].
  by apply andb_prop in Hall as [Hc _].
Qed.

(** Nothing in the address of a year's sitemap, from the collection on,
    starts the tail of the address of a collection's index. *)
Lemma year_sitemap_not_collection_index (collection year : string) :
  chars_of Re.is_upper collection = true →
  chars_of Re.is_digit year = true →
  Re.rmatch re_collection_index
    (GOVINFO_BASE_URL +:+ "sitemap/" +:+ collection +:+ "_" +:+ year +:+ "_sitemap.xml")
  = None.
Proof.
  intros (_ & _ & _ & _ & Hcollection)%chars_of_cons (d & y & -> & Hd & Hyear)%chars_of_cons.
  unfold Re.rmatch, re_collection_index.
  change (Re.seq (?a :: ?b :: ?c :: ?rest)) with (Re.Seq a (Re.Seq b (Re.Seq c (Re.seq rest)))).
  rewrite run_seq, run_lit, run_seq, run_lit, run_seq. cbn [Re.run Re.seq foldr].
  apply backtrack_none. intros m _.
  assert (String.prefix "_sitemap_index"
            (Py.drop m (collection +:+ "_" +:+ String d y +:+ "_sitemap.xml")) = false)
    as ->; [|reflexivity].
  destruct (drop_cases Re.is_upper collection ("_" +:+ String d y +:+ "_sitemap.xml") m
              Hcollection) as [(c & r & Hc & ->)|[j ->]].
  { apply (prefix_mismatch EmptyString). intros <-. discriminate Hc. }
  destruct j as [|j].
  { apply (prefix_mismatch "_" "s" "itemap_index" d (y +:+ "_sitemap.xml")).
    intros <-. discriminate Hd. }
  change (Py.drop (S j) ("_" +:+ String d y +:+ "_sitemap.xml"))
    with (Py.drop j (String d y +:+ "_sitemap.xml")).
  destruct (drop_cases Re.is_digit (String d y) "_sitemap.xml" j Hyear)
    as [(c & r & Hc & ->)|[i ->]].
  { apply (prefix_mismatch EmptyString). intros <-. discriminate Hc. }
  do 13 (destruct i as [|i]; [reflexivity|]). reflexivity.
Qed.

Lemma year_sitemap_not_bulkdata_index (collection rest : string) :
  chars_of Re.is_upper collection = true →
  Re.rmatch re_bulkdata_index (GOVINFO_BASE_URL +:+ "sitemap/" +:+ collection +:+ rest) = None.
Proof.
  intros (c & r & -> & Hc & _)%chars_of_cons.
  unfold Re.rmatch, re_bulkdata_index.
  change (Re.seq (?a :: ?b :: ?rest')) with (Re.Seq a (Re.Seq b (Re.seq rest'))).
  rewrite run_seq, run_lit, run_seq. cbn [Re.run].
  assert (String.prefix "sitemap/bulkdata/" ("sitemap/" +:+ String c r +:+ rest) = false)
    as ->; [|reflexivity].
  apply (prefix_mismatch "sitemap/" "b" "ulkdata/" c (r +:+ rest)).
  intros <-. discriminate Hc.
Qed.

Lemma rmatch_year_sitemap (collection year : string) :
  chars_of Re.is_upper collection = true →
  chars_of Re.is_digit year = true →
  Re.rmatch re_year_sitemap
    (GOVINFO_BASE_URL +:+ "sitemap/" +:+ collection +:+ "_" +:+ year +:+ "_sitemap.xml")
  = Some [collection; year].
Proof.
  intros Hcollection Hyear.
  destruct (chars_of_cons _ _ Hyear) as (d & y & Hy & Hd & Hdigits).
  unfold Re.rmatch, re_year_sitemap.
  change (Re.seq (?a :: ?b :: ?c :: ?rest)) with (Re.Seq a (Re.Seq b (Re.Seq c (Re.seq rest)))).
  rewrite run_seq, run_lit, run_seq, run_lit, run_seq.
  apply run_group_plus.
  - apply andb_prop in Hcollection as [Hc Hall]. unfold chars_of. rewrite Hc. cbn [andb].
    clear Hc. induction collection as [|c s IH]; [reflexivity|]. simpl in Hall |- *.
    apply andb_prop in Hall as [Hc Hs]. rewrite IH by exact Hs.
    unfold Re.is_word. rewrite Hc. by rewrite !orb_true_r.
  - change (Re.seq (?a :: ?b :: ?rest)) with (Re.Seq a (Re.Seq b (Re.seq rest))).
    rewrite run_seq, run_lit, run_seq.
    apply run_group_plus; [exact Hyear|reflexivity|].
    intros j Hj. simpl in Hj. lia.
  - intros j [Hpos _]. destruct j as [|j]; [lia|].
    change (Py.drop (S j) ("_" +:+ year +:+ "_sitemap.xml"))
      with (Py.drop j (year +:+ "_sitemap.xml")).
    change (Re.seq (?a :: ?rest)) with (Re.Seq a (Re.seq rest)). rewrite run_seq.
    destruct (drop_cases Re.is_digit year "_sitemap.xml" j Hdigits)
      as [(c & r & Hc & ->)|[i ->]].
    + apply run_lit_mismatch. intros <-. discriminate Hc.
    + do 13 (destruct i as [|i]; [reflexivity|]). reflexivity.
Qed.

(** X19: The sitemap of a collection for one year, at the address the service
    gives it: it is kept in the cache under the collection and the year, and
    it is skipped exactly when a year filter is given that does not list the
    year; the congress filter has no say. *)
Theorem year_sitemap_round_trip (collection year : string) (options : Options) :
  chars_of Re.is_upper collection = true →
  chars_of Re.is_digit year = true →
  let url :=
    GOVINFO_BASE_URL +:+ "sitemap/" +:+ collection +:+ "_" +:+ year +:+ "_sitemap.xml" in
  get_sitemap_cache_file url = Ret (collection +:+ "/" +:+ year)
  ∧ should_skip_sitemap url options = excludes (opt_years options) year.
Proof.
  intros Hcollection Hyear url.
  pose proof (year_sitemap_not_collection_index _ _ Hcollection Hyear) as Hindex.
  pose proof (year_sitemap_not_bulkdata_index collection ("_" +:+ year +:+ "_sitemap.xml")
                Hcollection) as Hbulk.
  pose proof (rmatch_year_sitemap _ _ Hcollection Hyear) as Hmatch.
  fold url in Hindex, Hbulk, Hmatch.
  unfold get_sitemap_cache_file, should_skip_sitemap, excludes.
  rewrite Hindex, Hbulk, Hmatch.
  rewrite (year_sitemap_not_bulkdata url) by (rewrite Hmatch; eexists; reflexivity).
  cbn [Re.group Nat.sub nth]. split; [reflexivity|].
  by destruct (_ && _).
Qed.

Lemma year_sitemap_round_trip_witness :
  get_sitemap_cache_file "https://www.govinfo.gov/sitemap/STATUTE_2020_sitemap.xml"
  = Ret "STATUTE/2020"
  ∧ should_skip_sitemap "https://www.govinfo.gov/sitemap/STATUTE_2020_sitemap.xml"
      (Sample.years "2019,2021") = true.
Proof.
  exact (year_sitemap_round_trip "STATUTE" "2020" (Sample.years "2019,2021") eq_refl eq_refl).
Defined.

(** ** A store whose directory is not there *)

(** X20: Nothing makes the directory of the store file.  When it is not on
    disk once the sitemap has been processed, as on a first run whose
    download fails, [update_sitemap] raises [FileNotFoundError] for the store
    file in place of the outcome of the processing, and the store is not
    written: the world is as the processing left it. *)
Theorem update_sitemap_missing_directory
    env (depth : nat) (url : string) (current_lastmod : option string)
    (how_we_got_here : list string) (options : Options) (w : World) (name : string)
    (store : Store) (r : result (list retval)) (store' : Store) (w2 : World) :
  should_skip_sitemap url options = false →
  get_sitemap_cache_file url = Ret name →
  load_store env (sitemap_lastmod_cache_file env name) w = (Ret (YamlMapping store), w) →
  update_sitemap2 env depth url current_lastmod (how_we_got_here ++ [url]) options
    (sitemap_cache_file name) (store, w)
  = (r, (store', w2)) →
  dir_exists (OsPath.dirname (sitemap_lastmod_cache_file env name)) w2 = false →
  update_sitemap env depth url current_lastmod how_we_got_here options w
  = (Raise (FileNotFoundError (sitemap_lastmod_cache_file env name)), w2).
Proof.
  intros Hskip Hname Hload Hrun Hdir.
  unfold update_sitemap, update_sitemap_with. rewrite Hskip, Hname.
  cbv zeta. unfold mbind, M_bind. rewrite Hload.
  unfold finally_dump. rewrite Hrun. unfold dump_store. by rewrite Hdir.
Qed.

Lemma update_sitemap_missing_directory_witness :
  update_sitemap (Sample.env ∅) 5 "https://www.govinfo.gov/sitemap/STATUTE_sitemap_index.xml"
    None [] no_options Sample.empty_world
  = (Raise (FileNotFoundError "govinfo/sitemap/STATUTE/sitemap-lastmod.yaml"),
     mkWorld ∅
       [EvDownload "https://www.govinfo.gov/sitemap/STATUTE_sitemap_index.xml"
          "govinfo/sitemap/STATUTE/sitemap.xml"
          (merge no_options (Some true) (Some true) None None)]).
Proof.
  apply (update_sitemap_missing_directory (Sample.env ∅) 5
           "https://www.govinfo.gov/sitemap/STATUTE_sitemap_index.xml" None [] no_options
           Sample.empty_world "STATUTE" empty_store (Ret []) empty_store).
  - vm_compute. reflexivity.
  - vm_compute. reflexivity.
  - vm_compute. reflexivity.
  - vm_compute. reflexivity.
  - vm_compute. reflexivity.
Defined.
